(** * Verification of the OLT Telnet session engine (api-olt-telnet)

    Shallow embedding of the session manager [OltTelnetManager]
    (src/index.js, the version with pagination support, and
    src/services/OltTelnetManager.js, the version used by the routes) and
    of the response formatter (src/unnamed/part_001, utils/responseFormatter).

    JS strings are modelled as Rocq [string]s (one 8-bit [ascii] per
    character); the JS string primitives used by the code ([trim],
    [endsWith], [includes], [indexOf], [lastIndexOf], [substring],
    [split(/\s+/)], regex replaces) are written out below. *)

From Stdlib Require Import Bool Arith NArith Lia List.
From Stdlib Require Import Strings.String Strings.Ascii.
Import ListNotations.
Open Scope string_scope.

(* ------------------------------------------------------------------ *)
(** ** JS string primitives *)

Module JsString.

(** Characters matched by JS [\s] and removed by [String.prototype.trim]
    (restricted to 8-bit characters: TAB, LF, VT, FF, CR, SPACE, NBSP). *)
Definition is_ws (c : ascii) : bool :=
  match nat_of_ascii c with
  | 9 | 10 | 11 | 12 | 13 | 32 | 160 => true
  | _ => false
  end.

(** Right trim. *)
Fixpoint trim_end (s : string) : string :=
  match s with
  | EmptyString => EmptyString
  | String c r =>
      let r' := trim_end r in
      match r' with
      | EmptyString => if is_ws c then EmptyString else String c EmptyString
      | _ => String c r'
      end
  end.

(** Left trim. *)
Fixpoint trim_start (s : string) : string :=
  match s with
  | EmptyString => EmptyString
  | String c r => if is_ws c then trim_start r else s
  end.

(** [s.trim()] *)
Definition trim (s : string) : string := trim_start (trim_end s).

Fixpoint rev_str (s : string) : string :=
  match s with
  | EmptyString => EmptyString
  | String c r => rev_str r ++ String c EmptyString
  end.

(** [s.endsWith(p)] *)
Definition ends_with (s p : string) : bool :=
  String.prefix (rev_str p) (rev_str s).

(** [s.includes(p)] *)
Fixpoint includes (s p : string) : bool :=
  String.prefix p s ||
  match s with
  | EmptyString => false
  | String _ r => includes r p
  end.

(** [s.indexOf(p)]: [None] stands for [-1]. *)
Fixpoint index_of (s p : string) : option nat :=
  if String.prefix p s then Some 0 else
  match s with
  | EmptyString => None
  | String _ r => option_map S (index_of r p)
  end.

(** [s.indexOf(p, from)] *)
Definition index_of_from (s p : string) (from : nat) : option nat :=
  option_map (Nat.add from) (index_of (String.substring from (String.length s - from) s) p).

(** [s.lastIndexOf(p)] *)
Fixpoint last_index_of (s p : string) : option nat :=
  match s with
  | EmptyString => if String.prefix p s then Some 0 else None
  | String _ r =>
      match last_index_of r p with
      | Some i => Some (S i)
      | None => if String.prefix p s then Some 0 else None
      end
  end.

(** Control characters, written [\n], [\r], [\x08], [\x1b] in the JS
    source (Rocq string literals have no escapes). *)
Definition chr (n : nat) : string := String (ascii_of_nat n) EmptyString.
Definition NL : string := chr 10.
Definition CR : string := chr 13.
Definition BS : string := chr 8.
Definition ESC : string := chr 27.

(** [s.substring(0, n)] and [s.substring(n)] for [n <= s.length]. *)
Definition take (n : nat) (s : string) : string := String.substring 0 n s.
Definition drop (n : nat) (s : string) : string :=
  String.substring n (String.length s - n) s.

End JsString.

Import JsString.

(* ------------------------------------------------------------------ *)
(** ** Prompt derivation ([updateCurrentPrompt]) *)

(** The part of the session state that [updateCurrentPrompt] reads and
    writes. *)
Record prompt_state := mkPromptState {
  ps_currentPrompt : string;
  ps_inConfigMode : bool
}.

(** [updateCurrentPrompt] of src/index.js (lines 817-839). *)
Definition updateCurrentPrompt_index (buf : string) (st : prompt_state)
  : prompt_state :=
  let buffer := trim buf in
  if ends_with buffer "(config)#" then mkPromptState "(config)#" true
  else if ends_with buffer "(config-if)#" then mkPromptState "(config-if)#" true
  else if ends_with buffer "#" then mkPromptState "#" (ps_inConfigMode st)
  else if ends_with buffer ">" then mkPromptState ">" (ps_inConfigMode st)
  else st.

(** [updateCurrentPrompt] of src/services/OltTelnetManager.js
    (lines 209-222). *)
Definition updateCurrentPrompt_services (buf : string) (st : prompt_state)
  : prompt_state :=
  let buffer := trim buf in
  if ends_with buffer "#" then mkPromptState "#" (ps_inConfigMode st)
  else if ends_with buffer ">" then mkPromptState ">" (ps_inConfigMode st)
  else if ends_with buffer "(config)#" then mkPromptState "(config)#" true
  else if ends_with buffer "(config-if)#" then mkPromptState "(config-if)#" true
  else st.

(** The four command-terminal prompts ([detectCommandPrompt]). *)
Definition command_prompts : list string := [">"; "#"; "(config)#"; "(config-if)#"].

(** Specification of prompt derivation: the longest of the known prompts
    that the trimmed buffer ends with. *)
Definition longest_prompt_suffix (buffer : string) : option string :=
  fold_left
    (fun acc p =>
       if ends_with buffer p then
         match acc with
         | Some q => if Nat.ltb (String.length q) (String.length p) then Some p else acc
         | None => Some p
         end
       else acc)
    command_prompts None.


(* ------------------------------------------------------------------ *)
(** ** Response extraction ([extractCommandResponse]) *)

(** Echo removal: [indexOf(lastCommand)], then drop everything up to and
    including the next newline (both versions, lines 781-787 / 186-192). *)
Definition strip_echo (lastCommand response : string) : string :=
  match index_of response lastCommand with
  | Some i =>
      match index_of_from response NL i with
      | Some j => drop (S j) response
      | None => response
      end
  | None => response
  end.

(** The [while ((moreIndex = response.indexOf('--More--')) !== -1)] loop of
    src/index.js (lines 790-800).  Every iteration removes at least the
    eight characters of the marker, so [String.length response] iterations
    are enough for the loop to exit. *)
Fixpoint strip_more_loop (fuel : nat) (response : string) : string :=
  match fuel with
  | O => response
  | S fuel' =>
      match index_of response "--More--" with
      | None => response
      | Some m =>
          match index_of_from response NL m with
          | Some n => strip_more_loop fuel' (take m response ++ drop (S n) response)
          | None => take m response
          end
      end
  end.

Definition strip_more (response : string) : string :=
  strip_more_loop (String.length response) response.

(** Final-prompt removal: [for (const prompt of prompts)] with
    [prompts = ['>', '#', '(config)#', '(config-if)#']]; on the first
    prompt the trimmed response ends with, cut at [lastIndexOf(prompt)] and
    [break]. *)
Fixpoint strip_prompt_loop (prompts : list string) (response : string) : string :=
  match prompts with
  | [] => response
  | p :: ps =>
      if ends_with (trim response) p then
        match last_index_of response p with
        | Some k => take k response
        | None => EmptyString (* substring(0, -1) *)
        end
      else strip_prompt_loop ps response
  end.

(** [extractCommandResponse(inputBuffer)] of src/index.js (lines 776-812);
    [response] is [inputBuffer || this.buffer]. *)
Definition extractCommandResponse_index (lastCommand response : string) : string :=
  trim (strip_prompt_loop command_prompts (strip_more (strip_echo lastCommand response))).

(** [extractCommandResponse()] of src/services/OltTelnetManager.js
    (lines 181-204), which has no [--More--] loop. *)
Definition extractCommandResponse_services (lastCommand response : string) : string :=
  trim (strip_prompt_loop command_prompts (strip_echo lastCommand response)).

(** The longest-suffix rule for prompt removal, as the spec states it: cut
    the longest known prompt the trimmed response ends with. *)
Definition strip_longest_prompt (response : string) : string :=
  match longest_prompt_suffix (trim response) with
  | Some p =>
      match last_index_of response p with
      | Some k => take k response
      | None => EmptyString
      end
  | None => response
  end.

(* ------------------------------------------------------------------ *)
(** ** Prompt and pagination detection *)

Definition detectLoginSuccess (buffer : string) : bool :=
  existsb (fun p => ends_with (trim buffer) p) [">"; "#"; "$"].

Definition detectLoginFailure (buffer : string) : bool :=
  existsb (includes buffer)
    ["Login incorrect"; "Authentication failed"; "Login failed";
     "Invalid username or password"].

Definition detectCommandPrompt (buffer : string) : bool :=
  existsb (fun p => ends_with (trim buffer) p) command_prompts.

Definition MORE : string := "--More--".


(* ------------------------------------------------------------------ *)
(** ** Session state of [OltTelnetManager] (src/index.js, lines 477-494) *)

Module Session.

(** A command timer armed by [sendCommand]: [setTimeout(cb, timeoutDuration)];
    [t_id] names the promise whose [resolve]/[reject] the callback holds. *)
Record timer := mkTimer { t_id : nat; t_cmd : string; t_ms : N }.

(** Where an [async enterConfigMode()] call is suspended: on the
    [await this.enterEnableMode()] (which awaits [sendCommand('enable')],
    promise [id]) or on [await this.sendCommand('configure terminal')]. *)
Inductive cfg_task := TEnable (id : nat) | TConfigure (id : nat).

Record session := mkSession {
  buffer : string;
  connected : bool;
  loggedIn : bool;
  inConfigMode : bool;
  currentPrompt : string;
  waitingForResponse : bool;
  responseResolver : option (nat * string); (* the pending [sendCommand] promise: its id and the command its closure formats for *)
  enablePassword : string;
  lastCommand : string;
  accumulatedResponse : string;
  pageCount : nat;
  currentCommandTimeout : option nat; (* id of the timer armed by the last [sendCommand] *)
  username : string; (* captured by the [data] handler closure of [connect] *)
  password : string;
  liveTimers : list timer; (* command timers armed and neither cleared nor fired *)
  connectTimerLive : bool; (* the connection timer of [connect] is armed *)
  nextId : nat; (* next promise id (one per [sendCommand] call) *)
  configTask : option cfg_task (* [enterConfigMode] suspended on an [await] *)
}.

(** Field updates ([this.f = v]). *)
Definition set_buffer (s : session) (v : string) : session :=
  {| buffer := v; connected := connected s; loggedIn := loggedIn s; inConfigMode := inConfigMode s; currentPrompt := currentPrompt s; waitingForResponse := waitingForResponse s; responseResolver := responseResolver s; enablePassword := enablePassword s; lastCommand := lastCommand s; accumulatedResponse := accumulatedResponse s; pageCount := pageCount s; currentCommandTimeout := currentCommandTimeout s; username := username s; password := password s; liveTimers := liveTimers s; connectTimerLive := connectTimerLive s; nextId := nextId s; configTask := configTask s |}.
Definition set_connected (s : session) (v : bool) : session :=
  {| buffer := buffer s; connected := v; loggedIn := loggedIn s; inConfigMode := inConfigMode s; currentPrompt := currentPrompt s; waitingForResponse := waitingForResponse s; responseResolver := responseResolver s; enablePassword := enablePassword s; lastCommand := lastCommand s; accumulatedResponse := accumulatedResponse s; pageCount := pageCount s; currentCommandTimeout := currentCommandTimeout s; username := username s; password := password s; liveTimers := liveTimers s; connectTimerLive := connectTimerLive s; nextId := nextId s; configTask := configTask s |}.
Definition set_loggedIn (s : session) (v : bool) : session :=
  {| buffer := buffer s; connected := connected s; loggedIn := v; inConfigMode := inConfigMode s; currentPrompt := currentPrompt s; waitingForResponse := waitingForResponse s; responseResolver := responseResolver s; enablePassword := enablePassword s; lastCommand := lastCommand s; accumulatedResponse := accumulatedResponse s; pageCount := pageCount s; currentCommandTimeout := currentCommandTimeout s; username := username s; password := password s; liveTimers := liveTimers s; connectTimerLive := connectTimerLive s; nextId := nextId s; configTask := configTask s |}.
Definition set_inConfigMode (s : session) (v : bool) : session :=
  {| buffer := buffer s; connected := connected s; loggedIn := loggedIn s; inConfigMode := v; currentPrompt := currentPrompt s; waitingForResponse := waitingForResponse s; responseResolver := responseResolver s; enablePassword := enablePassword s; lastCommand := lastCommand s; accumulatedResponse := accumulatedResponse s; pageCount := pageCount s; currentCommandTimeout := currentCommandTimeout s; username := username s; password := password s; liveTimers := liveTimers s; connectTimerLive := connectTimerLive s; nextId := nextId s; configTask := configTask s |}.
Definition set_currentPrompt (s : session) (v : string) : session :=
  {| buffer := buffer s; connected := connected s; loggedIn := loggedIn s; inConfigMode := inConfigMode s; currentPrompt := v; waitingForResponse := waitingForResponse s; responseResolver := responseResolver s; enablePassword := enablePassword s; lastCommand := lastCommand s; accumulatedResponse := accumulatedResponse s; pageCount := pageCount s; currentCommandTimeout := currentCommandTimeout s; username := username s; password := password s; liveTimers := liveTimers s; connectTimerLive := connectTimerLive s; nextId := nextId s; configTask := configTask s |}.
Definition set_waitingForResponse (s : session) (v : bool) : session :=
  {| buffer := buffer s; connected := connected s; loggedIn := loggedIn s; inConfigMode := inConfigMode s; currentPrompt := currentPrompt s; waitingForResponse := v; responseResolver := responseResolver s; enablePassword := enablePassword s; lastCommand := lastCommand s; accumulatedResponse := accumulatedResponse s; pageCount := pageCount s; currentCommandTimeout := currentCommandTimeout s; username := username s; password := password s; liveTimers := liveTimers s; connectTimerLive := connectTimerLive s; nextId := nextId s; configTask := configTask s |}.
Definition set_responseResolver (s : session) (v : option (nat * string)) : session :=
  {| buffer := buffer s; connected := connected s; loggedIn := loggedIn s; inConfigMode := inConfigMode s; currentPrompt := currentPrompt s; waitingForResponse := waitingForResponse s; responseResolver := v; enablePassword := enablePassword s; lastCommand := lastCommand s; accumulatedResponse := accumulatedResponse s; pageCount := pageCount s; currentCommandTimeout := currentCommandTimeout s; username := username s; password := password s; liveTimers := liveTimers s; connectTimerLive := connectTimerLive s; nextId := nextId s; configTask := configTask s |}.
Definition set_enablePassword (s : session) (v : string) : session :=
  {| buffer := buffer s; connected := connected s; loggedIn := loggedIn s; inConfigMode := inConfigMode s; currentPrompt := currentPrompt s; waitingForResponse := waitingForResponse s; responseResolver := responseResolver s; enablePassword := v; lastCommand := lastCommand s; accumulatedResponse := accumulatedResponse s; pageCount := pageCount s; currentCommandTimeout := currentCommandTimeout s; username := username s; password := password s; liveTimers := liveTimers s; connectTimerLive := connectTimerLive s; nextId := nextId s; configTask := configTask s |}.
Definition set_lastCommand (s : session) (v : string) : session :=
  {| buffer := buffer s; connected := connected s; loggedIn := loggedIn s; inConfigMode := inConfigMode s; currentPrompt := currentPrompt s; waitingForResponse := waitingForResponse s; responseResolver := responseResolver s; enablePassword := enablePassword s; lastCommand := v; accumulatedResponse := accumulatedResponse s; pageCount := pageCount s; currentCommandTimeout := currentCommandTimeout s; username := username s; password := password s; liveTimers := liveTimers s; connectTimerLive := connectTimerLive s; nextId := nextId s; configTask := configTask s |}.
Definition set_accumulatedResponse (s : session) (v : string) : session :=
  {| buffer := buffer s; connected := connected s; loggedIn := loggedIn s; inConfigMode := inConfigMode s; currentPrompt := currentPrompt s; waitingForResponse := waitingForResponse s; responseResolver := responseResolver s; enablePassword := enablePassword s; lastCommand := lastCommand s; accumulatedResponse := v; pageCount := pageCount s; currentCommandTimeout := currentCommandTimeout s; username := username s; password := password s; liveTimers := liveTimers s; connectTimerLive := connectTimerLive s; nextId := nextId s; configTask := configTask s |}.
Definition set_pageCount (s : session) (v : nat) : session :=
  {| buffer := buffer s; connected := connected s; loggedIn := loggedIn s; inConfigMode := inConfigMode s; currentPrompt := currentPrompt s; waitingForResponse := waitingForResponse s; responseResolver := responseResolver s; enablePassword := enablePassword s; lastCommand := lastCommand s; accumulatedResponse := accumulatedResponse s; pageCount := v; currentCommandTimeout := currentCommandTimeout s; username := username s; password := password s; liveTimers := liveTimers s; connectTimerLive := connectTimerLive s; nextId := nextId s; configTask := configTask s |}.
Definition set_currentCommandTimeout (s : session) (v : option nat) : session :=
  {| buffer := buffer s; connected := connected s; loggedIn := loggedIn s; inConfigMode := inConfigMode s; currentPrompt := currentPrompt s; waitingForResponse := waitingForResponse s; responseResolver := responseResolver s; enablePassword := enablePassword s; lastCommand := lastCommand s; accumulatedResponse := accumulatedResponse s; pageCount := pageCount s; currentCommandTimeout := v; username := username s; password := password s; liveTimers := liveTimers s; connectTimerLive := connectTimerLive s; nextId := nextId s; configTask := configTask s |}.
Definition set_username (s : session) (v : string) : session :=
  {| buffer := buffer s; connected := connected s; loggedIn := loggedIn s; inConfigMode := inConfigMode s; currentPrompt := currentPrompt s; waitingForResponse := waitingForResponse s; responseResolver := responseResolver s; enablePassword := enablePassword s; lastCommand := lastCommand s; accumulatedResponse := accumulatedResponse s; pageCount := pageCount s; currentCommandTimeout := currentCommandTimeout s; username := v; password := password s; liveTimers := liveTimers s; connectTimerLive := connectTimerLive s; nextId := nextId s; configTask := configTask s |}.
Definition set_password (s : session) (v : string) : session :=
  {| buffer := buffer s; connected := connected s; loggedIn := loggedIn s; inConfigMode := inConfigMode s; currentPrompt := currentPrompt s; waitingForResponse := waitingForResponse s; responseResolver := responseResolver s; enablePassword := enablePassword s; lastCommand := lastCommand s; accumulatedResponse := accumulatedResponse s; pageCount := pageCount s; currentCommandTimeout := currentCommandTimeout s; username := username s; password := v; liveTimers := liveTimers s; connectTimerLive := connectTimerLive s; nextId := nextId s; configTask := configTask s |}.
Definition set_liveTimers (s : session) (v : list timer) : session :=
  {| buffer := buffer s; connected := connected s; loggedIn := loggedIn s; inConfigMode := inConfigMode s; currentPrompt := currentPrompt s; waitingForResponse := waitingForResponse s; responseResolver := responseResolver s; enablePassword := enablePassword s; lastCommand := lastCommand s; accumulatedResponse := accumulatedResponse s; pageCount := pageCount s; currentCommandTimeout := currentCommandTimeout s; username := username s; password := password s; liveTimers := v; connectTimerLive := connectTimerLive s; nextId := nextId s; configTask := configTask s |}.
Definition set_connectTimerLive (s : session) (v : bool) : session :=
  {| buffer := buffer s; connected := connected s; loggedIn := loggedIn s; inConfigMode := inConfigMode s; currentPrompt := currentPrompt s; waitingForResponse := waitingForResponse s; responseResolver := responseResolver s; enablePassword := enablePassword s; lastCommand := lastCommand s; accumulatedResponse := accumulatedResponse s; pageCount := pageCount s; currentCommandTimeout := currentCommandTimeout s; username := username s; password := password s; liveTimers := liveTimers s; connectTimerLive := v; nextId := nextId s; configTask := configTask s |}.
Definition set_nextId (s : session) (v : nat) : session :=
  {| buffer := buffer s; connected := connected s; loggedIn := loggedIn s; inConfigMode := inConfigMode s; currentPrompt := currentPrompt s; waitingForResponse := waitingForResponse s; responseResolver := responseResolver s; enablePassword := enablePassword s; lastCommand := lastCommand s; accumulatedResponse := accumulatedResponse s; pageCount := pageCount s; currentCommandTimeout := currentCommandTimeout s; username := username s; password := password s; liveTimers := liveTimers s; connectTimerLive := connectTimerLive s; nextId := v; configTask := configTask s |}.
Definition set_configTask (s : session) (v : option cfg_task) : session :=
  {| buffer := buffer s; connected := connected s; loggedIn := loggedIn s; inConfigMode := inConfigMode s; currentPrompt := currentPrompt s; waitingForResponse := waitingForResponse s; responseResolver := responseResolver s; enablePassword := enablePassword s; lastCommand := lastCommand s; accumulatedResponse := accumulatedResponse s; pageCount := pageCount s; currentCommandTimeout := currentCommandTimeout s; username := username s; password := password s; liveTimers := liveTimers s; connectTimerLive := connectTimerLive s; nextId := nextId s; configTask := v |}.

(** The constructor: all flags false, buffers empty. *)
Definition init : session :=
  {| buffer := ""; connected := false; loggedIn := false; inConfigMode := false;
     currentPrompt := ""; waitingForResponse := false; responseResolver := None;
     enablePassword := ""; lastCommand := ""; accumulatedResponse := "";
     pageCount := 0; currentCommandTimeout := None; username := ""; password := "";
     liveTimers := []; connectTimerLive := false; nextId := 0; configTask := None |}.

Definition maxPages : nat := 100.
Definition connectionTimeout : N := 30000%N.
Definition commandTimeout : N := 30000%N.

(** Observable effects of a handler.  [CmdResolved id cmd raw]: promise
    [id] is fulfilled by the [responseResolver] closure (or by the timer
    callback), i.e. with [responseFormatter.formatResponse(cmd, raw)], or
    with [raw] itself when formatting throws.  [CmdRejected id msg]: promise
    [id] is rejected. *)
Inductive effect :=
| Write (data : string)
| EndSocket
| DestroySocket
| ConnectResolved
| ConnectRejected (msg : string)
| CmdResolved (id : nat) (cmd raw : string)
| CmdRejected (id : nat) (msg : string)
| ApiReturned (msg : string)
| ApiThrown (msg : string)
| DisconnectResolved.

(** [this.updateCurrentPrompt()] on the session. *)
Definition updateCurrentPrompt (s : session) : session :=
  let ps := updateCurrentPrompt_index (buffer s)
              (mkPromptState (currentPrompt s) (inConfigMode s)) in
  set_inConfigMode (set_currentPrompt s (ps_currentPrompt ps)) (ps_inConfigMode ps).

(** [if (this.responseResolver) this.responseResolver(response)] *)
Definition call_resolver (s : session) (response : string) : list effect :=
  match responseResolver s with
  | Some (id, cmd) => [CmdResolved id cmd response]
  | None => []
  end.

(** [clearTimeout(this.currentCommandTimeout); this.currentCommandTimeout = null] *)
Definition clear_command_timeout (s : session) : session :=
  match currentCommandTimeout s with
  | Some t =>
      set_currentCommandTimeout
        (set_liveTimers s (filter (fun tm => negb (Nat.eqb (t_id tm) t)) (liveTimers s)))
        None
  | None => s
  end.

(** [handleData(data, username, password, resolve, reject)] of src/index.js
    (lines 570-722). *)
Definition handleData (s0 : session) (data : string) : session * list effect :=
  let s := set_buffer s0 (buffer s0 ++ data) in
  let b := buffer s in
  if negb (loggedIn s) then
    if includes b "Username:" || includes b "Login:" then
      (set_buffer s "", [Write (username s ++ NL)])
    else if includes b "Password:" then
      (set_buffer s "", [Write (password s ++ NL)])
    else if detectLoginSuccess b then
      let s1 := updateCurrentPrompt (set_loggedIn s true) in
      (set_buffer s1 "", [ConnectResolved])
    else if detectLoginFailure b then
      (set_buffer s "", [ConnectRejected "Credenciales incorrectas"])
    else (s, [])
  else if waitingForResponse s then
    if detectCommandPrompt b then
      let s1 := clear_command_timeout s in
      if negb (String.eqb (accumulatedResponse s1) "") then
        (* paginated response: append the last part *)
        let s2 := set_accumulatedResponse s1 (accumulatedResponse s1 ++ buffer s1) in
        let response := extractCommandResponse_index (lastCommand s2) (accumulatedResponse s2) in
        let s3 := updateCurrentPrompt s2 in
        let effs := call_resolver s3 response in
        let s4 := set_responseResolver s3 None in
        let s5 := set_pageCount (set_accumulatedResponse s4 "") 0 in
        (set_buffer (set_waitingForResponse s5 false) "", effs)
      else
        let response := extractCommandResponse_index (lastCommand s1) (buffer s1) in
        let s3 := updateCurrentPrompt s1 in
        let effs := call_resolver s3 response in
        let s4 := set_responseResolver s3 None in
        (set_buffer (set_waitingForResponse s4 false) "", effs)
    else if includes b MORE then
      let s1 := set_pageCount s (S (pageCount s)) in
      if Nat.ltb maxPages (pageCount s1) then
        (* page limit reached: resolve with what has been accumulated *)
        let s2 := set_accumulatedResponse s1 (accumulatedResponse s1 ++ buffer s1) in
        let effs := call_resolver s2 (accumulatedResponse s2) in
        let s3 := set_responseResolver s2 None in
        let s4 := set_pageCount (set_accumulatedResponse s3 "") 0 in
        (set_buffer (set_waitingForResponse s4 false) "", effs)
      else
        let part := match index_of b MORE with
                    | Some moreIndex => take moreIndex b
                    | None => b
                    end in
        let s2 := set_accumulatedResponse s1 (accumulatedResponse s1 ++ part) in
        (set_buffer s2 "", [Write " "])
    else if includes b "Password:" then
      if includes (lastCommand s) "configure terminal" || includes (lastCommand s) "enable" then
        (set_buffer s "", [Write (enablePassword s ++ NL)])
      else (s, [])
    else (s, [])
  else (s, []).

(** [timeoutDuration] of [sendCommand] (line 891):
    [command === 'list' || command.includes('show') ? 120000 : this.commandTimeout]. *)
Definition timeoutDuration (command : string) : N :=
  if String.eqb command "list" || includes command "show" then 120000%N
  else commandTimeout.

(** [sendCommand(command)] of src/index.js (lines 846-926), up to the point
    where the returned promise (id [nextId s0]) waits. *)
Definition sendCommand (s0 : session) (command : string) : session * list effect :=
  let id := nextId s0 in
  let s := set_nextId s0 (S id) in
  if negb (connected s && loggedIn s) then
    (s, [CmdRejected id "No hay una sesión activa"])
  else
    let s1 := set_pageCount (set_accumulatedResponse s "") 0 in
    let s2 := set_lastCommand s1 command in
    let s3 := set_waitingForResponse s2 true in
    let s4 := set_responseResolver s3 (Some (id, command)) in
    let s5 := set_buffer s4 "" in
    let tm := mkTimer id command (timeoutDuration command) in
    let s6 := set_currentCommandTimeout (set_liveTimers s5 (tm :: liveTimers s5)) (Some id) in
    (s6, [Write (command ++ NL)]).

(** The [setTimeout] callback armed by [sendCommand] (lines 894-921). *)
Definition commandTimerFired (s : session) (tm : timer) : session * list effect :=
  if waitingForResponse s then
    let effs :=
      if negb (String.eqb (accumulatedResponse s) "") then
        [CmdResolved (t_id tm) (t_cmd tm)
           (extractCommandResponse_index (lastCommand s) (accumulatedResponse s))]
      else [CmdRejected (t_id tm) "Timeout esperando respuesta al comando"] in
    let s1 := set_responseResolver (set_waitingForResponse s false) None in
    (set_pageCount (set_accumulatedResponse s1 "") 0, effs)
  else (s, []).

(** [enterEnableMode()] (lines 932-950). *)
Definition enterEnableMode (s : session) : session * list effect :=
  if negb (connected s && loggedIn s) then (s, [ApiThrown "No hay una sesión activa"])
  else if String.eqb (currentPrompt s) "#" || inConfigMode s then
    (s, [ApiReturned "Ya en modo privilegiado"])
  else sendCommand s "enable".

Definition rejected (id : nat) (effs : list effect) : bool :=
  existsb (fun e => match e with CmdRejected i _ => Nat.eqb i id | _ => false end) effs.

Definition resolved (id : nat) (effs : list effect) : bool :=
  existsb (fun e => match e with CmdResolved i _ _ => Nat.eqb i id | _ => false end) effs.

(** [await this.sendCommand(command)] inside [enterConfigMode]: issue the
    command and suspend on its promise, unless it was rejected at once. *)
Definition await_command (s : session) (command : string) (k : nat -> cfg_task)
  : session * list effect :=
  let id := nextId s in
  let '(s1, effs) := sendCommand s command in
  if rejected id effs then (s1, (effs ++ [ApiThrown "No hay una sesión activa"])%list)
  else (set_configTask s1 (Some (k id)), effs).

(** [enterConfigMode()] (lines 956-982), up to its first [await]. *)
Definition enterConfigMode (s : session) : session * list effect :=
  if negb (connected s && loggedIn s) then (s, [ApiThrown "No hay una sesión activa"])
  else if inConfigMode s then (s, [ApiReturned "Ya en modo configuración"])
  else if negb (String.eqb (currentPrompt s) "#") then
    (* enterEnableMode(): session active, prompt is not '#', not in config mode *)
    await_command s "enable" TEnable
  else await_command s "configure terminal" TConfigure.

(** The continuation of a suspended [enterConfigMode], run as a microtask
    right after the handler that settled the awaited promise. *)
Definition resume (r : session * list effect) : session * list effect :=
  let '(s, effs) := r in
  match configTask s with
  | Some (TEnable id) =>
      if resolved id effs then
        let '(s1, e1) := await_command (set_configTask s None) "configure terminal" TConfigure in
        (s1, (effs ++ e1)%list)
      else if rejected id effs then
        (set_configTask s None, (effs ++ [ApiThrown "enable"])%list)
      else (s, effs)
  | Some (TConfigure id) =>
      if resolved id effs then
        (* this.inConfigMode = true; return response *)
        (set_configTask (set_inConfigMode s true) None, (effs ++ [ApiReturned "configure terminal"])%list)
      else if rejected id effs then
        (set_configTask s None, (effs ++ [ApiThrown "configure terminal"])%list)
      else (s, effs)
  | None => (s, effs)
  end.

(** [disconnect()] (lines 988-1022). *)
Definition disconnect (s : session) : session * list effect :=
  if negb (connected s) then (s, [DisconnectResolved])
  else
    let w1 := if inConfigMode s then [Write ("exit" ++ NL)] else [] in
    let s1 := set_inConfigMode (set_loggedIn (set_connected s false) false) false in
    let s2 := set_currentPrompt (set_buffer s1 "") "" in
    (s2, (w1 ++ [Write ("exit" ++ NL); EndSocket; DisconnectResolved])%list).

(** [connect(host, port, username, password, enablePassword)] (lines 505-560):
    stores the enable password and the closure's credentials, arms the
    connection timer and opens the socket. *)
Definition connect (s : session) (user pass enpw : string) : session * list effect :=
  let s1 := set_password (set_username (set_enablePassword s enpw) user) pass in
  (set_connectTimerLive s1 true, []).

(** The [net.createConnection] callback: connection established. *)
Definition onConnected (s : session) : session * list effect :=
  (set_connectTimerLive (set_connected s true) false, []).

(** The socket's [error] handler. *)
Definition onError (s : session) : session * list effect :=
  (set_connected (set_connectTimerLive s false) false, [ConnectRejected "error"]).

(** The socket's [close] handler (lines 553-558). *)
Definition onClose (s : session) : session * list effect :=
  (set_inConfigMode (set_loggedIn (set_connected s false) false) false, []).

(** The connection timer callback. *)
Definition onConnectTimeout (s : session) : session * list effect :=
  if connectTimerLive s then
    (set_connectTimerLive s false, [DestroySocket; ConnectRejected "Timeout de conexión"])
  else (s, []).

(** External stimuli: socket events, timer expiries and API calls. *)
Inductive event :=
| EvConnect (user pass enpw : string)
| EvConnected
| EvData (data : string)
| EvError
| EvClose
| EvConnectTimeout
| EvCommandTimer (id : nat)
| EvSendCommand (command : string)
| EvEnterEnableMode
| EvEnterConfigMode
| EvDisconnect.

(** A command timer fires only while armed; it is then no longer armed. *)
Definition fireCommandTimer (s : session) (id : nat) : session * list effect :=
  match find (fun tm => Nat.eqb (t_id tm) id) (liveTimers s) with
  | Some tm =>
      commandTimerFired
        (set_liveTimers s (filter (fun tm' => negb (Nat.eqb (t_id tm') id)) (liveTimers s))) tm
  | None => (s, [])
  end.

Definition handle (s : session) (ev : event) : session * list effect :=
  match ev with
  | EvConnect u p e => connect s u p e
  | EvConnected => onConnected s
  | EvData d => handleData s d
  | EvError => onError s
  | EvClose => onClose s
  | EvConnectTimeout => onConnectTimeout s
  | EvCommandTimer id => fireCommandTimer s id
  | EvSendCommand c => sendCommand s c
  | EvEnterEnableMode => enterEnableMode s
  | EvEnterConfigMode => enterConfigMode s
  | EvDisconnect => disconnect s
  end.

(** One macrotask: the handler, then the microtasks it enabled. *)
Definition step (s : session) (ev : event) : session * list effect :=
  resume (handle s ev).

(** Run a sequence of events, collecting the effects. *)
Fixpoint run (s : session) (evs : list event) : session * list effect :=
  match evs with
  | [] => (s, [])
  | ev :: evs' =>
      let '(s1, e1) := step s ev in
      let '(s2, e2) := run s1 evs' in
      (s2, (e1 ++ e2)%list)
  end.

(** Unfold the field updates and compute the projections. *)
Ltac simpl_session :=
  cbn [set_buffer set_connected set_loggedIn set_inConfigMode set_currentPrompt
       set_waitingForResponse set_responseResolver set_enablePassword set_lastCommand
       set_accumulatedResponse set_pageCount set_currentCommandTimeout set_username
       set_password set_liveTimers set_connectTimerLive set_nextId set_configTask
       buffer connected loggedIn inConfigMode currentPrompt waitingForResponse
       responseResolver enablePassword lastCommand accumulatedResponse pageCount
       currentCommandTimeout username password liveTimers connectTimerLive nextId
       configTask fst snd] in *.

End Session.

(* ------------------------------------------------------------------ *)
(** ** Response formatter (utils/responseFormatter, src/unnamed/part_001) *)

Module Formatter.

Definition code (c : ascii) : nat := nat_of_ascii c.

(** Characters matched by the regex [.]: all but the line terminators. *)
Definition is_line_terminator (c : ascii) : bool :=
  Nat.eqb (code c) 10 || Nat.eqb (code c) 13.

Definition is_bs (c : ascii) : bool := Nat.eqb (code c) 8.
Definition is_esc (c : ascii) : bool := Nat.eqb (code c) 27.

(** [[0-9;]] and [[a-zA-Z]] *)
Definition is_digit_or_semi (c : ascii) : bool :=
  (Nat.leb 48 (code c) && Nat.leb (code c) 57) || Nat.eqb (code c) 59.
Definition is_letter (c : ascii) : bool :=
  (Nat.leb 65 (code c) && Nat.leb (code c) 90) || (Nat.leb 97 (code c) && Nat.leb (code c) 122).

(** [[\x00-\x08\x0B\x0C\x0E-\x1F]] *)
Definition is_removed_ctrl (c : ascii) : bool :=
  Nat.leb (code c) 8 || Nat.eqb (code c) 11 || Nat.eqb (code c) 12 ||
  (Nat.leb 14 (code c) && Nat.leb (code c) 31).

(** [replace(/\r\n/g, '\n')] *)
Fixpoint replace_crlf (s : string) : string :=
  match s with
  | String c1 ((String c2 r) as t) =>
      if Nat.eqb (code c1) 13 && Nat.eqb (code c2) 10
      then String c2 (replace_crlf r)
      else String c1 (replace_crlf t)
  | _ => s
  end.

(** [replace(/.\x08/g, '')] *)
Fixpoint erase_char_backspace (s : string) : string :=
  match s with
  | String c1 ((String c2 r) as t) =>
      if negb (is_line_terminator c1) && is_bs c2
      then erase_char_backspace r
      else String c1 (erase_char_backspace t)
  | _ => s
  end.

(** [replace(/\x08+\s*\x08*/g, '')]: a left-to-right scan; the mode tells
    which part of the (greedy) match the scanner is in. *)
Inductive bs_mode := BsOut | BsRun1 | BsSpaces | BsRun2.

Fixpoint erase_backspace_runs (m : bs_mode) (s : string) : string :=
  match s with
  | EmptyString => EmptyString
  | String c r =>
      let outside :=
        if is_bs c then erase_backspace_runs BsRun1 r
        else String c (erase_backspace_runs BsOut r) in
      match m with
      | BsOut => outside
      | BsRun1 =>
          if is_bs c then erase_backspace_runs BsRun1 r
          else if is_ws c then erase_backspace_runs BsSpaces r
          else outside
      | BsSpaces =>
          if is_ws c then erase_backspace_runs BsSpaces r
          else if is_bs c then erase_backspace_runs BsRun2 r
          else outside
      | BsRun2 =>
          if is_bs c then erase_backspace_runs BsRun2 r else outside
      end
  end.

(** [replace(/\x1b\[[0-9;]*[a-zA-Z]/g, '')]: scanner state: outside a
    candidate, after [ESC], or after [ESC [] with the parameters read so far
    (re-emitted when the candidate does not end in a letter). *)
Inductive ansi_mode := AnsiOut | AnsiEsc | AnsiParams (pending : string).

Fixpoint erase_ansi (m : ansi_mode) (s : string) : string :=
  match s with
  | EmptyString =>
      match m with
      | AnsiOut => EmptyString
      | AnsiEsc => ESC
      | AnsiParams p => ESC ++ "[" ++ p
      end
  | String c r =>
      let outside :=
        if is_esc c then erase_ansi AnsiEsc r else String c (erase_ansi AnsiOut r) in
      match m with
      | AnsiOut => outside
      | AnsiEsc =>
          if Nat.eqb (code c) 91 then erase_ansi (AnsiParams "") r
          else ESC ++ outside
      | AnsiParams p =>
          if is_digit_or_semi c then erase_ansi (AnsiParams (p ++ String c "")) r
          else if is_letter c then erase_ansi AnsiOut r
          else ESC ++ "[" ++ p ++ outside
      end
  end.

(** [replace(/[\x00-\x08\x0B\x0C\x0E-\x1F]/g, '')] *)
Fixpoint erase_ctrl (s : string) : string :=
  match s with
  | EmptyString => EmptyString
  | String c r => if is_removed_ctrl c then erase_ctrl r else String c (erase_ctrl r)
  end.

(** [cleanResponse(response)] (lines 49-67). *)
Definition cleanResponse (response : string) : string :=
  let cleaned := replace_crlf response in
  let cleaned := erase_char_backspace cleaned in
  let cleaned := erase_backspace_runs BsOut cleaned in
  let cleaned := erase_ansi AnsiOut cleaned in
  erase_ctrl cleaned.

(** Leading run of characters satisfying [p]: its length and the rest. *)
Fixpoint span (p : ascii -> bool) (s : string) : nat * string :=
  match s with
  | String c r => if p c then let '(n, t) := span p r in (S n, t) else (0, s)
  | EmptyString => (0, s)
  end.

(** [replace(/\x08+\s*\x08+/g, '')] (line 81).  At a backspace the greedy
    match takes the backspace run, the blanks and the following backspace
    run; when no backspace follows the blanks, backtracking still matches a
    run of at least two backspaces (the last one for the final [\x08+]).
    Each iteration consumes at least one character: [String.length s]
    iterations suffice. *)
Fixpoint erase_backspace_pairs_loop (fuel : nat) (s : string) : string :=
  match fuel, s with
  | S fuel', String c r =>
      if is_bs c then
        let '(k, r1) := span is_bs s in
        let '(_, r2) := span is_ws r1 in
        let '(k2, r3) := span is_bs r2 in
        if Nat.leb 1 k2 then erase_backspace_pairs_loop fuel' r3
        else if Nat.leb 2 k then erase_backspace_pairs_loop fuel' r1
        else String c (erase_backspace_pairs_loop fuel' r)
      else String c (erase_backspace_pairs_loop fuel' r)
  | _, _ => s
  end.

Definition erase_backspace_pairs (s : string) : string :=
  erase_backspace_pairs_loop (String.length s) s.

(** [s.split('\n')] *)
Fixpoint split_char (sep : ascii) (s : string) : list string :=
  match s with
  | EmptyString => [EmptyString]
  | String c r =>
      let rest := split_char sep r in
      if Ascii.eqb c sep then EmptyString :: rest
      else match rest with
           | h :: t => String c h :: t
           | [] => [String c EmptyString]
           end
  end.

(** [s.split(/\s+/)]: [cur] is the piece being read, [skip] says the
    scanner is inside a run of blanks that already ended a piece. *)
Fixpoint split_ws_go (s cur : string) (skip : bool) : list string :=
  match s with
  | EmptyString => [cur]
  | String c r =>
      if is_ws c then
        if skip then split_ws_go r cur true else cur :: split_ws_go r EmptyString true
      else split_ws_go r (cur ++ String c EmptyString) false
  end.

Definition split_ws (s : string) : list string := split_ws_go s EmptyString false.

(** One entry of the MAC table ([{ vlan, macAddress, type, port, state }]). *)
Record mac_entry := mkMacEntry {
  vlan : string; macAddress : string; type : string; port : string; state : string
}.

(** The entry built from the fields of a data line (lines 113-136). *)
Definition mac_entry_of_fields (fields : list string) : mac_entry :=
  let port0 := nth 3 fields "" in
  let port :=
    if String.eqb port0 "GPON" && Nat.leb 6 (List.length fields)
    then port0 ++ " " ++ nth 4 fields "" else port0 in
  mkMacEntry (nth 0 fields "") (nth 1 fields "") (nth 2 fields "") port
             (last fields "").

(** The [for (const line of lines)] loop of [formatMacAddressTable]
    (lines 90-142); [isDataSection] is the loop variable. *)
Fixpoint mac_lines_loop (lines : list string) (isDataSection : bool) : list mac_entry :=
  match lines with
  | [] => []
  | line :: rest =>
      if includes line "----   --------------" then mac_lines_loop rest true
      else if isDataSection && negb (String.eqb (trim line) "") then
        if includes line "------------------" || includes line "Mac Address Table" ||
           includes line "Vlan" || includes line "Total Addresses Found"
        then mac_lines_loop rest isDataSection
        else
          let fields := split_ws (trim line) in
          if Nat.leb 5 (List.length fields)
          then mac_entry_of_fields fields :: mac_lines_loop rest isDataSection
          else mac_lines_loop rest isDataSection
      else mac_lines_loop rest isDataSection
  end.

(** The result of [formatMacAddressTable]: [raw] and [data] (the
    [formatted] text rendering by [formatAsTable] is not modelled). *)
Record mac_result := mkMacResult { raw : string; data : list mac_entry }.

(** [formatMacAddressTable(response)] (lines 74-151). *)
Definition formatMacAddressTable (response : string) : mac_result :=
  let cleaned := cleanResponse response in
  let cleaned := erase_backspace_pairs cleaned in
  let lines := filter (fun line => negb (String.eqb (trim line) "")) (split_char (ascii_of_nat 10) cleaned) in
  mkMacResult cleaned (mac_lines_loop lines false).

(** Which formatter [formatResponse(command, response)] dispatches to
    (lines 20-41). *)
Inductive formatter :=
| FMacTable | FInterfaceInfo | FRunningConfig | FOnuInfo | FGenericTable
| FDetectTable | FPlain.

Fixpoint exists_suffix (p : string -> bool) (s : string) : bool :=
  p s || match s with String _ r => exists_suffix p r | EmptyString => false end.

Definition blanks_then_nonblank (r : string) : bool :=
  match span is_ws r with
  | (S _, String c _) => negb (is_ws c)
  | _ => false
  end.

(** A match of [/show int(erface)?\s+\S+/] starting here. *)
Definition show_int_at (t : string) : bool :=
  String.prefix "show int" t &&
  (let r := drop 8 t in
   blanks_then_nonblank r || (String.prefix "erface" r && blanks_then_nonblank (drop 6 r))).

(** A match of [/show\s+(\S+\s+)?table/] starting here. *)
Definition show_table_at (t : string) : bool :=
  String.prefix "show" t &&
  match span is_ws (drop 4 t) with
  | (S _, r1) =>
      String.prefix "table" r1 ||
      (let '(k, r2) := span (fun c => negb (is_ws c)) r1 in
       let '(m, r3) := span is_ws r2 in
       Nat.leb 1 k && Nat.leb 1 m && String.prefix "table" r3)
  | _ => false
  end.

Definition formatter_for (command : string) : formatter :=
  if includes command "show mac address-table" then FMacTable
  else if includes command "show interface" || exists_suffix show_int_at command then FInterfaceInfo
  else if includes command "show running-config" then FRunningConfig
  else if includes command "show onu" then FOnuInfo
  else if exists_suffix show_table_at command then FGenericTable
  else if String.prefix "show " command then FDetectTable
  else FPlain.

End Formatter.

(* ------------------------------------------------------------------ *)
(** ** Pagination inputs *)

(** Data events delivered to [handleData] one after the other. *)
Fixpoint feed (s : Session.session) (chunks : list string)
  : Session.session * list Session.effect :=
  match chunks with
  | [] => (s, [])
  | d :: ds =>
      let '(s1, e1) := Session.handleData s d in
      let '(s2, e2) := feed s1 ds in
      (s2, (e1 ++ e2)%list)
  end.

(** A page followed by the marker has its first [--More--] at the page's
    end (the page holds no marker and does not end in ["--More"] or
    ["--More-"], which would overlap the marker that follows). *)
Definition marker_at_end (page : string) : bool :=
  match index_of (page ++ MORE) MORE with
  | Some i => Nat.eqb i (String.length page)
  | None => false
  end.

(** The session right after [sendCommand] issued a command. *)
Definition awaiting_first_page (s : Session.session) : Prop :=
  Session.loggedIn s = true /\ Session.waitingForResponse s = true /\
  Session.buffer s = "" /\ Session.accumulatedResponse s = "" /\
  Session.pageCount s = 0.

(* ------------------------------------------------------------------ *)
(** ** Concrete sessions *)

(** Connect and log in: [Login:] -> username, [Password:] -> password,
    prompt [OLT>]. *)
Definition login_events : list Session.event :=
  [Session.EvConnect "admin" "secret" "enable-secret"; Session.EvConnected;
   Session.EvData "Login:"; Session.EvData "Password:"; Session.EvData "OLT>"].

Definition logged_in_session : Session.session :=
  fst (Session.run Session.init login_events).

(** The same session waiting for the answer to [show onu info]. *)
Definition show_session : Session.session :=
  fst (Session.run logged_in_session [Session.EvSendCommand "show onu info"]).

(** A session whose device closes the socket while [enterConfigMode] waits
    for the answer to [configure terminal]: [enable] is sent from [OLT>],
    the enable password is sent at [Password:], the prompt becomes [OLT#],
    [configure terminal] is sent, its answer is paginated, and the socket
    closes before the last page. *)
Definition config_close_events : list Session.event :=
  [Session.EvEnterConfigMode;
   Session.EvData ("enable" ++ NL ++ "Password:");
   Session.EvData (NL ++ "OLT#");
   Session.EvData ("configure terminal" ++ NL ++ "Enter configuration commands" ++ MORE);
   Session.EvClose].

(** ... and then the command timer of [configure terminal] (promise 1) fires. *)
Definition config_close_timeout_events : list Session.event :=
  config_close_events ++ [Session.EvCommandTimer 1].

(** The invariant of the spec: configuration mode implies a login. *)
Definition config_implies_login (s : Session.session) : Prop :=
  Session.inConfigMode s = true -> Session.loggedIn s = true.

(** Character counting and character-class checks over a whole string. *)
Fixpoint count_if (p : ascii -> bool) (s : string) : nat :=
  match s with
  | EmptyString => 0
  | String c r => (if p c then 1 else 0) + count_if p r
  end.

Fixpoint all_chars (p : ascii -> bool) (s : string) : bool :=
  match s with
  | EmptyString => true
  | String c r => p c && all_chars p r
  end.

Definition is_nl (c : ascii) : bool := Nat.eqb (Formatter.code c) 10.

(** ** MAC address tables

    A data row of a [show mac address-table] answer, in the device's fixed
    layout: VLAN, MAC address, entry type, port (a [GPON] port followed by
    its number) and state, separated by runs of [mr_seps] spaces. *)
Record mac_row := mkMacRow {
  mr_vlan : string; mr_mac : string; mr_type : string;
  mr_port : string; mr_port_no : option string; mr_state : string;
  mr_seps : list nat
}.

Definition spaces (n : nat) : string := String.concat "" (repeat " " n).

(** Tokens joined by the given numbers of spaces (one space where the list
    runs out). *)
Fixpoint interleave (ts : list string) (seps : list nat) : string :=
  match ts with
  | [] => ""
  | [t] => t
  | t :: ts' => t ++ spaces (hd 1 seps) ++ interleave ts' (tl seps)
  end.

Definition row_tokens (r : mac_row) : list string :=
  [mr_vlan r; mr_mac r; mr_type r; mr_port r] ++
  match mr_port_no r with Some n => [n] | None => [] end ++ [mr_state r].

Definition row_line (r : mac_row) : string := interleave (row_tokens r) (mr_seps r).

(** The port as the table shows it: [GPON 0/1] stays one value. *)
Definition row_port (r : mac_row) : string :=
  match mr_port_no r with Some n => mr_port r ++ " " ++ n | None => mr_port r end.

Definition row_entry (r : mac_row) : Formatter.mac_entry :=
  Formatter.mkMacEntry (mr_vlan r) (mr_mac r) (mr_type r) (row_port r) (mr_state r).

(** Visible ASCII characters ([!] to [~]). *)
Definition is_visible (c : ascii) : bool :=
  Nat.leb 33 (Formatter.code c) && Nat.leb (Formatter.code c) 126.

Definition is_line_char (c : ascii) : bool :=
  is_visible c || Nat.eqb (Formatter.code c) 32.

Definition token_ok (t : string) : Prop := t <> "" /\ all_chars is_visible t = true.

(** The lines [formatMacAddressTable] skips inside the data section. *)
Definition mac_noise : list string :=
  ["----   --------------"; "------------------"; "Mac Address Table"; "Vlan";
   "Total Addresses Found"].

(** A well-formed row: visible tokens, at least one space between them, a
    port number only after [GPON], and none of the header or footer
    phrases in the line. *)
Definition row_ok (r : mac_row) : Prop :=
  Forall token_ok (row_tokens r) /\ Forall (fun k => 1 <= k) (mr_seps r) /\
  (mr_port_no r <> None -> mr_port r = "GPON") /\
  forallb (fun m => negb (includes (row_line r) m)) mac_noise = true.

Definition mac_header : list string :=
  ["                    Mac Address Table";
   "-------------------------------------------";
   "";
   "Vlan    Mac Address       Type        Ports            State";
   "----   --------------    --------    -------------    -----"].

Definition mac_footer : list string := [""; "Total Addresses Found: 3"].

Definition eol_lines (eol : string) (ls : list string) : string :=
  String.concat "" (map (fun l => l ++ eol) ls).

(** The answer of the device: header, rows and footer, CRLF line ends. *)
Definition mac_table_text (rows : list mac_row) : string :=
  eol_lines (CR ++ NL) (mac_header ++ map row_line rows ++ mac_footer).

(** Three rows of a [show mac address-table] answer. *)
Definition mac_row_gpon1 : mac_row :=
  mkMacRow "100" "0011.2233.4455" "dynamic" "GPON" (Some "0/1:3") "Active" [3; 4; 4; 1; 4].
Definition mac_row_eth : mac_row :=
  mkMacRow "200" "aabb.ccdd.eeff" "static" "eth0/1" None "Active" [2; 2; 2; 2].
Definition mac_row_gpon2 : mac_row :=
  mkMacRow "300" "0a0b.0c0d.0e0f" "dynamic" "GPON" (Some "0/2:7") "Inactive" [].

(** A non-empty piece without whitespace. *)
Definition ws_free_token (t : string) : Prop :=
  t <> "" /\ all_chars (fun c => negb (is_ws c)) t = true.

(** What every MAC entry looks like: four whitespace-free fields, and a
    port that is either whitespace-free or [GPON] followed by one space and
    a whitespace-free identifier. *)
Definition mac_entry_ok (e : Formatter.mac_entry) : Prop :=
  ws_free_token (Formatter.vlan e) /\ ws_free_token (Formatter.macAddress e) /\ ws_free_token (Formatter.type e) /\
  ws_free_token (Formatter.state e) /\
  (ws_free_token (Formatter.port e) \/ exists n, Formatter.port e = "GPON " ++ n /\ ws_free_token n).

(** ** [formatAsTable] (lines 158-190)

    On the rows [formatMacAddressTable] gives it: the columns are the keys
    of the first row, [Object.keys] listing them in the order of the object
    literal [{ vlan, macAddress, type, port, state }]. *)
Fixpoint repeat_char (c : ascii) (n : nat) : string :=
  match n with
  | 0 => ""
  | S k => String c (repeat_char c k)
  end.

(** [s.padEnd(w)] *)
Definition padEnd (s : string) (w : nat) : string :=
  s ++ repeat_char " "%char (w - String.length s).

Definition mac_columns : list (string * (Formatter.mac_entry -> string)) :=
  [("vlan", Formatter.vlan); ("macAddress", Formatter.macAddress);
   ("type", Formatter.type); ("port", Formatter.port); ("state", Formatter.state)].

(** [widths[key]]: the length of the key, raised to the longest value. *)
Definition column_width (data : list Formatter.mac_entry)
    (col : string * (Formatter.mac_entry -> string)) : nat :=
  fold_left (fun w row => Nat.max w (String.length (snd col row))) data
            (String.length (fst col)).

Definition formatAsTable (data : list Formatter.mac_entry) : string :=
  match data with
  | [] => "No data"
  | _ :: _ =>
      let cols := map (fun col => (col, column_width data col)) mac_columns in
      let table :=
        String.concat " | " (map (fun '(col, w) => padEnd (fst col) w) cols) ++ NL in
      let table :=
        table ++ String.concat "-+-" (map (fun '(_, w) => repeat_char "-"%char w) cols) ++ NL in
      fold_left (fun table row =>
                   table ++ String.concat " | " (map (fun '(col, w) => padEnd (snd col row) w) cols)
                         ++ NL)
                data table
  end.

(** The [formatted] field of [formatMacAddressTable(response)]. *)
Definition formatMacAddressTable_formatted (response : string) : string :=
  formatAsTable (Formatter.data (Formatter.formatMacAddressTable response)).

(** ** [formatRunningConfig] (lines 267-318) *)
Module RunningConfig.

(** One element of [configData]: [{ section, command }]. *)
Record config_line := mkConfigLine { section : string; command : string }.

(** The section a trimmed line switches to (lines 281-287). *)
Definition next_section (trimmedLine currentSection : string) : string :=
  if String.prefix "interface " trimmedLine then "interface:" ++ trim (drop 10 trimmedLine)
  else if String.prefix "router " trimmedLine then "router:" ++ trim (drop 7 trimmedLine)
  else if String.prefix "line " trimmedLine then "line:" ++ trim (drop 5 trimmedLine)
  else currentSection.

(** The object [sections] as its keys in insertion order with their
    arrays ([for...in] visits them in that order: no key is an array
    index). *)
Definition sections_obj : Type := list (string * list string).

(** [sections[k]], [undefined] being [None]. *)
Fixpoint lookup_section (k : string) (sections : sections_obj) : option (list string) :=
  match sections with
  | [] => None
  | (k', vs) :: rest => if String.eqb k k' then Some vs else lookup_section k rest
  end.

(** [if (!sections[k]) { sections[k] = []; } sections[k].push(v);] *)
Fixpoint push_section (k v : string) (sections : sections_obj) : sections_obj :=
  match sections with
  | [] => [(k, [v])]
  | (k', vs) :: rest =>
      if String.eqb k k' then (k', (vs ++ [v])%list) :: rest
      else (k', vs) :: push_section k v rest
  end.

(** The [for (const line of lines)] loop (lines 278-300). *)
Fixpoint running_config_loop (lines : list string) (currentSection : string)
    (sections : sections_obj) (configData : list config_line)
    : sections_obj * list config_line :=
  match lines with
  | [] => (sections, configData)
  | line :: rest =>
      let trimmedLine := trim line in
      let currentSection := next_section trimmedLine currentSection in
      running_config_loop rest currentSection
        (push_section currentSection trimmedLine sections)
        (configData ++ [mkConfigLine currentSection trimmedLine])%list
  end.

Record running_config := mkRunningConfig {
  raw : string; formatted : string; sections : sections_obj; configData : list config_line
}.

Definition formatRunningConfig (response : string) : running_config :=
  let '(sections, configData) :=
    running_config_loop (Formatter.split_char (ascii_of_nat 10) response) "global" [] [] in
  let formatted :=
    fold_left (fun formatted '(section, lines) =>
                 formatted ++ "=== " ++ section ++ " ===" ++ NL ++
                 String.concat NL lines ++ NL ++ NL)
              sections "" in
  mkRunningConfig response (trim formatted) sections configData.

End RunningConfig.

(** ** The HTTP routes ([src/routes/oltTelnet.js])

    The routes keep the managers in the object [activeSessions]. A
    manager is of any type [M]: the routes only store it and call it, and
    the outcome of each awaited call (resolved or rejected) is an input of
    the route. Requests are served one after the other. Body fields are
    taken as strings, [None] standing for a missing field. *)
Module Routes.

(** The own properties of [Object.prototype] (Node.js): for these keys
    [activeSessions[k]] is truthy even when no session was stored. *)
Definition proto_keys : list string :=
  ["constructor"; "__defineGetter__"; "__defineSetter__"; "hasOwnProperty";
   "__lookupGetter__"; "__lookupSetter__"; "isPrototypeOf"; "propertyIsEnumerable";
   "toString"; "valueOf"; "__proto__"; "toLocaleString"].

(** What a route answers: the status code of [res.status(...).json(...)],
    the [sessionId] of a successful [/connect], or an exception that
    escapes the handler. *)
Inductive reply :=
| Reply200 | ReplyConnected (sessionId : string) | Reply400 | Reply404 | Reply500
| ReplyThrows.

(** [!v] on a body field: missing or empty. *)
Definition present (v : option string) : bool :=
  match v with Some s => negb (String.eqb s "") | None => false end.

Section Store.
Context {M : Type}.

(** [activeSessions]: its own properties in insertion order. *)
Definition store : Type := list (string * M).

Fixpoint own_lookup (k : string) (st : store) : option M :=
  match st with
  | [] => None
  | (k', m) :: rest => if String.eqb k k' then Some m else own_lookup k rest
  end.

(** [activeSessions[k] = m] *)
Fixpoint store_set (k : string) (m : M) (st : store) : store :=
  match st with
  | [] => [(k, m)]
  | (k', m') :: rest =>
      if String.eqb k k' then (k', m) :: rest else (k', m') :: store_set k m rest
  end.

(** [delete activeSessions[k]] *)
Definition store_delete (k : string) (st : store) : store :=
  filter (fun '(k', _) => negb (String.eqb k k')) st.

(** The value of [activeSessions[k]]: a stored manager, a property
    inherited from [Object.prototype], or [undefined]. *)
Inductive slot := Own (m : M) | Inherited.

Definition lookup_slot (k : string) (st : store) : option slot :=
  match own_lookup k st with
  | Some m => Some (Own m)
  | None => if existsb (String.eqb k) proto_keys then Some Inherited else None
  end.

(** A request with the outcome of the manager calls it awaits: [now] is
    the decimal text of [Date.now()], [m] the new [OltTelnetManager],
    [ok] whether the awaited calls resolved. *)
Inductive request :=
| PostConnect (ip username password enablePassword : option string) (now : string) (m : M)
    (ok : bool)
| PostSendCommand (sessionId command : option string) (ok : bool)
| PostDisconnect (sessionId : option string) (ok : bool)
| PostEnable (sessionId : option string) (ok : bool)
| GetStatus (sessionId : string).

(** One request. On an inherited property the handler calls a method the
    value does not have: a [TypeError], caught (500) inside the [try] of
    the POST routes, escaping the handler of [/status]. *)
Definition route (st : store) (r : request) : store * reply :=
  match r with
  | PostConnect ip username password enablePassword now m ok =>
      if negb (present ip && present username && present password && present enablePassword)
      then (st, Reply400)
      else
        let sessionId := match ip with Some ip => ip | None => "" end ++ "-" ++ now in
        if ok then (store_set sessionId m st, ReplyConnected sessionId) else (st, Reply500)
  | PostSendCommand sessionId command ok =>
      if negb (present sessionId && present command) then (st, Reply400)
      else match lookup_slot (match sessionId with Some s => s | None => "" end) st with
           | None => (st, Reply404)
           | Some Inherited => (st, Reply500)
           | Some (Own _) => (st, if ok then Reply200 else Reply500)
           end
  | PostDisconnect sessionId ok =>
      if negb (present sessionId) then (st, Reply400)
      else
        let sid := match sessionId with Some s => s | None => "" end in
        match lookup_slot sid st with
        | None => (st, Reply404)
        | Some Inherited => (st, Reply500)
        | Some (Own _) => if ok then (store_delete sid st, Reply200) else (st, Reply500)
        end
  | PostEnable sessionId ok =>
      if negb (present sessionId) then (st, Reply400)
      else match lookup_slot (match sessionId with Some s => s | None => "" end) st with
           | None => (st, Reply404)
           | Some Inherited => (st, Reply500)
           | Some (Own _) => (st, if ok then Reply200 else Reply500)
           end
  | GetStatus sessionId =>
      match lookup_slot sessionId st with
      | None => (st, Reply404)
      | Some Inherited => (st, ReplyThrows)
      | Some (Own _) => (st, Reply200)
      end
  end.

(** Whether a request is a [/connect] that builds the id [sid]. *)
Definition creates_key (sid : string) (r : request) : bool :=
  match r with
  | PostConnect (Some ip) _ _ _ now _ _ => String.eqb (ip ++ "-" ++ now) sid
  | _ => false
  end.

(** The keys [/connect] creates, [ip-now], all hold a dash. *)
Definition dashed (st : store) : Prop := Forall (fun k => includes k "-" = true) (map fst st).

(** Requests served in order from a store. *)
Fixpoint serve (st : store) (rs : list request) : store * list reply :=
  match rs with
  | [] => (st, [])
  | r :: rest =>
      let '(st1, a) := route st r in
      let '(st2, answers) := serve st1 rest in
      (st2, a :: answers)
  end.

End Store.

Arguments store : clear implicits.

End Routes.

(** The logged-in session after [enable]: the prompt is [OLT#]. *)
Definition privileged_session : Session.session :=
  fst (Session.run logged_in_session
         [Session.EvEnterEnableMode; Session.EvData ("enable" ++ NL ++ "OLT#")]).

(* ================================================================== *)
(** * Properties *)

(** ** String lemmas *)

Lemma prefix_refl : forall s, String.prefix s s = true.
Proof.
  induction s as [|c s IH]; simpl; [reflexivity|].
  destruct (ascii_dec c c); [exact IH | congruence].
Qed.

Lemma prefix_trans : forall a b c,
  String.prefix a b = true -> String.prefix b c = true -> String.prefix a c = true.
Proof.
  induction a as [|x a IH]; intros b c Hab Hbc; [destruct c; reflexivity|].
  destruct b as [|y b]; [discriminate|].
  destruct c as [|z c]; [discriminate|].
  simpl in *.
  destruct (ascii_dec x y) as [->|]; [|discriminate].
  destruct (ascii_dec y z) as [->|]; [|discriminate].
  destruct (ascii_dec z z); [eauto | congruence].
Qed.

Lemma prefix_comparable : forall a b c,
  String.prefix a c = true -> String.prefix b c = true ->
  String.prefix a b = true \/ String.prefix b a = true.
Proof.
  induction a as [|x a IH]; intros b c Ha Hb; [left; destruct b; reflexivity|].
  destruct b as [|y b]; [right; destruct x; reflexivity|].
  destruct c as [|z c]; [discriminate|].
  simpl in *.
  destruct (ascii_dec x z) as [->|]; [|discriminate].
  destruct (ascii_dec y z) as [->|]; [|discriminate].
  destruct (ascii_dec z z); [eauto | congruence].
Qed.

Lemma ends_with_trans : forall s p q,
  ends_with s p = true -> ends_with p q = true -> ends_with s q = true.
Proof. unfold ends_with; intros; eapply prefix_trans; eauto. Qed.

Lemma ends_with_comparable : forall s p q,
  ends_with s p = true -> ends_with s q = true ->
  ends_with p q = true \/ ends_with q p = true.
Proof. unfold ends_with; intros s p q H1 H2; destruct (prefix_comparable _ _ _ H1 H2); auto. Qed.

(** ** Prompt derivation *)

(** How the four prompts of the trimmed buffer are related. *)
Lemma prompt_suffix_facts : forall t,
  (ends_with t "(config)#" = true -> ends_with t "#" = true) /\
  (ends_with t "(config-if)#" = true -> ends_with t "#" = true) /\
  (ends_with t "(config)#" = true -> ends_with t "(config-if)#" = false) /\
  (ends_with t "#" = true -> ends_with t ">" = false).
Proof.
  intro t; repeat split; intro H.
  - eapply ends_with_trans; [exact H | reflexivity].
  - eapply ends_with_trans; [exact H | reflexivity].
  - destruct (ends_with t "(config-if)#") eqn:E; [|reflexivity].
    destruct (ends_with_comparable _ _ _ H E) as [C|C]; discriminate C.
  - destruct (ends_with t ">") eqn:E; [|reflexivity].
    destruct (ends_with_comparable _ _ _ H E) as [C|C]; discriminate C.
Qed.

(** [updateCurrentPrompt] of src/index.js sets [currentPrompt] to the
    longest known prompt the trimmed buffer ends with. *)
Lemma updateCurrentPrompt_index_longest : forall buf st p,
  longest_prompt_suffix (trim buf) = Some p ->
  ps_currentPrompt (updateCurrentPrompt_index buf st) = p.
Proof.
  intros buf st p H.
  unfold updateCurrentPrompt_index, longest_prompt_suffix in *.
  destruct (prompt_suffix_facts (trim buf)) as (F1 & F2 & F3 & F4).
  simpl in H.
  destruct (ends_with (trim buf) "(config)#") eqn:E3;
  destruct (ends_with (trim buf) "(config-if)#") eqn:E4;
  destruct (ends_with (trim buf) "#") eqn:E2;
  destruct (ends_with (trim buf) ">") eqn:E1;
  simpl in *; inversion H; subst; try reflexivity;
  repeat match goal with
         | F : ?a = true -> _ |- _ => specialize (F eq_refl)
         end; congruence.
Qed.

(** ** C1 *)

(** C1 (code_bug): [updateCurrentPrompt] of src/services/OltTelnetManager.js
    (the version the routes use) tests ['#'] before ['(config)#'], so a
    buffer ending in [OLT(config)#] is classified as ['#'] and
    [inConfigMode] is left unchanged, although the longest matching prompt is
    ['(config)#'] (which src/index.js does pick). *)
Theorem C1_services_config_prompt_classified_as_hash :
  longest_prompt_suffix (trim "OLT(config)#") = Some "(config)#" /\
  updateCurrentPrompt_services "OLT(config)#" (mkPromptState ">" false)
    = mkPromptState "#" false /\
  updateCurrentPrompt_index "OLT(config)#" (mkPromptState ">" false)
    = mkPromptState "(config)#" true.
Proof. repeat split; reflexivity. Qed.

(** ** C2 *)

(** C2 (code_bug): both [extractCommandResponse] versions scan the prompts
    in the order ['>', '#', '(config)#', '(config-if)#'] and stop at the
    first one the trimmed response ends with, so for a response ending in
    [OLT(config)#] only the final ['#'] is cut and [(config)] stays in the
    result; cutting the longest matching prompt removes it. *)
Theorem C2_config_prompt_only_hash_removed :
  let buf := "show running-config" ++ NL ++ "hostname OLT" ++ NL ++ "OLT(config)#" in
  extractCommandResponse_index "show running-config" buf = "hostname OLT" ++ NL ++ "OLT(config)" /\
  extractCommandResponse_services "show running-config" buf = "hostname OLT" ++ NL ++ "OLT(config)" /\
  trim (strip_longest_prompt (strip_echo "show running-config" buf)) = "hostname OLT" ++ NL ++ "OLT".
Proof. repeat split; vm_compute; reflexivity. Qed.

(** ** More string lemmas *)

Lemma str_app_assoc : forall a b c : string, (a ++ b) ++ c = a ++ (b ++ c).
Proof. induction a as [|x a IH]; intros; simpl; [reflexivity | now rewrite IH]. Qed.

Lemma str_app_nil_r : forall a : string, a ++ "" = a.
Proof. induction a as [|x a IH]; simpl; [reflexivity | now rewrite IH]. Qed.

Lemma rev_str_app : forall a b, rev_str (a ++ b) = rev_str b ++ rev_str a.
Proof.
  induction a as [|x a IH]; intros b; simpl.
  - now rewrite str_app_nil_r.
  - now rewrite IH, str_app_assoc.
Qed.

Lemma includes_prefix : forall s p, String.prefix p s = true -> includes s p = true.
Proof. intros s p H. destruct s; cbn [includes]; now rewrite H. Qed.

Lemma includes_app_r : forall a b, includes (a ++ b) b = true.
Proof.
  induction a as [|x a IH]; intros b.
  - apply includes_prefix, prefix_refl.
  - cbn [includes String.append]. rewrite IH. apply orb_true_r.
Qed.

Lemma index_of_includes : forall s p i, index_of s p = Some i -> includes s p = true.
Proof.
  induction s as [|x s IH]; intros p i H; cbn [index_of includes] in *.
  - destruct (String.prefix p ""); [reflexivity | discriminate].
  - destruct (String.prefix p (String x s)); [reflexivity|].
    destruct (index_of s p) eqn:E; [|discriminate]. simpl. eapply IH; eauto.
Qed.

Lemma take_app : forall a b, take (String.length a) (a ++ b) = a.
Proof.
  unfold take; induction a as [|x a IH]; intros b; simpl.
  - now destruct b.
  - now rewrite IH.
Qed.

Lemma trim_end_snoc : forall x c,
  is_ws c = false -> trim_end (x ++ String c "") = x ++ String c "".
Proof.
  induction x as [|d x IH]; intros c Hc; simpl.
  - now rewrite Hc.
  - rewrite IH by exact Hc. destruct x; reflexivity.
Qed.

Lemma trim_start_snoc : forall x c,
  is_ws c = false -> exists y, trim_start (x ++ String c "") = y ++ String c "".
Proof.
  induction x as [|d x IH]; intros c Hc; simpl.
  - rewrite Hc. now exists "".
  - destruct (is_ws d); [now apply IH|]. now exists (String d x).
Qed.

Lemma trim_snoc : forall x c,
  is_ws c = false -> exists y, trim (x ++ String c "") = y ++ String c "".
Proof. intros x c Hc. unfold trim. rewrite trim_end_snoc by exact Hc. now apply trim_start_snoc. Qed.

(** A chunk ending in the pagination marker never looks like a prompt. *)
Lemma detectCommandPrompt_more : forall p, detectCommandPrompt (p ++ MORE) = false.
Proof.
  intro p.
  replace (p ++ MORE) with ((p ++ "--More-") ++ String "-" "")
    by (rewrite str_app_assoc; reflexivity).
  destruct (trim_snoc (p ++ "--More-") "-" eq_refl) as [y Hy].
  unfold detectCommandPrompt. rewrite Hy.
  unfold ends_with. simpl. rewrite !rev_str_app. reflexivity.
Qed.

(** ** C3 *)

Import Session.

(** One page event while paging: the page (without the marker) is appended
    to the accumulator, the counter is incremented and a space is sent. *)
Lemma handleData_page : forall s p,
  loggedIn s = true -> waitingForResponse s = true -> buffer s = "" ->
  pageCount s < maxPages -> marker_at_end p = true ->
  handleData s (p ++ MORE) =
  (set_pageCount (set_accumulatedResponse s (accumulatedResponse s ++ p)) (S (pageCount s)),
   [Write " "]).
Proof.
  intros s p Hl Hw Hb Hpc Hm.
  unfold marker_at_end in Hm.
  destruct (index_of (p ++ MORE) MORE) as [i|] eqn:Hi; [|discriminate].
  apply Nat.eqb_eq in Hm; subst i.
  unfold handleData. simpl_session.
  rewrite Hb, Hl, Hw. cbn [String.append negb].
  rewrite detectCommandPrompt_more, includes_app_r, Hi, take_app.
  replace (Nat.ltb maxPages (S (pageCount s))) with false
    by (symmetry; apply Nat.ltb_ge; exact Hpc).
  destruct s; cbn in *; subst; reflexivity.
Qed.

Lemma concat_cons : forall p ps, String.concat "" (p :: ps) = p ++ String.concat "" ps.
Proof. intros p [|q ps]; simpl; [now rewrite str_app_nil_r | reflexivity]. Qed.

Lemma concat_snoc : forall ps q, String.concat "" (ps ++ [q]) = String.concat "" ps ++ q.
Proof.
  induction ps as [|p ps IH]; intros q; [reflexivity|].
  rewrite <- app_comm_cons, !concat_cons, IH. now rewrite str_app_assoc.
Qed.

Lemma feed_app : forall xs ys s,
  feed s (xs ++ ys) =
  (fst (feed (fst (feed s xs)) ys), (snd (feed s xs) ++ snd (feed (fst (feed s xs)) ys))%list).
Proof.
  induction xs as [|x xs IH]; intros ys s; simpl.
  - now destruct (feed s ys).
  - destruct (handleData s x) as [s1 e1]. rewrite IH.
    destruct (feed s1 xs) as [s2 e2]; simpl.
    destruct (feed s2 ys) as [s3 e3]; simpl. now rewrite app_assoc.
Qed.

(** Pages before the limit: each is accumulated without its marker. *)
Lemma feed_pages : forall ps s,
  loggedIn s = true -> waitingForResponse s = true -> buffer s = "" ->
  pageCount s + List.length ps <= maxPages -> forallb marker_at_end ps = true ->
  feed s (map (fun p => p ++ MORE) ps) =
  (set_pageCount (set_accumulatedResponse s (accumulatedResponse s ++ String.concat "" ps))
     (pageCount s + List.length ps),
   repeat (Write " ") (List.length ps)).
Proof.
  induction ps as [|p ps IH]; intros s Hl Hw Hb Hpc Hm.
  - simpl. rewrite str_app_nil_r, Nat.add_0_r. now destruct s.
  - simpl in Hpc, Hm |- *. apply andb_prop in Hm as [Hp Hps].
    rewrite handleData_page by (auto; lia).
    rewrite IH; simpl_session; auto; try lia.
    change (match ps with [] => p | _ :: _ => p ++ String.concat "" ps end)
      with (String.concat "" (p :: ps)).
    rewrite concat_cons, str_app_assoc, Nat.add_succ_r. now destruct s.
Qed.

(** The event that carries the final prompt resolves the pending command
    with the extraction of the accumulated text followed by this event. *)
Lemma handleData_last : forall s q,
  loggedIn s = true -> waitingForResponse s = true -> buffer s = "" ->
  detectCommandPrompt q = true ->
  snd (handleData s q) =
    call_resolver s (extractCommandResponse_index (lastCommand s) (accumulatedResponse s ++ q)) /\
  waitingForResponse (fst (handleData s q)) = false /\
  accumulatedResponse (fst (handleData s q)) = "".
Proof.
  intros s q Hl Hw Hb Hq.
  unfold handleData. simpl_session.
  rewrite Hb, Hl, Hw. cbn [String.append negb]. rewrite Hq.
  unfold clear_command_timeout, updateCurrentPrompt, call_resolver. simpl_session.
  destruct (currentCommandTimeout s); simpl_session;
  destruct (String.eqb (accumulatedResponse s) "") eqn:E; cbn [negb]; simpl_session;
  try (apply String.eqb_eq in E; rewrite E);
  repeat split; reflexivity.
Qed.

(** The event that makes the page counter exceed [maxPages]. *)
Lemma handleData_abort : forall s p,
  loggedIn s = true -> waitingForResponse s = true -> buffer s = "" ->
  pageCount s = maxPages ->
  snd (handleData s (p ++ MORE)) = call_resolver s (accumulatedResponse s ++ (p ++ MORE)) /\
  waitingForResponse (fst (handleData s (p ++ MORE))) = false.
Proof.
  intros s p Hl Hw Hb Hpc.
  unfold handleData. simpl_session.
  rewrite Hb, Hl, Hw, Hpc. cbn [String.append negb].
  rewrite detectCommandPrompt_more, includes_app_r.
  unfold call_resolver; simpl_session. split; reflexivity.
Qed.

(** Paginated responses of up to [maxPages] markers: the text handed to
    [extractCommandResponse] is the concatenation of the pages with the
    markers removed, and one space is written per page. *)
Lemma pagination_assembles_pages : forall s id cmd ps q,
  awaiting_first_page s -> responseResolver s = Some (id, cmd) ->
  List.length ps <= maxPages -> forallb marker_at_end ps = true ->
  detectCommandPrompt q = true ->
  snd (feed s (map (fun p => p ++ MORE) ps ++ [q])) =
    (repeat (Write " ") (List.length ps) ++
     [CmdResolved id cmd
        (extractCommandResponse_index (lastCommand s) (String.concat "" (ps ++ [q])))])%list /\
  waitingForResponse (fst (feed s (map (fun p => p ++ MORE) ps ++ [q]))) = false.
Proof.
  intros s id cmd ps q (Hl & Hw & Hb & Ha & Hpc) Hr Hlen Hm Hq.
  rewrite feed_app, (feed_pages ps s) by (auto; lia). simpl.
  destruct (handleData_last
              (set_pageCount (set_accumulatedResponse s (accumulatedResponse s ++ String.concat "" ps))
                 (pageCount s + Datatypes.length ps)) q)
    as (E & W & _); simpl_session; auto.
  destruct (handleData _ q) as [s' e] eqn:Hd; simpl in *.
  rewrite E, W. unfold call_resolver in *; simpl_session.
  rewrite Hr, Ha, concat_snoc. split; reflexivity.
Qed.

(** C3 (code_bug): when the page counter exceeds [maxPages] (the marker
    event number 101), [handleData] resolves the command with the
    accumulated pages followed by the whole current buffer, including its
    [--More--] marker, and without passing it through
    [extractCommandResponse]; the pages before the limit are accumulated
    without markers (see [pagination_assembles_pages]). *)
Theorem C3_page_limit_result_keeps_marker : forall s id cmd ps p,
  awaiting_first_page s -> responseResolver s = Some (id, cmd) ->
  List.length ps = maxPages -> forallb marker_at_end ps = true ->
  snd (feed s (map (fun x => x ++ MORE) (ps ++ [p]))) =
    (repeat (Write " ") maxPages ++
     [CmdResolved id cmd (String.concat "" ps ++ (p ++ MORE))])%list.
Proof.
  intros s id cmd ps p (Hl & Hw & Hb & Ha & Hpc) Hr Hlen Hm.
  rewrite map_app, feed_app, (feed_pages ps s) by (auto; lia). simpl.
  destruct (handleData_abort
              (set_pageCount (set_accumulatedResponse s (accumulatedResponse s ++ String.concat "" ps))
                 (pageCount s + Datatypes.length ps)) p)
    as (E & _); simpl_session; auto; [lia|].
  destruct (handleData _ (p ++ MORE)) as [s' e] eqn:Hd; simpl in *.
  rewrite E, Hlen. unfold call_resolver in *; simpl_session.
  rewrite Hr, Ha. reflexivity.
Qed.

Lemma C3_page_limit_result_keeps_marker_witness :
  awaiting_first_page show_session /\
  responseResolver show_session = Some (0, "show onu info") /\
  snd (feed show_session (map (fun x => x ++ MORE) (repeat "x" 100 ++ ["x"]))) =
    (repeat (Write " ") maxPages ++
     [CmdResolved 0 "show onu info" (String.concat "" (repeat "x" 101) ++ MORE)])%list.
Proof.
  assert (Hs : awaiting_first_page show_session)
    by (vm_compute; repeat split; reflexivity).
  assert (Hr : responseResolver show_session = Some (0, "show onu info"))
    by (vm_compute; reflexivity).
  split; [exact Hs|]. split; [exact Hr|].
  rewrite (C3_page_limit_result_keeps_marker show_session 0 "show onu info"
             (repeat "x" 100) "x" Hs Hr eq_refl eq_refl).
  vm_compute. reflexivity.
Defined.

(** ** C4 *)

(** C4 (counterexample): the [close] handler only clears the three flags:
    a [sendCommand] in flight is not rejected by it, and the command timer
    later resolves it with the partial paginated text. *)
Lemma C4_close_leaves_command_pending :
  let s1 := fst (feed show_session ["ONU 1 online" ++ NL ++ MORE]) in
  let s2 := fst (step s1 EvClose) in
  snd (step s1 EvClose) = [] /\
  connected s2 = false /\ loggedIn s2 = false /\ inConfigMode s2 = false /\
  waitingForResponse s2 = true /\ responseResolver s2 = Some (0, "show onu info") /\
  snd (step s2 (EvCommandTimer 0)) = [CmdResolved 0 "show onu info" "ONU 1 online"].
Proof. vm_compute. repeat split; reflexivity. Qed.

(** C4 (amended): socket closure sets [connected], [loggedIn] and
    [inConfigMode] to false and changes nothing else; the [close] handler
    fails no pending operation: it produces no effect, and a command
    awaiting its response keeps [waitingForResponse], its resolver, its
    armed timers and the suspended [enterConfigMode] step. *)
Theorem C4_close_only_clears_flags : forall s,
  step s EvClose =
    (set_inConfigMode (set_loggedIn (set_connected s false) false) false, []) /\
  connected (fst (step s EvClose)) = false /\
  loggedIn (fst (step s EvClose)) = false /\
  inConfigMode (fst (step s EvClose)) = false /\
  snd (step s EvClose) = [] /\
  waitingForResponse (fst (step s EvClose)) = waitingForResponse s /\
  responseResolver (fst (step s EvClose)) = responseResolver s /\
  liveTimers (fst (step s EvClose)) = liveTimers s /\
  currentCommandTimeout (fst (step s EvClose)) = currentCommandTimeout s /\
  configTask (fst (step s EvClose)) = configTask s.
Proof.
  intro s.
  assert (E : step s EvClose =
    (set_inConfigMode (set_loggedIn (set_connected s false) false) false, [])).
  { unfold step, handle, onClose, resume. simpl_session.
    destruct (configTask s) as [[id|id]|]; reflexivity. }
  rewrite E. simpl_session. repeat split.
Qed.

(** ** C5 *)

(** C5: when a command timer fires while a response is pending, the
    command's promise is resolved with the extracted accumulated pages
    (formatted by its resolver) if any were accumulated, and rejected with
    the timeout error otherwise; the pending state is cleared. *)
Theorem C5_timer_expiry_best_effort : forall s tm,
  waitingForResponse s = true ->
  snd (commandTimerFired s tm) =
    (if String.eqb (accumulatedResponse s) "" then
       [CmdRejected (t_id tm) "Timeout esperando respuesta al comando"]
     else
       [CmdResolved (t_id tm) (t_cmd tm)
          (extractCommandResponse_index (lastCommand s) (accumulatedResponse s))]) /\
  waitingForResponse (fst (commandTimerFired s tm)) = false /\
  responseResolver (fst (commandTimerFired s tm)) = None /\
  accumulatedResponse (fst (commandTimerFired s tm)) = "".
Proof.
  intros s tm Hw. unfold commandTimerFired. rewrite Hw.
  destruct (String.eqb (accumulatedResponse s) ""); simpl_session; repeat split.
Qed.

Lemma C5_timer_expiry_best_effort_witness :
  let s1 := fst (feed show_session ["ONU 1 online" ++ NL ++ MORE]) in
  waitingForResponse s1 = true /\
  snd (commandTimerFired s1 (mkTimer 0 "show onu info" 120000)) =
    [CmdResolved 0 "show onu info" "ONU 1 online"] /\
  snd (commandTimerFired show_session (mkTimer 0 "show onu info" 120000)) =
    [CmdRejected 0 "Timeout esperando respuesta al comando"].
Proof.
  intro s1.
  assert (H1 : waitingForResponse s1 = true) by (vm_compute; reflexivity).
  assert (H0 : waitingForResponse show_session = true) by (vm_compute; reflexivity).
  split; [exact H1|]. split.
  - destruct (C5_timer_expiry_best_effort s1 (mkTimer 0 "show onu info" 120000) H1) as [E _].
    rewrite E. vm_compute. reflexivity.
  - destruct (C5_timer_expiry_best_effort show_session (mkTimer 0 "show onu info" 120000) H0) as [E _].
    rewrite E. vm_compute. reflexivity.
Defined.

(** ** C6 *)

(** C6 (counterexample): [do show running-config] neither begins with
    [show] nor equals [list], yet gets the 120 s deadline. *)
Lemma C6_show_inside_command_gets_long_timeout :
  String.prefix "show" "do show running-config" = false /\
  timeoutDuration "do show running-config" = 120000%N.
Proof. split; reflexivity. Qed.

Lemma prefix_includes : forall s p, String.prefix p s = true -> includes s p = true.
Proof. exact includes_prefix. Qed.

(** C6 (amended): the deadline is 120 s for [list] and for every command
    containing [show] anywhere (so for every command beginning with
    [show]), and 30 s for every other command; [sendCommand] arms its timer
    with it. *)
Theorem C6_timeout_duration : forall command,
  (String.eqb command "list" = true \/ includes command "show" = true ->
   timeoutDuration command = 120000%N) /\
  (String.prefix "show" command = true -> timeoutDuration command = 120000%N) /\
  (String.eqb command "list" = false -> includes command "show" = false ->
   timeoutDuration command = 30000%N) /\
  forall s, connected s = true -> loggedIn s = true ->
    hd_error (liveTimers (fst (sendCommand s command))) =
      Some (mkTimer (nextId s) command (timeoutDuration command)).
Proof.
  intro command. unfold timeoutDuration. repeat split.
  - intros [H|H]; rewrite H; [reflexivity|]. now rewrite orb_true_r.
  - intro H. rewrite (prefix_includes _ _ H). now rewrite orb_true_r.
  - intros H1 H2. now rewrite H1, H2.
  - intros s Hc Hl. unfold sendCommand. simpl_session. rewrite Hc, Hl. simpl.
    simpl_session. reflexivity.
Qed.

Lemma C6_timeout_duration_witness :
  timeoutDuration "show onu info" = 120000%N /\ timeoutDuration "list" = 120000%N /\
  timeoutDuration "configure terminal" = 30000%N.
Proof.
  split; [|split].
  - apply (proj1 (proj2 (C6_timeout_duration "show onu info"))). reflexivity.
  - apply (proj1 (C6_timeout_duration "list")). left. reflexivity.
  - apply (proj1 (proj2 (proj2 (C6_timeout_duration "configure terminal")))); reflexivity.
Defined.

(** ** C7 *)

(** Case analysis on the conditions of a handler. *)
Ltac case_ifs :=
  repeat (simpl_session;
    match goal with
    | |- context [if ?b then _ else _] => let E := fresh "E" in destruct b eqn:E
    | |- context [match ?x with Some _ => _ | None => _ end] =>
        let E := fresh "E" in destruct x eqn:E
    | |- context [match ?x with (_, _) => _ end] => destruct x
    end).

Lemma resolved_app : forall id a b, resolved id (a ++ b) = resolved id a || resolved id b.
Proof. intros. unfold resolved. apply existsb_app. Qed.

Lemma sendCommand_flags : forall s c,
  loggedIn (fst (sendCommand s c)) = loggedIn s /\
  inConfigMode (fst (sendCommand s c)) = inConfigMode s /\
  (forall id, resolved id (snd (sendCommand s c)) = false).
Proof.
  intros s c. unfold sendCommand. simpl_session.
  destruct (connected s && loggedIn s); simpl; simpl_session; repeat split.
Qed.

Lemma await_flags : forall s c k,
  loggedIn (fst (await_command s c k)) = loggedIn s /\
  inConfigMode (fst (await_command s c k)) = inConfigMode s /\
  (forall id, resolved id (snd (await_command s c k)) = false).
Proof.
  intros s c k. unfold await_command.
  destruct (sendCommand_flags s c) as (A & B & D).
  destruct (sendCommand s c) as [s1 e1]. simpl in *.
  destruct (rejected (nextId s) e1); simpl; simpl_session; repeat split; auto.
  intro id. now rewrite resolved_app, D.
Qed.

(** The continuation of [enterConfigMode] keeps the invariant unless it
    resumes after a successful [configure terminal] on a logged-out session. *)
Lemma resume_inv : forall s effs,
  config_implies_login s ->
  (forall id, configTask s = Some (TConfigure id) -> resolved id effs = true ->
              loggedIn s = true) ->
  config_implies_login (fst (resume (s, effs))).
Proof.
  intros s effs Hi Hr. unfold resume.
  destruct (configTask s) as [[id|id]|] eqn:Ht.
  - destruct (resolved id effs).
    + destruct (await_flags (set_configTask s None) "configure terminal" TConfigure)
        as (A & B & _).
      destruct (await_command _ _ _) as [s1 e1]. simpl in *. simpl_session.
      unfold config_implies_login. rewrite A, B. exact Hi.
    + destruct (rejected id effs); exact Hi.
  - destruct (resolved id effs) eqn:R.
    + intros _. simpl. apply (Hr id); auto.
    + destruct (rejected id effs); exact Hi.
  - exact Hi.
Qed.

Lemma handleData_inv : forall s d,
  config_implies_login s ->
  config_implies_login (fst (handleData s d)) /\
  (forall id, resolved id (snd (handleData s d)) = true ->
              loggedIn (fst (handleData s d)) = true).
Proof.
  intros s d Hi. unfold handleData, updateCurrentPrompt, clear_command_timeout, call_resolver.
  case_ifs; unfold config_implies_login in *; simpl_session;
  split; intros; auto; try discriminate;
  destruct (loggedIn s); simpl in *; congruence.
Qed.

(** Every handler but the command timer keeps the invariant, and whatever
    it resolves leaves the session logged in. *)
Lemma handle_inv : forall s ev,
  (forall id, ev <> EvCommandTimer id) ->
  config_implies_login s ->
  config_implies_login (fst (handle s ev)) /\
  (forall id, resolved id (snd (handle s ev)) = true ->
              loggedIn (fst (handle s ev)) = true).
Proof.
  intros s ev Hev Hi.
  destruct ev as [u p e| |d| | | |id|c| | |]; simpl handle.
  - unfold connect. simpl_session. split; [exact Hi | discriminate].
  - unfold onConnected. simpl_session. split; [exact Hi | discriminate].
  - now apply handleData_inv.
  - unfold onError. simpl_session. split; [exact Hi | discriminate].
  - unfold onClose, config_implies_login. simpl_session. split; discriminate.
  - unfold onConnectTimeout. destruct (connectTimerLive s); simpl_session;
      split; [exact Hi | discriminate | exact Hi | discriminate].
  - exfalso. exact (Hev id eq_refl).
  - destruct (sendCommand_flags s c) as (A & B & D).
    unfold config_implies_login in *. rewrite A, B. split; [exact Hi | intros id; rewrite D; discriminate].
  - unfold enterEnableMode.
    destruct (negb (connected s && loggedIn s)); [split; [exact Hi | discriminate]|].
    destruct (String.eqb (currentPrompt s) "#" || inConfigMode s);
      [split; [exact Hi | discriminate]|].
    destruct (sendCommand_flags s "enable") as (A & B & D).
    unfold config_implies_login in *. rewrite A, B. split; [exact Hi | intros id; rewrite D; discriminate].
  - unfold enterConfigMode.
    destruct (negb (connected s && loggedIn s)); [split; [exact Hi | discriminate]|].
    destruct (inConfigMode s); [split; [exact Hi | discriminate]|].
    destruct (negb (String.eqb (currentPrompt s) "#")).
    + destruct (await_flags s "enable" TEnable) as (A & B & D).
      unfold config_implies_login in *. rewrite A, B.
      split; [exact Hi | intros id; rewrite D; discriminate].
    + destruct (await_flags s "configure terminal" TConfigure) as (A & B & D).
      unfold config_implies_login in *. rewrite A, B.
      split; [exact Hi | intros id; rewrite D; discriminate].
  - unfold disconnect, config_implies_login. destruct (connected s); simpl_session.
    + split; [discriminate | intros id; destruct (inConfigMode s); simpl; discriminate].
    + split; [exact Hi | discriminate].
Qed.

(** A firing command timer changes none of the flags and resolves at most
    its own promise. *)
Lemma fire_flags : forall s id,
  loggedIn (fst (fireCommandTimer s id)) = loggedIn s /\
  inConfigMode (fst (fireCommandTimer s id)) = inConfigMode s /\
  configTask (fst (fireCommandTimer s id)) = configTask s /\
  (forall j, resolved j (snd (fireCommandTimer s id)) = true -> j = id).
Proof.
  intros s id. unfold fireCommandTimer.
  destruct (find (fun tm => Nat.eqb (t_id tm) id) (liveTimers s)) as [tm|] eqn:F.
  - apply find_some in F as [_ F]. apply Nat.eqb_eq in F.
    unfold commandTimerFired. simpl_session.
    destruct (waitingForResponse s); simpl_session; [|repeat split; discriminate].
    destruct (negb (String.eqb (accumulatedResponse s) "")); simpl_session;
      repeat split; intros j Hj; [|discriminate].
    simpl in Hj. rewrite orb_false_r in Hj. apply Nat.eqb_eq in Hj. congruence.
  - repeat split. discriminate.
Qed.

Lemma step_inv_not_timer : forall s ev,
  (forall id, ev <> EvCommandTimer id) ->
  config_implies_login s -> config_implies_login (fst (step s ev)).
Proof.
  intros s ev Hev Hi. unfold step.
  destruct (handle_inv s ev Hev Hi) as (H1 & H2).
  destruct (handle s ev) as [s1 e1]. simpl in *.
  apply resume_inv; [exact H1 | intros k _ Hk; exact (H2 k Hk)].
Qed.

(** C7 (counterexample): [enterConfigMode] waits for [configure terminal];
    the socket closes in the middle of the paginated answer; when the
    command timer fires the partial answer resolves the command and the
    continuation sets [inConfigMode] on the logged-out session. *)
Lemma C7_config_mode_without_login :
  let s := fst (run logged_in_session config_close_timeout_events) in
  inConfigMode s = true /\ loggedIn s = false /\ connected s = false.
Proof. vm_compute. repeat split. Qed.

(** C7 (amended): every event keeps the invariant [inConfigMode -> loggedIn]
    except one: the command timer of the [configure terminal] awaited by a
    suspended [enterConfigMode], firing on a session that is no longer
    logged in (after a socket closure or a [disconnect]); it then sets
    [inConfigMode] on the logged-out session. *)
Theorem C7_invariant_except_config_timer : forall s ev,
  config_implies_login s ->
  config_implies_login (fst (step s ev)) \/
  (exists id, ev = EvCommandTimer id /\ configTask s = Some (TConfigure id) /\
     loggedIn s = false /\
     inConfigMode (fst (step s ev)) = true /\ loggedIn (fst (step s ev)) = false).
Proof.
  intros s ev Hi.
  destruct ev as [u p e| |d| | | |id|c| | |];
    try (left; apply step_inv_not_timer; [intros ? H; discriminate H | exact Hi]).
  unfold step. simpl handle.
  destruct (fire_flags s id) as (A & B & C & D).
  destruct (fireCommandTimer s id) as [s1 e1]. simpl in A, B, C, D.
  assert (H1 : config_implies_login s1)
    by (unfold config_implies_login in *; intro Hc; rewrite A; apply Hi; congruence).
  destruct (loggedIn s) eqn:L.
  - left. apply resume_inv; [exact H1 | intros k _ _; congruence].
  - destruct (configTask s) as [[j|j]|] eqn:T.
    + left. apply resume_inv; [exact H1 | intros k Hk; congruence].
    + destruct (resolved j e1) eqn:R.
      * assert (j = id) by (apply D; exact R). subst j.
        right. exists id. repeat split; auto; simpl; rewrite C, R; simpl_session; auto.
      * left. apply resume_inv; [exact H1|].
        intros k Hk. rewrite C in Hk. congruence.
    + left. apply resume_inv; [exact H1 | intros k Hk; congruence].
Qed.

Lemma C7_invariant_except_config_timer_witness :
  config_implies_login logged_in_session /\
  config_implies_login (fst (step logged_in_session (EvSendCommand "show onu info"))).
Proof.
  assert (H : config_implies_login logged_in_session)
    by (unfold config_implies_login; vm_compute; auto).
  split; [exact H|].
  destruct (C7_invariant_except_config_timer logged_in_session
              (EvSendCommand "show onu info") H) as [H1 | (id & E & _)];
    [exact H1 | discriminate E].
Defined.

(** ** C9 *)

(** A handler that settles no command promise enables no continuation. *)
Lemma resume_quiet : forall s effs,
  (forall id, resolved id effs = false) -> (forall id, rejected id effs = false) ->
  resume (s, effs) = (s, effs).
Proof.
  intros s effs Hres Hrej. unfold resume.
  destruct (configTask s) as [[id|id]|]; rewrite ?Hres, ?Hrej; reflexivity.
Qed.

Lemma step_disconnect : forall s, step s EvDisconnect = disconnect s.
Proof.
  intro s. unfold step. simpl handle. unfold disconnect.
  destruct (connected s); cbn [negb]; apply resume_quiet; intro id;
    try destruct (inConfigMode s); reflexivity.
Qed.

(** C9 (counterexample): on the session of [C7_config_mode_without_login]
    (not connected, not logged in, in configuration mode) two calls of
    [disconnect] resolve without I/O and leave [inConfigMode] true. *)
Lemma C9_double_disconnect_keeps_config_flag :
  let s := fst (run logged_in_session config_close_timeout_events) in
  let r := run s [EvDisconnect; EvDisconnect] in
  snd r = [DisconnectResolved; DisconnectResolved] /\
  connected (fst r) = false /\ loggedIn (fst r) = false /\ inConfigMode (fst r) = true.
Proof. vm_compute. repeat split. Qed.

(** C9 (amended): [disconnect] always resolves.  On a session that is not
    connected it resolves at once, without I/O and without changing the
    state; on a connected one it writes [exit] (twice in configuration
    mode), ends the socket and clears [connected], [loggedIn] and
    [inConfigMode].  A second call is therefore a no-op that resolves. *)
Theorem C9_disconnect_idempotent : forall s,
  (connected s = false -> step s EvDisconnect = (s, [DisconnectResolved])) /\
  (connected s = true ->
     connected (fst (step s EvDisconnect)) = false /\
     loggedIn (fst (step s EvDisconnect)) = false /\
     inConfigMode (fst (step s EvDisconnect)) = false /\
     snd (step s EvDisconnect) =
       ((if inConfigMode s then [Write ("exit" ++ NL)] else []) ++
        [Write ("exit" ++ NL); EndSocket; DisconnectResolved])%list) /\
  step (fst (step s EvDisconnect)) EvDisconnect =
    (fst (step s EvDisconnect), [DisconnectResolved]).
Proof.
  intro s. rewrite !step_disconnect. unfold disconnect.
  destruct (connected s) eqn:Hc; simpl_session.
  - repeat split; discriminate.
  - simpl. rewrite Hc. simpl. repeat split; auto; discriminate.
Qed.

Lemma C9_disconnect_idempotent_witness :
  step show_session EvDisconnect =
    (fst (step show_session EvDisconnect), [Write ("exit" ++ NL); EndSocket; DisconnectResolved]) /\
  step (fst (step show_session EvDisconnect)) EvDisconnect =
    (fst (step show_session EvDisconnect), [DisconnectResolved]).
Proof.
  destruct (C9_disconnect_idempotent show_session) as (_ & H2 & H3).
  assert (Hc : connected show_session = true) by (vm_compute; reflexivity).
  destruct (H2 Hc) as (_ & _ & _ & He).
  split; [|exact H3].
  rewrite (surjective_pairing (step show_session EvDisconnect)) at 1.
  rewrite He. vm_compute. reflexivity.
Defined.

(** ** C10 *)

Import Formatter.

(** Facts about one character, decided by its code. *)
Ltac by_code c :=
  destruct (Nat.eqb_spec (code c) 10) as [Ec|Ec];
  [unfold is_nl, is_letter, is_digit_or_semi, is_removed_ctrl, is_bs, is_esc,
     is_line_terminator in *; rewrite ?Ec in *; discriminate | ].

Lemma count_if_app : forall p a b, count_if p (a ++ b) = count_if p a + count_if p b.
Proof. induction a as [|c a IH]; intros b; simpl; [reflexivity | rewrite IH; lia]. Qed.

Lemma all_chars_nl_free : forall p s,
  (forall c, p c = true -> is_nl c = false) -> all_chars p s = true -> count_if is_nl s = 0.
Proof.
  intros p s Hp. induction s as [|c s IH]; simpl; [reflexivity|].
  intro H. apply andb_prop in H as [H1 H2]. rewrite (Hp c H1). simpl. auto.
Qed.

Lemma erase_ctrl_clean : forall s,
  all_chars (fun c => negb (is_removed_ctrl c)) (erase_ctrl s) = true.
Proof.
  induction s as [|c s IH]; simpl; [reflexivity|].
  destruct (is_removed_ctrl c) eqn:E; simpl; [exact IH | rewrite E; exact IH].
Qed.

Lemma erase_ctrl_count_nl : forall s, count_if is_nl (erase_ctrl s) = count_if is_nl s.
Proof.
  induction s as [|c s IH]; simpl; [reflexivity|].
  destruct (is_removed_ctrl c) eqn:E; simpl; rewrite IH; [|reflexivity].
  assert (is_nl c = false) as ->; [|reflexivity].
  unfold is_nl. destruct (Nat.eqb_spec (code c) 10) as [Ec|]; [|reflexivity].
  unfold is_removed_ctrl in E. rewrite Ec in E. discriminate.
Qed.

(** Strong induction on the length of a string, for the scanners that
    consume two characters at a time. *)
Lemma string_len_ind : forall (P : string -> Prop),
  (forall s, (forall t, String.length t < String.length s -> P t) -> P s) ->
  forall s, P s.
Proof.
  intros P H. assert (G : forall n s, String.length s <= n -> P s).
  { induction n as [|n IH]; intros s Hs; apply H; intros t Ht; [lia|].
    apply IH. lia. }
  intro s. apply (G (String.length s)). lia.
Qed.

Lemma replace_crlf_all_chars : forall p s,
  all_chars p s = true -> all_chars p (replace_crlf s) = true.
Proof.
  intros p. apply (string_len_ind (fun s => all_chars p s = true -> _)).
  intros [|c1 [|c2 r]] IH H; simpl in *; auto.
  apply andb_prop in H as [H1 H]. apply andb_prop in H as [H2 H3].
  destruct (Nat.eqb (code c1) 13 && Nat.eqb (code c2) 10); simpl.
  - rewrite H2. apply IH; simpl; auto.
  - rewrite H1. apply (IH (String c2 r)); simpl; [lia|]. now rewrite H2, H3.
Qed.

Lemma replace_crlf_cons2 : forall c1 c2 r,
  replace_crlf (String c1 (String c2 r)) =
  if Nat.eqb (code c1) 13 && Nat.eqb (code c2) 10
  then String c2 (replace_crlf r)
  else String c1 (replace_crlf (String c2 r)).
Proof. reflexivity. Qed.

Lemma replace_crlf_count_nl : forall s, count_if is_nl (replace_crlf s) = count_if is_nl s.
Proof.
  apply string_len_ind. intros [|c1 [|c2 r]] IH; [reflexivity | reflexivity|].
  rewrite replace_crlf_cons2.
  destruct (Nat.eqb (code c1) 13) eqn:E1; destruct (Nat.eqb (code c2) 10) eqn:E2;
    cbn [andb count_if];
    try (rewrite (IH (String c2 r)) by (simpl; lia); reflexivity).
  rewrite IH by (simpl; lia). unfold is_nl. rewrite E2.
  apply Nat.eqb_eq in E1. rewrite E1. reflexivity.
Qed.

Lemma erase_char_backspace_cons2 : forall c1 c2 r,
  erase_char_backspace (String c1 (String c2 r)) =
  if negb (is_line_terminator c1) && is_bs c2
  then erase_char_backspace r
  else String c1 (erase_char_backspace (String c2 r)).
Proof. reflexivity. Qed.

Lemma erase_char_backspace_no_bs : forall s,
  all_chars (fun c => negb (is_bs c)) s = true -> erase_char_backspace s = s.
Proof.
  induction s as [|c1 t IH]; [reflexivity|]. intro H.
  destruct t as [|c2 r]; [reflexivity|].
  simpl in H. apply andb_prop in H as [_ H]. pose proof H as H'.
  simpl in H'. apply andb_prop in H' as [H2 _]. apply negb_true_iff in H2.
  rewrite erase_char_backspace_cons2, H2, andb_false_r, IH by exact H. reflexivity.
Qed.

Lemma erase_backspace_runs_no_bs : forall s,
  all_chars (fun c => negb (is_bs c)) s = true -> erase_backspace_runs BsOut s = s.
Proof.
  induction s as [|c s IH]; [reflexivity|]. intro H.
  simpl in H. apply andb_prop in H as [H1 H]. apply negb_true_iff in H1.
  simpl. rewrite H1, IH by exact H. reflexivity.
Qed.

Lemma erase_ansi_no_esc : forall s,
  all_chars (fun c => negb (is_esc c)) s = true -> erase_ansi AnsiOut s = s.
Proof.
  induction s as [|c s IH]; [reflexivity|]. intro H.
  simpl in H. apply andb_prop in H as [H1 H]. apply negb_true_iff in H1.
  simpl. rewrite H1, IH by exact H. reflexivity.
Qed.

Lemma all_chars_app : forall p a b,
  all_chars p (a ++ b) = all_chars p a && all_chars p b.
Proof. induction a as [|c a IH]; intros b; simpl; [reflexivity | now rewrite IH, andb_assoc]. Qed.

Lemma all_chars_impl : forall (p q : ascii -> bool) s,
  (forall c, p c = true -> q c = true) -> all_chars p s = true -> all_chars q s = true.
Proof.
  intros p q s Hpq. induction s as [|c s IH]; simpl; [reflexivity|].
  intro H. apply andb_prop in H as [H1 H2]. now rewrite (Hpq c H1), IH.
Qed.

(** [is_nl c = false] for a character of a class that excludes code 10;
    [H] states the class. *)
Ltac not_nl c H :=
  unfold is_nl; destruct (Nat.eqb_spec (code c) 10) as [Ec|Ec];
  [unfold is_esc, is_letter, is_digit_or_semi in H; rewrite Ec in H; discriminate H
  | reflexivity].

Lemma digits_nl_free : forall p, all_chars is_digit_or_semi p = true -> count_if is_nl p = 0.
Proof.
  intros p. apply all_chars_nl_free. intros c H. not_nl c H.
Qed.

Lemma outside_count_nl : forall c r,
  count_if is_nl (erase_ansi AnsiEsc r) = count_if is_nl r ->
  count_if is_nl (erase_ansi AnsiOut r) = count_if is_nl r ->
  count_if is_nl (if is_esc c then erase_ansi AnsiEsc r else String c (erase_ansi AnsiOut r)) =
  count_if is_nl (String c r).
Proof.
  intros c r HE HO. destruct (is_esc c) eqn:H; cbn [count_if]; [|now rewrite HO].
  rewrite HE. assert (is_nl c = false) as -> by not_nl c H. reflexivity.
Qed.

(** The ANSI scanner removes no line feed: the parameters it holds back are
    digits and semicolons, and a removed sequence holds no line feed. *)
Lemma erase_ansi_count_nl : forall s,
  count_if is_nl (erase_ansi AnsiOut s) = count_if is_nl s /\
  count_if is_nl (erase_ansi AnsiEsc s) = count_if is_nl s /\
  (forall p, all_chars is_digit_or_semi p = true ->
     count_if is_nl (erase_ansi (AnsiParams p) s) = count_if is_nl s).
Proof.
  induction s as [|c r (IHO & IHE & IHP)].
  - split; [reflexivity | split; [reflexivity|]].
    intros p Hp. cbn [erase_ansi]. rewrite !count_if_app, (digits_nl_free p Hp).
    reflexivity.
  - split; [|split].
    + cbn [erase_ansi]. now apply outside_count_nl.
    + cbn [erase_ansi]. destruct (Nat.eqb (code c) 91) eqn:H.
      * rewrite IHP by reflexivity. cbn [count_if].
        assert (is_nl c = false) as -> by not_nl c H. reflexivity.
      * rewrite count_if_app, outside_count_nl by assumption. reflexivity.
    + intros p Hp. cbn [erase_ansi].
      destruct (is_digit_or_semi c) eqn:H1; [|destruct (is_letter c) eqn:H2].
      * rewrite IHP by (rewrite all_chars_app, Hp; simpl; now rewrite H1).
        cbn [count_if]. assert (is_nl c = false) as -> by not_nl c H1. reflexivity.
      * rewrite IHO. cbn [count_if]. assert (is_nl c = false) as -> by not_nl c H2.
        reflexivity.
      * rewrite !count_if_app, (digits_nl_free p Hp), outside_count_nl by assumption.
        reflexivity.
Qed.

Lemma removed_ctrl_bs_esc : forall c,
  negb (is_removed_ctrl c) = true -> negb (is_bs c) && negb (is_esc c) = true.
Proof.
  intros c H. unfold is_bs, is_esc.
  destruct (Nat.eqb_spec (code c) 8) as [E|_];
    [unfold is_removed_ctrl in H; rewrite E in H; discriminate H|].
  destruct (Nat.eqb_spec (code c) 27) as [E|_];
    [unfold is_removed_ctrl in H; rewrite E in H; discriminate H|].
  reflexivity.
Qed.

(** Without backspaces and ESC only the CRLF step and the control
    character step change the text. *)
Lemma cleanResponse_plain : forall s,
  all_chars (fun c => negb (is_bs c)) s = true ->
  all_chars (fun c => negb (is_esc c)) s = true ->
  cleanResponse s = erase_ctrl (replace_crlf s).
Proof.
  intros s Hb He. unfold cleanResponse.
  pose proof (replace_crlf_all_chars _ _ Hb) as Hb'.
  pose proof (replace_crlf_all_chars _ _ He) as He'.
  rewrite erase_char_backspace_no_bs, erase_backspace_runs_no_bs, erase_ansi_no_esc
    by (try rewrite erase_char_backspace_no_bs; assumption).
  reflexivity.
Qed.

(** C10 (counterexample): the backspace-run step [/\x08+\s*\x08*/] also
    consumes the line feed that a CRLF became, so a CRLF after a lone
    backspace leaves no line feed in the output. *)
Lemma C10_backspace_run_swallows_crlf :
  cleanResponse (BS ++ CR ++ NL) = "" /\
  cleanResponse ("line1" ++ CR ++ NL ++ BS ++ CR ++ NL ++ "line2") = "line1" ++ NL ++ "line2".
Proof. split; vm_compute; reflexivity. Qed.

(** C10 (amended): the output of [cleanResponse] holds no character of
    [\x00-\x08\x0B\x0C\x0E-\x1F], hence no backspace and no ESC; for an
    input without backspaces the number of line feeds is kept (each CRLF
    becomes one line feed); and for an input without backspaces and ESC
    the result is the input with each CRLF turned into a line feed and the
    control characters removed. *)
Theorem C10_cleanResponse_controls_and_newlines : forall s,
  all_chars (fun c => negb (is_removed_ctrl c)) (cleanResponse s) = true /\
  all_chars (fun c => negb (is_bs c) && negb (is_esc c)) (cleanResponse s) = true /\
  (all_chars (fun c => negb (is_bs c)) s = true ->
     count_if is_nl (cleanResponse s) = count_if is_nl s) /\
  (all_chars (fun c => negb (is_bs c)) s = true ->
   all_chars (fun c => negb (is_esc c)) s = true ->
     cleanResponse s = erase_ctrl (replace_crlf s)).
Proof.
  intro s. unfold cleanResponse.
  split; [apply erase_ctrl_clean|]. split.
  { apply (all_chars_impl _ _ _ removed_ctrl_bs_esc). apply erase_ctrl_clean. }
  split.
  - intro Hb. pose proof (replace_crlf_all_chars _ _ Hb) as Hb'.
    rewrite erase_ctrl_count_nl, (proj1 (erase_ansi_count_nl _)),
      erase_backspace_runs_no_bs, erase_char_backspace_no_bs by
      (try rewrite erase_char_backspace_no_bs; assumption).
    apply replace_crlf_count_nl.
  - exact (cleanResponse_plain s).
Qed.

Lemma C10_cleanResponse_controls_and_newlines_witness :
  count_if is_nl (cleanResponse ("a" ++ CR ++ NL ++ ESC ++ "[1mb" ++ NL)) = 2 /\
  cleanResponse ("a" ++ CR ++ NL ++ "b" ++ chr 7) = "a" ++ NL ++ "b".
Proof.
  split.
  - rewrite (proj1 (proj2 (proj2 (C10_cleanResponse_controls_and_newlines
                                      ("a" ++ CR ++ NL ++ ESC ++ "[1mb" ++ NL)))))
      by (vm_compute; reflexivity).
    vm_compute. reflexivity.
  - rewrite (proj2 (proj2 (proj2 (C10_cleanResponse_controls_and_newlines
                                     ("a" ++ CR ++ NL ++ "b" ++ chr 7)))))
      by (vm_compute; reflexivity).
    vm_compute. reflexivity.
Defined.

(** ** C8 *)

(** Classes of the 8-bit characters, checked character by character. *)
Lemma visible_char_classes : forall c, is_visible c = true ->
  is_ws c = false /\ is_line_char c = true.
Proof.
  intros [[] [] [] [] [] [] [] []]; vm_compute; intro H;
    first [discriminate H | split; reflexivity].
Qed.

Lemma line_char_classes : forall c, is_line_char c = true ->
  is_bs c = false /\ is_esc c = false /\ is_removed_ctrl c = false /\
  Nat.eqb (code c) 13 = false /\ Ascii.eqb c (ascii_of_nat 10) = false.
Proof.
  intros [[] [] [] [] [] [] [] []]; vm_compute; intro H;
    first [discriminate H | repeat split].
Qed.

Lemma all_chars_eol_lines : forall p eol ls,
  all_chars p eol = true -> Forall (fun l => all_chars p l = true) ls ->
  all_chars p (eol_lines eol ls) = true.
Proof.
  intros p eol ls He Hls. unfold eol_lines.
  induction Hls as [|l ls Hl _ IH]; [reflexivity|].
  cbn [map]. rewrite concat_cons, !all_chars_app, Hl, He. exact IH.
Qed.

Lemma eol_lines_cons : forall eol l ls,
  eol_lines eol (l :: ls) = l ++ eol ++ eol_lines eol ls.
Proof. intros. unfold eol_lines. cbn [map]. now rewrite concat_cons, str_app_assoc. Qed.

Lemma replace_crlf_line : forall l rest,
  all_chars (fun c => negb (Nat.eqb (code c) 13)) l = true ->
  replace_crlf (l ++ CR ++ NL ++ rest) = l ++ NL ++ replace_crlf rest.
Proof.
  induction l as [|c l IH]; intros rest H; [reflexivity|].
  cbn [all_chars] in H. apply andb_prop in H as [Hc H]. apply negb_true_iff in Hc.
  cbn [String.append].
  destruct (l ++ CR ++ NL ++ rest) as [|c2 r] eqn:E; [destruct l; discriminate|].
  rewrite replace_crlf_cons2, Hc. cbn [andb]. rewrite <- E, IH by exact H. reflexivity.
Qed.

Lemma replace_crlf_eol_lines : forall ls,
  Forall (fun l => all_chars (fun c => negb (Nat.eqb (code c) 13)) l = true) ls ->
  replace_crlf (eol_lines (CR ++ NL) ls) = eol_lines NL ls.
Proof.
  induction 1 as [|l ls Hl _ IH]; [reflexivity|].
  rewrite !eol_lines_cons, str_app_assoc, replace_crlf_line, IH by exact Hl.
  reflexivity.
Qed.

Lemma erase_ctrl_id : forall s,
  all_chars (fun c => negb (is_removed_ctrl c)) s = true -> erase_ctrl s = s.
Proof.
  induction s as [|c s IH]; intro H; [reflexivity|].
  cbn [all_chars] in H. apply andb_prop in H as [Hc H]. apply negb_true_iff in Hc.
  cbn [erase_ctrl]. rewrite Hc, IH by exact H. reflexivity.
Qed.

Lemma erase_backspace_pairs_no_bs : forall s,
  all_chars (fun c => negb (is_bs c)) s = true -> erase_backspace_pairs s = s.
Proof.
  unfold erase_backspace_pairs. intro s. generalize (String.length s) as fuel.
  induction s as [|c s IH]; intros [|fuel] H; try reflexivity.
  cbn [all_chars] in H. apply andb_prop in H as [Hc H]. apply negb_true_iff in Hc.
  cbn [erase_backspace_pairs_loop]. rewrite Hc, IH by exact H. reflexivity.
Qed.

Lemma split_char_line : forall sep l rest,
  all_chars (fun c => negb (Ascii.eqb c sep)) l = true ->
  split_char sep (l ++ String sep rest) = l :: split_char sep rest.
Proof.
  intros sep. induction l as [|c l IH]; intros rest H.
  - cbn. now rewrite Ascii.eqb_refl.
  - cbn [all_chars] in H. apply andb_prop in H as [Hc H]. apply negb_true_iff in Hc.
    cbn [String.append split_char]. rewrite IH, Hc by exact H. reflexivity.
Qed.

Lemma split_eol_lines : forall sep ls,
  Forall (fun l => all_chars (fun c => negb (Ascii.eqb c sep)) l = true) ls ->
  split_char sep (eol_lines (String sep "") ls) = (ls ++ [""])%list.
Proof.
  intros sep. induction 1 as [|l ls Hl _ IH]; [reflexivity|].
  rewrite eol_lines_cons. cbn [String.append]. rewrite split_char_line, IH by exact Hl.
  reflexivity.
Qed.

Lemma interleave_cons2 : forall t t2 ts seps,
  interleave (t :: t2 :: ts) seps = t ++ spaces (hd 1 seps) ++ interleave (t2 :: ts) (tl seps).
Proof. reflexivity. Qed.

Lemma spaces_S : forall k, spaces (S k) = " " ++ spaces k.
Proof. intro k. unfold spaces. cbn [repeat]. apply concat_cons. Qed.

Lemma token_not_ws : forall t, token_ok t -> all_chars (fun c => negb (is_ws c)) t = true.
Proof.
  intros t [_ H]. refine (all_chars_impl _ _ _ _ H).
  intros c Hc. destruct (visible_char_classes c Hc) as [-> _]. reflexivity.
Qed.

Lemma interleave_nonempty : forall t ts seps,
  t <> "" -> exists c r, interleave (t :: ts) seps = String c r /\ String.get 0 t = Some c.
Proof.
  intros [|c t] ts seps Ht; [congruence|].
  destruct ts as [|t2 ts]; [now exists c, t|]. rewrite interleave_cons2. cbn.
  now exists c, (t ++ spaces (hd 1 seps) ++ interleave (t2 :: ts) (tl seps)).
Qed.

Lemma trim_end_app : forall a b, trim_end b <> "" -> trim_end (a ++ b) = a ++ trim_end b.
Proof.
  induction a as [|c a IH]; intros b H; [reflexivity|].
  cbn [String.append trim_end]. rewrite IH by exact H.
  destruct (a ++ trim_end b) eqn:E; [destruct a; [contradiction | discriminate]|].
  reflexivity.
Qed.

Lemma trim_end_token : forall t,
  all_chars (fun c => negb (is_ws c)) t = true -> trim_end t = t.
Proof.
  induction t as [|c t IH]; intro H; [reflexivity|].
  cbn [all_chars] in H. apply andb_prop in H as [Hc H]. apply negb_true_iff in Hc.
  cbn [trim_end]. rewrite IH by exact H. destruct t; [now rewrite Hc | reflexivity].
Qed.

Lemma trim_end_interleave : forall ts seps,
  Forall token_ok ts -> trim_end (interleave ts seps) = interleave ts seps.
Proof.
  induction ts as [|t [|t2 ts] IH]; intros seps H; [reflexivity| |].
  - inversion H; subst. now apply trim_end_token, token_not_ws.
  - inversion H as [|? ? Ht Hts]; subst. inversion Hts as [|? ? Ht2 _]; subst.
    assert (Hr : trim_end (interleave (t2 :: ts) (tl seps)) = interleave (t2 :: ts) (tl seps))
      by (apply IH; exact Hts).
    assert (Hne : interleave (t2 :: ts) (tl seps) <> "").
    { destruct (interleave_nonempty t2 ts (tl seps)) as (c & r & E & _); [apply Ht2|].
      rewrite E. discriminate. }
    rewrite interleave_cons2, <- str_app_assoc, trim_end_app, Hr by (rewrite Hr; exact Hne).
    reflexivity.
Qed.

Lemma trim_interleave : forall ts seps,
  ts <> [] -> Forall token_ok ts -> trim (interleave ts seps) = interleave ts seps.
Proof.
  intros [|t ts] seps Hne H; [congruence|].
  unfold trim. rewrite trim_end_interleave by exact H.
  inversion H as [|? ? Ht _]; subst.
  destruct (interleave_nonempty t ts seps) as (c & r & E & Hc); [apply Ht|].
  rewrite E. cbn [trim_start].
  destruct t as [|c' t]; [destruct Ht; congruence|]. cbn in Hc. injection Hc as <-.
  destruct (visible_char_classes c') as [-> _]; [|reflexivity].
  destruct Ht as [_ Ht]. cbn in Ht. now apply andb_prop in Ht as [-> _].
Qed.

Lemma split_ws_token : forall t rest cur b,
  t <> "" -> all_chars (fun c => negb (is_ws c)) t = true ->
  split_ws_go (t ++ rest) cur b = split_ws_go rest (cur ++ t) false.
Proof.
  induction t as [|c t IH]; intros rest cur b Hne H; [congruence|].
  cbn [all_chars] in H. apply andb_prop in H as [Hc H]. apply negb_true_iff in Hc.
  cbn [String.append split_ws_go]. rewrite Hc.
  destruct t as [|c2 t]; [reflexivity|].
  rewrite IH by (discriminate || exact H). now rewrite str_app_assoc.
Qed.

Lemma split_ws_spaces_skip : forall k rest cur,
  split_ws_go (spaces k ++ rest) cur true = split_ws_go rest cur true.
Proof.
  induction k as [|k IH]; intros rest cur; [reflexivity|].
  rewrite spaces_S. cbn [String.append split_ws_go]. apply IH.
Qed.

Lemma split_ws_spaces : forall k rest cur,
  split_ws_go (spaces (S k) ++ rest) cur false = cur :: split_ws_go rest "" true.
Proof.
  intros k rest cur. rewrite spaces_S. cbn [String.append split_ws_go].
  now rewrite split_ws_spaces_skip.
Qed.

Lemma split_ws_interleave : forall ts seps b,
  ts <> [] -> Forall token_ok ts -> Forall (fun k => 1 <= k) seps ->
  split_ws_go (interleave ts seps) "" b = ts.
Proof.
  induction ts as [|t [|t2 ts] IH]; intros seps b Hne H Hs; [congruence| |].
  - inversion H as [|? ? Ht _]; subst. cbn [interleave].
    rewrite <- (str_app_nil_r t) at 1.
    rewrite split_ws_token by (apply Ht || now apply token_not_ws). reflexivity.
  - inversion H as [|? ? Ht Hts]; subst.
    rewrite interleave_cons2, split_ws_token by (apply Ht || now apply token_not_ws).
    destruct (hd 1 seps) as [|k] eqn:Hk.
    + exfalso. destruct Hs; cbn in Hk; [discriminate | lia].
    + rewrite split_ws_spaces, IH; [reflexivity | discriminate | exact Hts |].
      destruct Hs; [constructor | exact Hs].
Qed.

Lemma spaces_line_chars : forall k, all_chars is_line_char (spaces k) = true.
Proof. induction k as [|k IH]; [reflexivity|]. rewrite spaces_S. exact IH. Qed.

Lemma interleave_line_chars : forall ts seps,
  Forall token_ok ts -> all_chars is_line_char (interleave ts seps) = true.
Proof.
  intros ts seps H. revert seps.
  induction H as [|t ts [_ Ht] _ IH]; intro seps; [reflexivity|].
  assert (Ht' : all_chars is_line_char t = true).
  { refine (all_chars_impl _ _ _ _ Ht). intros c Hc.
    exact (proj2 (visible_char_classes c Hc)). }
  destruct ts as [|t2 ts]; [exact Ht'|].
  rewrite interleave_cons2, !all_chars_app, Ht', spaces_line_chars. apply IH.
Qed.

Lemma row_tokens_nonempty : forall r, row_tokens r <> [].
Proof. intro r. unfold row_tokens. discriminate. Qed.

Lemma row_line_chars : forall r, row_ok r -> all_chars is_line_char (row_line r) = true.
Proof. intros r (H & _). now apply interleave_line_chars. Qed.

Lemma row_fields : forall r, row_ok r -> split_ws (trim (row_line r)) = row_tokens r.
Proof.
  intros r (Ht & Hs & _). unfold row_line, split_ws.
  rewrite trim_interleave by (apply row_tokens_nonempty || exact Ht).
  apply split_ws_interleave; [apply row_tokens_nonempty | exact Ht | exact Hs].
Qed.

Lemma row_entry_of_fields : forall r,
  (mr_port_no r <> None -> mr_port r = "GPON") ->
  mac_entry_of_fields (row_tokens r) = row_entry r.
Proof.
  intros r H. unfold mac_entry_of_fields, row_tokens, row_entry, row_port.
  destruct (mr_port_no r) as [n|]; [|cbn; now rewrite andb_false_r].
  rewrite H by discriminate. reflexivity.
Qed.

(** Inside the data section a well-formed row yields its entry. *)
Lemma mac_lines_loop_row : forall r rest,
  row_ok r ->
  mac_lines_loop (row_line r :: rest) true = row_entry r :: mac_lines_loop rest true.
Proof.
  intros r rest Hr. pose proof Hr as (Ht & Hs & Hg & Hn).
  unfold mac_noise in Hn. cbn [forallb] in Hn.
  destruct (includes (row_line r) "----   --------------") eqn:N0,
    (includes (row_line r) "------------------") eqn:N1,
    (includes (row_line r) "Mac Address Table") eqn:N2,
    (includes (row_line r) "Vlan") eqn:N3,
    (includes (row_line r) "Total Addresses Found") eqn:N4;
    cbn [forallb negb andb] in Hn; try discriminate Hn.
  cbn [mac_lines_loop]. rewrite N0, N1, N2, N3, N4. cbn [orb andb].
  assert (Hne : String.eqb (trim (row_line r)) "" = false).
  { unfold row_line. rewrite trim_interleave by (apply row_tokens_nonempty || exact Ht).
    pose proof Ht as Ht'. unfold row_tokens in Ht' |- *. cbn [List.app] in Ht' |- *.
    apply Forall_cons_iff in Ht' as [[Hv _] _].
    destruct (interleave_nonempty (mr_vlan r)
                (mr_mac r :: mr_type r :: mr_port r ::
                 (match mr_port_no r with Some n => [n] | None => [] end ++ [mr_state r])%list)
                (mr_seps r) Hv) as (c & s' & -> & _).
    reflexivity. }
  rewrite Hne. cbn [negb]. rewrite row_fields by exact Hr.
  replace (Nat.leb 5 (List.length (row_tokens r))) with true
    by (unfold row_tokens; now destruct (mr_port_no r)).
  now rewrite row_entry_of_fields.
Qed.

Lemma mac_lines_loop_rows : forall rows rest,
  Forall row_ok rows ->
  mac_lines_loop (map row_line rows ++ rest) true =
  (map row_entry rows ++ mac_lines_loop rest true)%list.
Proof.
  induction rows as [|r rows IH]; intros rest H; [reflexivity|].
  inversion H as [|? ? Hr Hrs]; subst.
  cbn [map List.app]. rewrite mac_lines_loop_row, IH by assumption. reflexivity.
Qed.

Lemma lines_chars : forall (p : ascii -> bool) ls,
  (forall c, is_line_char c = true -> p c = true) ->
  Forall (fun l => all_chars is_line_char l = true) ls ->
  Forall (fun l => all_chars p l = true) ls.
Proof.
  intros p ls Hp H. eapply Forall_impl; [|exact H].
  intros l Hl. exact (all_chars_impl _ _ _ Hp Hl).
Qed.

Lemma filter_rows : forall rows,
  Forall row_ok rows ->
  filter (fun line => negb (String.eqb (trim line) "")) (map row_line rows) = map row_line rows.
Proof.
  induction 1 as [|r rows Hr _ IH]; [reflexivity|].
  cbn [map filter]. rewrite IH.
  pose proof Hr as (Ht & _). unfold row_line.
  rewrite trim_interleave by (apply row_tokens_nonempty || exact Ht).
  pose proof Ht as Ht'. unfold row_tokens in Ht' |- *. cbn [List.app] in Ht' |- *.
  apply Forall_cons_iff in Ht' as [[Hv _] _].
  destruct (interleave_nonempty (mr_vlan r)
              (mr_mac r :: mr_type r :: mr_port r ::
               (match mr_port_no r with Some n => [n] | None => [] end ++ [mr_state r])%list)
              (mr_seps r) Hv) as (c & s' & -> & _).
  reflexivity.
Qed.

Lemma mac_header_loop : forall rest,
  mac_lines_loop (filter (fun line => negb (String.eqb (trim line) "")) mac_header ++ rest) false =
  mac_lines_loop rest true.
Proof. intro rest. reflexivity. Qed.

Lemma mac_footer_loop :
  mac_lines_loop (filter (fun line => negb (String.eqb (trim line) "")) mac_footer ++
                  filter (fun line => negb (String.eqb (trim line) "")) [""]) true = [].
Proof. reflexivity. Qed.

(** A table of well-formed rows yields one entry per row, in order. *)
Lemma formatMacAddressTable_rows : forall rows,
  Forall row_ok rows ->
  data (formatMacAddressTable (mac_table_text rows)) = map row_entry rows.
Proof.
  intros rows H.
  assert (Hl : Forall (fun l => all_chars is_line_char l = true)
                 (mac_header ++ map row_line rows ++ mac_footer)).
  { apply Forall_app; split; [apply Forall_forall, forallb_forall; reflexivity|].
    apply Forall_app; split; [|apply Forall_forall, forallb_forall; reflexivity].
    apply Forall_map. eapply Forall_impl; [|exact H]. exact row_line_chars. }
  unfold formatMacAddressTable, mac_table_text. cbn [data].
  rewrite cleanResponse_plain
    by (apply all_chars_eol_lines; [reflexivity|]; apply lines_chars; [|exact Hl];
        intros c Hc; destruct (line_char_classes c Hc) as (E1 & E2 & E3 & E4 & E5); cbv beta;
        rewrite ?E1, ?E2, ?E3, ?E4, ?E5; reflexivity).
  rewrite replace_crlf_eol_lines
    by (apply lines_chars; [|exact Hl];
        intros c Hc; destruct (line_char_classes c Hc) as (E1 & E2 & E3 & E4 & E5); cbv beta;
        rewrite ?E1, ?E2, ?E3, ?E4, ?E5; reflexivity).
  rewrite erase_ctrl_id
    by (apply all_chars_eol_lines; [reflexivity|]; apply lines_chars; [|exact Hl];
        intros c Hc; destruct (line_char_classes c Hc) as (E1 & E2 & E3 & E4 & E5); cbv beta;
        rewrite ?E1, ?E2, ?E3, ?E4, ?E5; reflexivity).
  rewrite erase_backspace_pairs_no_bs
    by (apply all_chars_eol_lines; [reflexivity|]; apply lines_chars; [|exact Hl];
        intros c Hc; destruct (line_char_classes c Hc) as (E1 & E2 & E3 & E4 & E5); cbv beta;
        rewrite ?E1, ?E2, ?E3, ?E4, ?E5; reflexivity).
  change NL with (String (ascii_of_nat 10) "").
  rewrite split_eol_lines
    by (apply lines_chars; [|exact Hl];
        intros c Hc; destruct (line_char_classes c Hc) as (E1 & E2 & E3 & E4 & E5); cbv beta;
        rewrite ?E1, ?E2, ?E3, ?E4, ?E5; reflexivity).
  rewrite !filter_app, filter_rows by exact H.
  rewrite <- !app_assoc, mac_header_loop, mac_lines_loop_rows, mac_footer_loop by exact H.
  apply app_nil_r.
Qed.

(** C8: for [show mac address-table], [formatResponse] uses
    [formatMacAddressTable]; on a three-row table in the fixed layout
    (header, separator row, rows, footer) its [data] holds exactly the
    three entries, every field is non-empty, and the port of a [GPON] row
    is the single field [GPON <n>]. *)
Theorem C8_mac_table_three_rows : forall r1 r2 r3,
  row_ok r1 -> row_ok r2 -> row_ok r3 ->
  formatter_for "show mac address-table" = FMacTable /\
  data (formatMacAddressTable (mac_table_text [r1; r2; r3])) =
    [row_entry r1; row_entry r2; row_entry r3] /\
  Forall (fun e => vlan e <> "" /\ macAddress e <> "" /\ type e <> "" /\
                   port e <> "" /\ state e <> "")
    (data (formatMacAddressTable (mac_table_text [r1; r2; r3]))) /\
  (forall r n, In r [r1; r2; r3] -> mr_port_no r = Some n ->
     port (row_entry r) = "GPON " ++ n).
Proof.
  intros r1 r2 r3 H1 H2 H3.
  assert (Hall : Forall row_ok [r1; r2; r3]) by (repeat (constructor; [assumption|]); constructor).
  rewrite formatMacAddressTable_rows by exact Hall.
  split; [reflexivity|]. split; [reflexivity|]. split.
  - apply Forall_map. eapply Forall_impl; [|exact Hall].
    intros r (Ht & _ & _ & _).
    unfold row_tokens in Ht. cbn [List.app] in Ht.
    apply Forall_cons_iff in Ht as [[Hv _] Ht].
    apply Forall_cons_iff in Ht as [[Hm _] Ht].
    apply Forall_cons_iff in Ht as [[Hty _] Ht].
    apply Forall_cons_iff in Ht as [[Hp _] Ht].
    apply Forall_app in Ht as [_ Ht]. apply Forall_cons_iff in Ht as [[Hs _] _].
    unfold row_entry, row_port. cbn [vlan macAddress type port state].
    repeat split; try assumption.
    destruct (mr_port_no r); [|exact Hp].
    destruct (mr_port r); [contradiction | discriminate].
  - intros r n Hin Hn. rewrite Forall_forall in Hall.
    destruct (Hall r Hin) as (_ & _ & Hg & _).
    unfold row_entry, row_port. cbn [port]. rewrite Hn, Hg by congruence. reflexivity.
Qed.

Lemma C8_mac_table_three_rows_witness :
  row_ok mac_row_gpon1 /\ row_ok mac_row_eth /\ row_ok mac_row_gpon2 /\
  data (formatMacAddressTable (mac_table_text [mac_row_gpon1; mac_row_eth; mac_row_gpon2])) =
    [mkMacEntry "100" "0011.2233.4455" "dynamic" "GPON 0/1:3" "Active";
     mkMacEntry "200" "aabb.ccdd.eeff" "static" "eth0/1" "Active";
     mkMacEntry "300" "0a0b.0c0d.0e0f" "dynamic" "GPON 0/2:7" "Inactive"].
Proof.
  assert (H1 : row_ok mac_row_gpon1).
  { split; [repeat constructor; discriminate|].
    split; [repeat constructor|]. split; [intros _; reflexivity | reflexivity]. }
  assert (H2 : row_ok mac_row_eth).
  { split; [repeat constructor; discriminate|].
    split; [repeat constructor|]. split; [intros H; contradiction H; reflexivity | reflexivity]. }
  assert (H3 : row_ok mac_row_gpon2).
  { split; [repeat constructor; discriminate|].
    split; [constructor|]. split; [intros _; reflexivity | reflexivity]. }
  split; [exact H1|]. split; [exact H2|]. split; [exact H3|].
  exact (proj1 (proj2 (C8_mac_table_three_rows _ _ _ H1 H2 H3))).
Defined.
(* ------------------------------------------------------------------ *)
(** * Further properties of the session *)

Section SessionTraces.
Import Session.

Lemma handleData_reply : forall s d,
  loggedIn s = true -> waitingForResponse s = true -> accumulatedResponse s = "" ->
  detectCommandPrompt (buffer s ++ d) = true ->
  snd (handleData s d) =
    call_resolver s (extractCommandResponse_index (lastCommand s) (buffer s ++ d)) /\
  waitingForResponse (fst (handleData s d)) = false /\
  responseResolver (fst (handleData s d)) = None /\
  buffer (fst (handleData s d)) = "" /\
  configTask (fst (handleData s d)) = configTask s /\
  liveTimers (fst (handleData s d)) = liveTimers (clear_command_timeout s).
Proof.
  intros s d Hl Hw Ha Hd.
  unfold handleData, clear_command_timeout, updateCurrentPrompt, call_resolver.
  destruct (currentCommandTimeout s) eqn:E; simpl_session; rewrite ?E; simpl_session;
    rewrite Hl, Hw, Hd, Ha; cbn [negb String.eqb]; simpl_session;
    repeat split; reflexivity.
Qed.
Lemma sendCommand_active : forall s c,
  connected s = true -> loggedIn s = true ->
  snd (sendCommand s c) = [Write (c ++ NL)] /\
  connected (fst (sendCommand s c)) = true /\
  loggedIn (fst (sendCommand s c)) = true /\
  waitingForResponse (fst (sendCommand s c)) = true /\
  accumulatedResponse (fst (sendCommand s c)) = "" /\
  buffer (fst (sendCommand s c)) = "" /\
  lastCommand (fst (sendCommand s c)) = c /\
  responseResolver (fst (sendCommand s c)) = Some (nextId s, c) /\
  currentCommandTimeout (fst (sendCommand s c)) = Some (nextId s) /\
  liveTimers (fst (sendCommand s c)) = mkTimer (nextId s) c (timeoutDuration c) :: liveTimers s /\
  nextId (fst (sendCommand s c)) = S (nextId s) /\
  configTask (fst (sendCommand s c)) = configTask s.
Proof.
  intros s c Hc Hl. unfold sendCommand. simpl_session. rewrite Hc, Hl. cbn [andb negb].
  simpl_session. repeat split; assumption.
Qed.

Lemma find_filter_none : forall (l : list timer) id,
  find (fun tm => Nat.eqb (t_id tm) id) (filter (fun tm => negb (Nat.eqb (t_id tm) id)) l) = None.
Proof.
  induction l as [|tm l IH]; intro id; [reflexivity|].
  cbn [filter]. destruct (Nat.eqb (t_id tm) id) eqn:E; cbn [negb find]; [apply IH|].
  rewrite E. apply IH.
Qed.

Lemma resume_none : forall s effs, configTask s = None -> resume (s, effs) = (s, effs).
Proof. intros s effs H. unfold resume. rewrite H. reflexivity. Qed.

Lemma step_no_task : forall s ev,
  configTask (fst (handle s ev)) = None -> step s ev = handle s ev.
Proof.
  intros s ev H. unfold step. destruct (handle s ev) as [s1 e1].
  apply resume_none. exact H.
Qed.

(** A command sent on an active session is written with a newline; the
    first data chunk that ends in a command prompt resolves its promise
    with [extractCommandResponse] of that chunk, ends the wait, empties the
    buffer and cancels the command timer, whose later firing does nothing. *)
Theorem send_reply_roundtrip : forall s c d,
  connected s = true -> loggedIn s = true -> configTask s = None ->
  detectCommandPrompt d = true ->
  let r1 := step s (EvSendCommand c) in
  let r2 := step (fst r1) (EvData d) in
  snd r1 = [Write (c ++ NL)] /\
  snd r2 = [CmdResolved (nextId s) c (extractCommandResponse_index c d)] /\
  waitingForResponse (fst r2) = false /\ responseResolver (fst r2) = None /\
  buffer (fst r2) = "" /\
  step (fst r2) (EvCommandTimer (nextId s)) = (fst r2, []).
Proof.
  intros s c d Hc Hl Ht Hd r1 r2.
  destruct (sendCommand_active s c Hc Hl)
    as (E0 & _ & L1 & W1 & A1 & B1 & C1 & R1 & T1 & LT1 & _ & K1).
  assert (Hr1 : r1 = sendCommand s c).
  { subst r1. apply step_no_task. cbn [handle]. rewrite K1. exact Ht. }
  assert (Hd' : detectCommandPrompt (buffer (fst r1) ++ d) = true) by (rewrite Hr1, B1; exact Hd).
  rewrite Hr1 in Hd'.
  destruct (handleData_reply (fst (sendCommand s c)) d L1 W1 A1 Hd')
    as (E2 & W2 & R2 & B2 & K2 & LT2).
  assert (Hr2 : r2 = handleData (fst (sendCommand s c)) d).
  { subst r2. rewrite Hr1. apply step_no_task. cbn [handle]. rewrite K2, K1. exact Ht. }
  rewrite Hr1, E0 at 1. rewrite Hr2, E2, W2, R2, B2.
  unfold call_resolver. rewrite R1, B1, C1. cbn [String.append].
  repeat split.
  unfold step. cbn [handle]. unfold fireCommandTimer.
  rewrite LT2. unfold clear_command_timeout. rewrite T1. simpl_session. rewrite LT1.
  cbn [filter]. rewrite Nat.eqb_refl. cbn [negb]. rewrite find_filter_none.
  apply resume_none. rewrite K2, K1. exact Ht.
Qed.

Lemma handleData_idle : forall s d,
  loggedIn s = true -> waitingForResponse s = false ->
  handleData s d = (set_buffer s (buffer s ++ d), []).
Proof.
  intros s d Hl Hw. unfold handleData. simpl_session. rewrite Hl, Hw. reflexivity.
Qed.

Lemma fire_idle : forall s id,
  waitingForResponse s = false -> snd (fireCommandTimer s id) = [].
Proof.
  intros s id Hw. unfold fireCommandTimer.
  destruct (find _ _); [|reflexivity].
  unfold commandTimerFired. simpl_session. rewrite Hw. reflexivity.
Qed.

Lemma idle_run_quiet : forall ds s id,
  loggedIn s = true -> waitingForResponse s = false -> configTask s = None ->
  snd (run s (map EvData ds ++ [EvCommandTimer id])) = [].
Proof.
  induction ds as [|d ds IH]; intros s id Hl Hw Ht; cbn [map List.app run].
  - destruct (fire_flags s id) as (_ & _ & K & _).
    rewrite step_no_task by (cbn [handle]; rewrite K; exact Ht). cbn [handle].
    rewrite (surjective_pairing (fireCommandTimer s id)), fire_idle by exact Hw.
    reflexivity.
  - rewrite step_no_task by (cbn [handle]; rewrite handleData_idle by assumption;
                             simpl_session; exact Ht).
    cbn [handle]. rewrite handleData_idle by assumption.
    rewrite (surjective_pairing (run _ _)), IH; simpl_session; auto.
Qed.

(** Two commands sent before the first is answered: the timer of the first
    command rejects the first promise and also ends the wait of the second
    command.  After that, no data chunk and not even the second command's
    own timer settles the second promise. *)
Theorem stale_timer_ends_later_wait : forall s c1 c2 ds,
  connected s = true -> loggedIn s = true -> configTask s = None ->
  let r2 := run s [EvSendCommand c1; EvSendCommand c2] in
  let r3 := step (fst r2) (EvCommandTimer (nextId s)) in
  snd r2 = [Write (c1 ++ NL); Write (c2 ++ NL)] /\
  snd r3 = [CmdRejected (nextId s) "Timeout esperando respuesta al comando"] /\
  snd (run (fst r3) (map EvData ds ++ [EvCommandTimer (S (nextId s))])) = [].
Proof.
  intros s c1 c2 ds Hc Hl Ht. cbv zeta.
  destruct (sendCommand_active s c1 Hc Hl)
    as (E1 & Cn1 & L1 & W1 & A1 & B1 & _ & _ & _ & LT1 & N1 & K1).
  destruct (sendCommand_active (fst (sendCommand s c1)) c2 Cn1 L1)
    as (E2 & _ & L2 & W2 & A2 & _ & _ & _ & _ & LT2 & N2 & K2).
  assert (R2 : run s [EvSendCommand c1; EvSendCommand c2] = (fst (sendCommand (fst (sendCommand s c1)) c2),
                     [Write (c1 ++ NL); Write (c2 ++ NL)])).
  { cbn [run].
    rewrite (step_no_task s) by (cbn [handle]; rewrite K1; exact Ht).
    cbn [handle]. rewrite (surjective_pairing (sendCommand s c1)). simpl_session.
    rewrite step_no_task by (cbn [handle]; rewrite K2, K1; exact Ht).
    cbn [handle]. rewrite (surjective_pairing (sendCommand _ c2)). simpl_session.
    rewrite E1, E2. reflexivity. }
  rewrite R2. cbn [fst snd].
  split; [reflexivity|].
  remember (fst (sendCommand (fst (sendCommand s c1)) c2)) as s2 eqn:Hs2.
  assert (F : fireCommandTimer s2 (nextId s) =
              commandTimerFired
                (set_liveTimers s2 (filter (fun tm' => negb (Nat.eqb (t_id tm') (nextId s)))
                                      (liveTimers s2)))
                (mkTimer (nextId s) c1 (timeoutDuration c1))).
  { subst s2. unfold fireCommandTimer. rewrite LT2, N1, LT1. cbn [find t_id].
    rewrite Nat.eqb_refl. destruct (Nat.eqb (S (nextId s)) (nextId s)) eqn:E.
    - apply Nat.eqb_eq in E. lia.
    - reflexivity. }
  assert (K3 : configTask (fst (fireCommandTimer s2 (nextId s))) = None).
  { destruct (fire_flags s2 (nextId s)) as (_ & _ & K & _). rewrite K, K2, K1. exact Ht. }
  rewrite step_no_task by exact K3. cbn [handle].
  unfold commandTimerFired in F. simpl_session. rewrite W2, A2 in F.
  cbn [String.eqb negb] in F.
  rewrite F. simpl_session. split; [reflexivity|].
  rewrite F in K3. simpl_session.
  apply idle_run_quiet; simpl_session; [exact L2 | reflexivity | exact K3].
Qed.

(** [enterConfigMode] from the [#] prompt writes [configure terminal]; the
    first answer that ends in a command prompt, whatever it says (an error
    message included), resolves the command and sets [inConfigMode]. *)
Theorem config_mode_set_on_any_reply : forall s d,
  connected s = true -> loggedIn s = true -> inConfigMode s = false ->
  currentPrompt s = "#" -> configTask s = None -> detectCommandPrompt d = true ->
  let r1 := step s EvEnterConfigMode in
  let r2 := step (fst r1) (EvData d) in
  snd r1 = [Write ("configure terminal" ++ NL)] /\
  snd r2 = [CmdResolved (nextId s) "configure terminal"
              (extractCommandResponse_index "configure terminal" d);
            ApiReturned "configure terminal"] /\
  inConfigMode (fst r2) = true.
Proof.
  intros s d Hc Hl Hi Hp Ht Hd. cbv zeta.
  destruct (sendCommand_active s "configure terminal" Hc Hl)
    as (E1 & _ & L1 & W1 & A1 & B1 & C1 & R1 & _ & _ & _ & K1).
  set (s1 := set_configTask (fst (sendCommand s "configure terminal"))
                            (Some (TConfigure (nextId s)))).
  assert (R : step s EvEnterConfigMode = (s1, [Write ("configure terminal" ++ NL)])).
  { unfold step. cbn [handle]. unfold enterConfigMode.
    rewrite Hc, Hl, Hi, Hp. cbn [andb negb String.eqb Ascii.eqb Bool.eqb].
    unfold await_command. rewrite (surjective_pairing (sendCommand s _)), E1.
    cbn [rejected existsb orb]. unfold resume. subst s1. simpl_session. reflexivity. }
  rewrite R. cbn [fst snd]. split; [reflexivity|].
  assert (Hd' : detectCommandPrompt (buffer s1 ++ d) = true)
    by (subst s1; simpl_session; rewrite B1; exact Hd).
  assert (L1' : loggedIn s1 = true) by (subst s1; simpl_session; exact L1).
  assert (W1' : waitingForResponse s1 = true) by (subst s1; simpl_session; exact W1).
  assert (A1' : accumulatedResponse s1 = "") by (subst s1; simpl_session; exact A1).
  destruct (handleData_reply s1 d L1' W1' A1' Hd') as (E2 & _ & _ & _ & K2 & _).
  unfold step. cbn [handle].
  rewrite (surjective_pairing (handleData s1 d)), E2. unfold resume.
  rewrite K2. subst s1. simpl_session. unfold call_resolver. simpl_session.
  rewrite R1, B1, C1. cbn [resolved existsb String.append]. rewrite Nat.eqb_refl.
  cbn [orb]. simpl_session. split; reflexivity.
Qed.
Lemma send_reply_roundtrip_witness :
  let d := "show onu" ++ NL ++ "onu 1 online" ++ NL ++ "OLT#" in
  let r1 := step logged_in_session (EvSendCommand "show onu") in
  let r2 := step (fst r1) (EvData d) in
  snd r1 = [Write ("show onu" ++ NL)] /\
  snd r2 = [CmdResolved (nextId logged_in_session) "show onu"
              (extractCommandResponse_index "show onu" d)] /\
  waitingForResponse (fst r2) = false /\ responseResolver (fst r2) = None /\
  buffer (fst r2) = "" /\
  step (fst r2) (EvCommandTimer (nextId logged_in_session)) = (fst r2, []).
Proof.
  apply (send_reply_roundtrip logged_in_session "show onu"
           ("show onu" ++ NL ++ "onu 1 online" ++ NL ++ "OLT#")); vm_compute; reflexivity.
Defined.

Lemma stale_timer_ends_later_wait_witness :
  let r2 := run logged_in_session [EvSendCommand "show onu"; EvSendCommand "show vlan"] in
  let r3 := step (fst r2) (EvCommandTimer (nextId logged_in_session)) in
  snd r2 = [Write ("show onu" ++ NL); Write ("show vlan" ++ NL)] /\
  snd r3 = [CmdRejected (nextId logged_in_session) "Timeout esperando respuesta al comando"] /\
  snd (run (fst r3) (map EvData ["show vlan" ++ NL ++ "vlan 1" ++ NL ++ "OLT>"] ++
                     [EvCommandTimer (S (nextId logged_in_session))])) = [].
Proof.
  apply (stale_timer_ends_later_wait logged_in_session "show onu" "show vlan"
           ["show vlan" ++ NL ++ "vlan 1" ++ NL ++ "OLT>"]); vm_compute; reflexivity.
Defined.

Lemma config_mode_set_on_any_reply_witness :
  let d := "configure terminal" ++ NL ++ "% Unknown command" ++ NL ++ "OLT#" in
  let r1 := step privileged_session EvEnterConfigMode in
  let r2 := step (fst r1) (EvData d) in
  snd r1 = [Write ("configure terminal" ++ NL)] /\
  snd r2 = [CmdResolved (nextId privileged_session) "configure terminal"
              (extractCommandResponse_index "configure terminal" d);
            ApiReturned "configure terminal"] /\
  inConfigMode (fst r2) = true.
Proof.
  apply (config_mode_set_on_any_reply privileged_session
           ("configure terminal" ++ NL ++ "% Unknown command" ++ NL ++ "OLT#"));
    vm_compute; reflexivity.
Defined.

End SessionTraces.

(* ------------------------------------------------------------------ *)
(** * Further properties of response extraction *)

Section Extraction.

Lemma prefix_app : forall a b, String.prefix a (a ++ b) = true.
Proof.
  induction a as [|x a IH]; intros b; [destruct b; reflexivity|].
  simpl. destruct (ascii_dec x x); [apply IH | congruence].
Qed.

Lemma substring_full : forall s, String.substring 0 (String.length s) s = s.
Proof. induction s as [|x s IH]; simpl; [reflexivity | now rewrite IH]. Qed.

Lemma index_of_nl : forall a nl r,
  all_chars (fun c => negb (Ascii.eqb c nl)) a = true ->
  index_of (a ++ String nl r) (String nl "") = Some (String.length a).
Proof.
  induction a as [|x a IH]; intros nl r H.
  - cbn. destruct (ascii_dec nl nl); [destruct r; reflexivity | congruence].
  - cbn [all_chars] in H. apply andb_prop in H as [Hx H].
    cbn [index_of String.append String.prefix].
    destruct (ascii_dec nl x) as [E|E].
    + subst. rewrite Ascii.eqb_refl in Hx. discriminate.
    + rewrite IH by exact H. reflexivity.
Qed.

Lemma str_length_app : forall a b, String.length (a ++ b) = String.length a + String.length b.
Proof. induction a as [|x a IH]; intros b; simpl; [reflexivity | now rewrite IH]. Qed.

Lemma substring_app_cons : forall a c r k,
  String.substring (S (String.length a)) k (a ++ String c r) = String.substring 0 k r.
Proof. induction a as [|x a IH]; intros c r k; [reflexivity | apply IH]. Qed.

Lemma drop_app_cons : forall a c r, drop (S (String.length a)) (a ++ String c r) = r.
Proof.
  intros a c r. unfold drop. rewrite substring_app_cons, str_length_app.
  cbn [String.length]. replace (String.length a + S (String.length r) - S (String.length a))
    with (String.length r) by lia.
  apply substring_full.
Qed.

Lemma index_of_prefix : forall s p, String.prefix p s = true -> index_of s p = Some 0.
Proof. intros s p H. destruct s; cbn [index_of]; rewrite H; reflexivity. Qed.

(** The echo line is dropped when the response starts with the command. *)
Lemma strip_echo_line : forall cmd r,
  all_chars (fun c => negb (Ascii.eqb c (ascii_of_nat 10))) cmd = true ->
  strip_echo cmd (cmd ++ NL ++ r) = r.
Proof.
  intros cmd r H. unfold strip_echo.
  rewrite index_of_prefix by apply prefix_app.
  unfold index_of_from. rewrite Nat.sub_0_r, substring_full.
  unfold NL, chr. cbn [String.append].
  change (String (ascii_of_nat 10) ("" ++ r)) with (String (ascii_of_nat 10) r).
  rewrite index_of_nl by exact H. cbn [option_map Nat.add].
  apply drop_app_cons.
Qed.

Lemma index_of_none : forall s p, includes s p = false -> index_of s p = None.
Proof.
  induction s as [|x s IH]; intros p H; cbn [includes index_of] in *.
  - destruct (String.prefix p ""); [discriminate | reflexivity].
  - apply orb_false_iff in H as [H1 H2]. rewrite H1, IH by exact H2. reflexivity.
Qed.

Lemma strip_more_id : forall s, includes s MORE = false -> strip_more s = s.
Proof.
  intros s H. unfold strip_more. destruct (String.length s); [reflexivity|].
  cbn [strip_more_loop]. rewrite index_of_none by exact H. reflexivity.
Qed.

Lemma last_index_of_snoc : forall y c,
  last_index_of (y ++ String c "") (String c "") = Some (String.length y).
Proof.
  induction y as [|x y IH]; intros c.
  - cbn. destruct (ascii_dec c c); [reflexivity | congruence].
  - cbn [String.append last_index_of]. rewrite IH. reflexivity.
Qed.

(** The final-prompt loop on a response ending in [#] cuts that [#]. *)
Lemma strip_prompt_hash : forall y,
  strip_prompt_loop command_prompts (y ++ "#") = y.
Proof.
  intro y. destruct (trim_snoc y "#" eq_refl) as [z Hz].
  cbn [strip_prompt_loop command_prompts]. rewrite Hz.
  unfold ends_with. rewrite !rev_str_app. cbn.
  replace (String.prefix "" (rev_str z)) with true by (destruct (rev_str z); reflexivity).
  rewrite last_index_of_snoc. apply take_app.
Qed.

(** [extractCommandResponse] on an answer made of the echo line, a body
    and the next prompt [host#]: the echo line is dropped and only the
    final [#] of the prompt is cut, so the host name stays at the end of
    the result (both versions of the manager). *)
Theorem extract_drops_echo_keeps_hostname : forall cmd body host,
  all_chars (fun c => negb (Ascii.eqb c (ascii_of_nat 10))) cmd = true ->
  includes (body ++ NL ++ host ++ "#") MORE = false ->
  extractCommandResponse_index cmd (cmd ++ NL ++ body ++ NL ++ host ++ "#") =
    trim (body ++ NL ++ host) /\
  extractCommandResponse_services cmd (cmd ++ NL ++ body ++ NL ++ host ++ "#") =
    trim (body ++ NL ++ host).
Proof.
  intros cmd body host Hc Hm.
  unfold extractCommandResponse_index, extractCommandResponse_services.
  rewrite strip_echo_line by exact Hc. rewrite strip_more_id by exact Hm.
  replace (body ++ NL ++ host ++ "#") with ((body ++ NL ++ host) ++ "#")
    by now rewrite !str_app_assoc.
  rewrite strip_prompt_hash. split; reflexivity.
Qed.

Lemma prefix_empty : forall s, String.prefix "" s = true.
Proof. destruct s; reflexivity. Qed.

Lemma prefix_substring0 : forall s k, String.prefix (String.substring 0 k s) s = true.
Proof.
  induction s as [|c s IH]; intros [|k]; try reflexivity.
  cbn [String.substring String.prefix]. destruct (ascii_dec c c); [apply IH | congruence].
Qed.

Lemma includes_prefix_mono : forall t s p,
  includes t p = true -> String.prefix t s = true -> includes s p = true.
Proof.
  induction t as [|c t IH]; intros s p Ht Hp.
  - cbn [includes] in Ht. rewrite orb_false_r in Ht.
    apply includes_prefix. eapply prefix_trans; [exact Ht | apply prefix_empty].
  - destruct s as [|c' s]; [discriminate|].
    cbn [String.prefix] in Hp. destruct (ascii_dec c c') as [<-|]; [|discriminate].
    cbn [includes] in Ht. apply orb_true_iff in Ht as [Ht|Ht].
    + apply includes_prefix. eapply prefix_trans; [exact Ht|].
      cbn [String.prefix]. destruct (ascii_dec c c); [exact Hp | congruence].
    + cbn [includes]. rewrite (IH s p Ht Hp). apply orb_true_r.
Qed.

Lemma includes_substring : forall s n k p,
  includes s p = false -> includes (String.substring n k s) p = false.
Proof.
  induction s as [|c s IH]; intros n k p H.
  - destruct n, k; exact H.
  - destruct n as [|n].
    + destruct (includes (String.substring 0 k (String c s)) p) eqn:E; [|reflexivity].
      rewrite (includes_prefix_mono _ _ _ E (prefix_substring0 _ _)) in H. discriminate.
    + cbn [String.substring]. apply IH.
      cbn [includes] in H. apply orb_false_iff in H as [_ H]. exact H.
Qed.

Lemma prefix_trim_end : forall s, String.prefix (trim_end s) s = true.
Proof.
  induction s as [|c s IH]; [reflexivity|].
  cbn [trim_end]. destruct (trim_end s) as [|c' t] eqn:E.
  - destruct (is_ws c); [apply prefix_empty|].
    cbn [String.prefix]. destruct (ascii_dec c c); [apply prefix_empty | congruence].
  - cbn [String.prefix]. destruct (ascii_dec c c); [exact IH | congruence].
Qed.

Lemma includes_trim_start : forall s p,
  includes s p = false -> includes (trim_start s) p = false.
Proof.
  induction s as [|c s IH]; intros p H; [exact H|].
  cbn [trim_start]. destruct (is_ws c); [|exact H].
  apply IH. cbn [includes] in H. apply orb_false_iff in H as [_ H]. exact H.
Qed.

Lemma includes_trim : forall s p, includes s p = false -> includes (trim s) p = false.
Proof.
  intros s p H. unfold trim. apply includes_trim_start.
  destruct (includes (trim_end s) p) eqn:E; [|reflexivity].
  rewrite (includes_prefix_mono _ _ _ E (prefix_trim_end s)) in H. discriminate.
Qed.

Lemma index_of_lt : forall s p i, index_of s p = Some i -> p <> "" -> i < String.length s.
Proof.
  induction s as [|c s IH]; intros p i H Hp; cbn [index_of] in H.
  - destruct p; [congruence | discriminate].
  - cbn [String.length]. destruct (String.prefix p (String c s)).
    + injection H as <-. lia.
    + destruct (index_of s p) as [j|] eqn:E; [|discriminate].
      injection H as <-. specialize (IH p j E Hp). lia.
Qed.

Lemma length_substring : forall s n k,
  String.length (String.substring n k s) <= k /\
  String.length (String.substring n k s) <= String.length s - n.
Proof.
  induction s as [|c s IH]; intros [|n] [|k]; cbn [String.substring String.length]; try lia.
  - destruct (IH 0 k). lia.
  - destruct (IH n 0). lia.
  - destruct (IH n (S k)). lia.
Qed.

Lemma index_of_none_includes : forall s p, index_of s p = None -> includes s p = false.
Proof.
  induction s as [|c s IH]; intros p H; cbn [index_of includes] in *.
  - destruct (String.prefix p ""); [discriminate | reflexivity].
  - destruct (String.prefix p (String c s)); [discriminate|].
    destruct (index_of s p) eqn:E; [discriminate|]. apply IH. exact E.
Qed.

(** Nothing before the first occurrence contains the pattern. *)
Lemma take_first_occurrence : forall s p m,
  index_of s p = Some m -> p <> "" -> includes (take m s) p = false.
Proof.
  unfold take. induction s as [|c s IH]; intros p m H Hp; cbn [index_of] in H.
  - destruct p; [congruence | discriminate].
  - destruct (String.prefix p (String c s)) eqn:P.
    + injection H as <-. cbn. destruct p; [congruence | reflexivity].
    + destruct (index_of s p) as [j|] eqn:E; [|discriminate]. injection H as <-.
      cbn [String.substring includes]. rewrite (IH p j E Hp), orb_false_r.
      destruct (String.prefix p (String c (String.substring 0 j s))) eqn:P2; [|reflexivity].
      rewrite <- P. symmetry. eapply prefix_trans; [exact P2|].
      cbn [String.prefix]. destruct (ascii_dec c c); [apply prefix_substring0 | congruence].
Qed.

(** The [--More--] loop leaves no marker behind. *)
Lemma strip_more_loop_clean : forall fuel s,
  String.length s <= fuel -> includes (strip_more_loop fuel s) MORE = false.
Proof.
  induction fuel as [|f IH]; intros s Hs.
  - destruct s; [reflexivity | cbn in Hs; lia].
  - cbn [strip_more_loop]. change "--More--" with MORE. destruct (index_of s MORE) as [m|] eqn:E1.
    + destruct (index_of_from s NL m) as [n|] eqn:E2.
      * apply IH. unfold index_of_from in E2.
        destruct (index_of (String.substring m (String.length s - m) s) NL) as [i|] eqn:E3;
          [|discriminate].
        injection E2 as <-.
        pose proof (index_of_lt _ _ _ E3 ltac:(discriminate)) as Hi.
        destruct (length_substring s m (String.length s - m)) as [_ L1].
        unfold take, drop. rewrite str_length_app.
        destruct (length_substring s 0 m) as [L2 _].
        destruct (length_substring s (S (m + i)) (String.length s - S (m + i))) as [L3 _].
        lia.
      * apply take_first_occurrence; [exact E1 | discriminate].
    + apply index_of_none_includes. exact E1.
Qed.

Lemma strip_prompt_loop_clean : forall ps s p,
  includes s p = false -> includes (strip_prompt_loop ps s) p = false.
Proof.
  induction ps as [|q ps IH]; intros s p H; [exact H|].
  cbn [strip_prompt_loop]. destruct (ends_with (trim s) q); [|apply IH; exact H].
  destruct (last_index_of s q).
  - apply includes_substring. exact H.
  - pose proof (includes_substring s 0 0 p H) as H0. destruct s; exact H0.
Qed.

(** [extractCommandResponse] of src/index.js never returns a text that
    contains the pagination marker [--More--]. *)
Theorem extract_index_no_more : forall cmd response,
  includes (extractCommandResponse_index cmd response) MORE = false.
Proof.
  intros cmd response. unfold extractCommandResponse_index.
  apply includes_trim, strip_prompt_loop_clean. unfold strip_more.
  apply strip_more_loop_clean. lia.
Qed.

Lemma extract_drops_echo_keeps_hostname_witness :
  extractCommandResponse_index "show onu" ("show onu" ++ NL ++ "onu 1 online" ++ NL ++ "OLT" ++ "#") =
    trim ("onu 1 online" ++ NL ++ "OLT") /\
  extractCommandResponse_services "show onu" ("show onu" ++ NL ++ "onu 1 online" ++ NL ++ "OLT" ++ "#") =
    trim ("onu 1 online" ++ NL ++ "OLT").
Proof. apply extract_drops_echo_keeps_hostname; reflexivity. Defined.
End Extraction.

(* ------------------------------------------------------------------ *)
(** * Further properties of the formatter *)

Section FormatterProps.
Import Formatter.

Lemma includes_pattern_prefix : forall s q p,
  includes s q = true -> String.prefix p q = true -> includes s p = true.
Proof.
  induction s as [|c s IH]; intros q p H Hp; cbn [includes] in *.
  - rewrite orb_false_r in *. eapply prefix_trans; eassumption.
  - apply orb_true_iff in H as [H|H].
    + rewrite (prefix_trans _ _ _ Hp H). reflexivity.
    + rewrite (IH q p H Hp). apply orb_true_r.
Qed.

Lemma exists_suffix_includes : forall (f : string -> bool) p s,
  (forall t, f t = true -> String.prefix p t = true) ->
  exists_suffix f s = true -> includes s p = true.
Proof.
  intros f p. induction s as [|c s IH]; intros Hf H; cbn [exists_suffix includes] in *.
  - rewrite orb_false_r in H. rewrite (Hf _ H). reflexivity.
  - apply orb_true_iff in H as [H|H].
    + rewrite (Hf _ H). reflexivity.
    + rewrite (IH Hf H). apply orb_true_r.
Qed.

(** A command that does not contain [show] is never parsed: [formatResponse]
    takes its last branch and returns the cleaned text. *)
Theorem formatter_plain_without_show : forall command,
  includes command "show" = false -> formatter_for command = FPlain.
Proof.
  intros command H. unfold formatter_for.
  assert (N : forall q, String.prefix "show" q = true -> includes command q = false).
  { intros q Hq. destruct (includes command q) eqn:E; [|reflexivity].
    rewrite (includes_pattern_prefix _ _ _ E Hq) in H. discriminate. }
  rewrite (N "show mac address-table" eq_refl), (N "show interface" eq_refl),
    (N "show running-config" eq_refl), (N "show onu" eq_refl).
  destruct (exists_suffix show_int_at command) eqn:E1.
  { assert (F : forall t, show_int_at t = true -> String.prefix "show" t = true).
    { intros t Ht. unfold show_int_at in Ht. apply andb_prop in Ht as [Ht _].
      eapply prefix_trans; [|exact Ht]. reflexivity. }
    rewrite (exists_suffix_includes _ "show" _ F E1) in H. discriminate. }
  destruct (exists_suffix show_table_at command) eqn:E2.
  { assert (F : forall t, show_table_at t = true -> String.prefix "show" t = true).
    { intros t Ht. unfold show_table_at in Ht. apply andb_prop in Ht as [Ht _]. exact Ht. }
    rewrite (exists_suffix_includes _ "show" _ F E2) in H. discriminate. }
  destruct (String.prefix "show " command) eqn:E3; [|reflexivity].
  rewrite includes_prefix in H; [discriminate|].
  eapply prefix_trans; [|exact E3]. reflexivity.
Qed.

Lemma formatter_plain_without_show_witness :
  includes "configure terminal" "show" = false /\ formatter_for "configure terminal" = FPlain.
Proof. split; [reflexivity | apply formatter_plain_without_show; reflexivity]. Defined.



Lemma trim_end_cons_fixed : forall c r,
  trim_end (String c r) = String c r -> trim_end r = r /\ (r = "" -> is_ws c = false).
Proof.
  intros c r H. cbn [trim_end] in H.
  destruct (trim_end r) as [|c' t] eqn:E.
  - destruct (is_ws c) eqn:W; [discriminate|].
    injection H as <-. split; [reflexivity | intros; reflexivity].
  - injection H as H. rewrite H. split; [reflexivity | intros ->; discriminate].
Qed.

Lemma split_ws_go_tokens : forall s cur skip,
  all_chars (fun c => negb (is_ws c)) cur = true ->
  (skip = false -> cur <> "") ->
  (s = "" -> cur <> "") ->
  trim_end s = s ->
  Forall ws_free_token (split_ws_go s cur skip).
Proof.
  induction s as [|c r IH]; intros cur skip Hc Hs He Ht; cbn [split_ws_go].
  - constructor; [split; [apply He; reflexivity | exact Hc] | constructor].
  - destruct (trim_end_cons_fixed c r Ht) as [Hr Hl].
    destruct (is_ws c) eqn:W.
    + assert (Rn : r <> "") by (intros E0; specialize (Hl E0); discriminate).
      destruct skip.
      * apply IH; auto; intros ->; congruence.
      * constructor; [split; [apply Hs; reflexivity | exact Hc]|].
        apply IH; auto; try reflexivity; try discriminate; intros ->; congruence.
    + apply IH; auto.
      * rewrite all_chars_app, Hc. cbn. rewrite W. reflexivity.
      * intros _. destruct cur; discriminate.
      * intros _. destruct cur; discriminate.
Qed.

Lemma trim_end_cons : forall c r,
  trim_end (String c r) =
  match trim_end r with
  | EmptyString => if is_ws c then EmptyString else String c EmptyString
  | _ => String c (trim_end r)
  end.
Proof. reflexivity. Qed.

Lemma trim_end_idem : forall s, trim_end (trim_end s) = trim_end s.
Proof.
  induction s as [|c r IH]; [reflexivity|].
  rewrite (trim_end_cons c r). destruct (trim_end r) as [|c' t] eqn:E.
  - destruct (is_ws c) eqn:W; [reflexivity|]. cbn. rewrite W. reflexivity.
  - rewrite trim_end_cons, IH. reflexivity.
Qed.

Lemma trim_end_trim_start : forall s, trim_end s = s -> trim_end (trim_start s) = trim_start s.
Proof.
  induction s as [|c r IH]; intros H; [reflexivity|].
  cbn [trim_start]. destruct (is_ws c); [|exact H].
  apply IH. apply (trim_end_cons_fixed c r H).
Qed.

Lemma trim_start_head : forall s c r, trim_start s = String c r -> is_ws c = false.
Proof.
  induction s as [|x s IH]; intros c r H; [discriminate|].
  cbn [trim_start] in H. destruct (is_ws x) eqn:W; [eapply IH; exact H|].
  injection H as <- _. exact W.
Qed.

(** [line.trim().split(/\s+/)] of a non-blank line: non-empty pieces
    without whitespace. *)
Lemma split_ws_trim : forall line,
  trim line <> "" -> Forall ws_free_token (split_ws (trim line)).
Proof.
  intros line Hn. unfold split_ws.
  assert (Ht : trim_end (trim line) = trim line)
    by (unfold trim; apply trim_end_trim_start, trim_end_idem).
  destruct (trim line) as [|c r] eqn:E; [congruence|].
  assert (W : is_ws c = false) by (unfold trim in E; eapply trim_start_head; exact E).
  cbn [split_ws_go]. rewrite W.
  destruct (trim_end_cons_fixed c r Ht) as [Hr _].
  apply split_ws_go_tokens; cbn; [rewrite W; reflexivity | discriminate | discriminate | exact Hr].
Qed.

Lemma last_In : forall (l : list string) d, l <> [] -> In (last l d) l.
Proof.
  induction l as [|x l IH]; intros d H; [congruence|].
  destruct l as [|y l]; [left; reflexivity|].
  right. apply IH. discriminate.
Qed.


Lemma mac_entry_of_fields_ok : forall fields,
  Forall ws_free_token fields -> 5 <= List.length fields ->
  mac_entry_ok (mac_entry_of_fields fields).
Proof.
  intros fields HF Hl. rewrite Forall_forall in HF.
  assert (N : forall i, i < List.length fields -> ws_free_token (nth i fields ""))
    by (intros i Hi; apply HF, nth_In; exact Hi).
  unfold mac_entry_of_fields, mac_entry_ok. cbn [vlan macAddress type port state].
  repeat split; try (apply N; lia).
  - apply HF, last_In. intros ->. cbn in Hl. lia.
  - apply HF, last_In. intros ->. cbn in Hl. lia.
  - destruct (String.eqb (nth 3 fields "") "GPON" && Nat.leb 6 (List.length fields)) eqn:G.
    + apply andb_prop in G as [G1 G2]. apply String.eqb_eq in G1. apply Nat.leb_le in G2.
      right. exists (nth 4 fields ""). rewrite G1. split; [reflexivity | apply N; lia].
    + left. apply N. lia.
Qed.

Lemma formatMacAddressTable_entries_ok : forall response,
  Forall mac_entry_ok (data (formatMacAddressTable response)).
Proof.
  intro response. unfold formatMacAddressTable. cbn [data].
  generalize false.
  induction (filter _ _) as [|line lines IH]; intros b; cbn [mac_lines_loop]; [constructor|].
  destruct (includes line "----   --------------"); [apply IH|].
  destruct (b && negb (String.eqb (trim line) "")) eqn:D; [|apply IH].
  destruct (_ || _ || _ || _); [apply IH|].
  destruct (Nat.leb 5 (List.length (split_ws (trim line)))) eqn:L; [|apply IH].
  constructor; [|apply IH].
  apply mac_entry_of_fields_ok; [|apply Nat.leb_le; exact L].
  apply split_ws_trim. apply andb_prop in D as [_ D].
  intro E. rewrite E in D. discriminate.
Qed.

(** Every entry [formatMacAddressTable] extracts, whatever the response,
    has non-empty, whitespace-free [vlan], [macAddress], [type] and
    [state]; its [port] is whitespace-free or [GPON <n>]. *)
Theorem mac_entries_well_formed : forall response,
  Forall mac_entry_ok (data (formatMacAddressTable response)).
Proof. exact formatMacAddressTable_entries_ok. Qed.

End FormatterProps.

Section TableProps.

Lemma repeat_char_length : forall c n, String.length (repeat_char c n) = n.
Proof. induction n as [|n IH]; simpl; [reflexivity | now rewrite IH]. Qed.

Lemma padEnd_length : forall s w, String.length s <= w -> String.length (padEnd s w) = w.
Proof. intros s w H. unfold padEnd. rewrite str_length_app, repeat_char_length. lia. Qed.

Lemma fold_max_ge : forall (g : Formatter.mac_entry -> nat) l w0,
  w0 <= fold_left (fun w row => Nat.max w (g row)) l w0 /\
  (forall x, In x l -> g x <= fold_left (fun w row => Nat.max w (g row)) l w0).
Proof.
  induction l as [|y l IH]; intros w0; cbn [fold_left]; [split; [lia | intros x []]|].
  destruct (IH (Nat.max w0 (g y))) as [H1 H2]. split; [lia|].
  intros x [<-|Hx]; [lia | auto].
Qed.

Lemma fold_table : forall (g : string -> Formatter.mac_entry -> string) f data t0,
  (forall t row, g t row = t ++ f row ++ NL) ->
  fold_left g data t0 = t0 ++ eol_lines NL (map f data).
Proof.
  intros g f data. induction data as [|row data IH]; intros t0 Hg.
  - cbn. now rewrite str_app_nil_r.
  - cbn [fold_left map]. rewrite IH, Hg by exact Hg. rewrite eol_lines_cons.
    now rewrite !str_app_assoc.
Qed.


Lemma column_width_key : forall data col,
  String.length (fst col) <= column_width data col.
Proof. intros data col. apply (fold_max_ge (fun row => String.length (snd col row))). Qed.

Lemma column_width_value : forall data col x,
  In x data -> String.length (snd col x) <= column_width data col.
Proof. intros data col x H. now apply (fold_max_ge (fun row => String.length (snd col row))). Qed.

Lemma repeat_char_all : forall (p : ascii -> bool) c n,
  p c = true -> all_chars p (repeat_char c n) = true.
Proof. intros p c n H. induction n as [|n IH]; simpl; [reflexivity | now rewrite H, IH]. Qed.

Lemma padEnd_nl_free : forall s w,
  all_chars (fun c => negb (Ascii.eqb c (ascii_of_nat 10))) s = true ->
  all_chars (fun c => negb (Ascii.eqb c (ascii_of_nat 10))) (padEnd s w) = true.
Proof.
  intros s w H. unfold padEnd. rewrite all_chars_app, H. apply repeat_char_all. reflexivity.
Qed.

Lemma formatAsTable_rectangular : forall d ds,
  Forall (fun e => Forall (fun col =>
    all_chars (fun c => negb (Ascii.eqb c (ascii_of_nat 10))) (snd col e) = true) mac_columns)
    (d :: ds) ->
  exists (w : nat) (lines : list string),
    formatAsTable (d :: ds) = eol_lines NL lines /\
    List.length lines = List.length (d :: ds) + 2 /\
    Forall (fun l => String.length l = w /\
                     all_chars (fun c => negb (Ascii.eqb c (ascii_of_nat 10))) l = true) lines.
Proof.
  intros d ds HF.
  exists (column_width (d :: ds) ("vlan", Formatter.vlan) +
          column_width (d :: ds) ("macAddress", Formatter.macAddress) +
          column_width (d :: ds) ("type", Formatter.type) +
          column_width (d :: ds) ("port", Formatter.port) +
          column_width (d :: ds) ("state", Formatter.state) + 12).
  unfold formatAsTable at 1. cbv zeta. cbn [mac_columns map fst snd].
  rewrite (fold_table _ (fun row => String.concat " | "
    [padEnd (Formatter.vlan row) (column_width (d :: ds) ("vlan", Formatter.vlan));
     padEnd (Formatter.macAddress row) (column_width (d :: ds) ("macAddress", Formatter.macAddress));
     padEnd (Formatter.type row) (column_width (d :: ds) ("type", Formatter.type));
     padEnd (Formatter.port row) (column_width (d :: ds) ("port", Formatter.port));
     padEnd (Formatter.state row) (column_width (d :: ds) ("state", Formatter.state))]))
    by (intros; reflexivity).
  eexists. split; [rewrite !str_app_assoc, <- !eol_lines_cons; reflexivity|].
  split; [cbn [List.length]; rewrite length_map; cbn [List.length]; lia|].
  constructor; [|constructor].
  - cbn [String.concat]. rewrite !str_length_app, !padEnd_length by apply (column_width_key _ (_, _)).
    split; [cbn; lia|]. rewrite !all_chars_app, !padEnd_nl_free by reflexivity. reflexivity.
  - cbn [String.concat]. rewrite !str_length_app, !repeat_char_length.
    split; [cbn; lia|]. rewrite !all_chars_app, !repeat_char_all by reflexivity. reflexivity.
  - apply Forall_map. rewrite Forall_forall in HF |- *. intros row Hrow.
    specialize (HF row Hrow). rewrite Forall_forall in HF.
    pose proof (HF _ (or_introl eq_refl)) as A1.
    pose proof (HF _ (or_intror (or_introl eq_refl))) as A2.
    pose proof (HF _ (or_intror (or_intror (or_introl eq_refl)))) as A3.
    pose proof (HF _ (or_intror (or_intror (or_intror (or_introl eq_refl))))) as A4.
    pose proof (HF _ (or_intror (or_intror (or_intror (or_intror (or_introl eq_refl)))))) as A5.
    cbn [snd] in A1, A2, A3, A4, A5.
    cbn [String.concat].
    rewrite !str_length_app, !padEnd_length
      by (apply (column_width_value _ (_, _) _ Hrow)).
    split; [cbn; lia|].
    rewrite !all_chars_app, !padEnd_nl_free by assumption. reflexivity.
Qed.


Lemma ws_free_nl_free : forall t,
  ws_free_token t -> all_chars (fun c => negb (Ascii.eqb c (ascii_of_nat 10))) t = true.
Proof.
  intros t [_ H]. apply (all_chars_impl (fun c => negb (is_ws c)) _ t); [|exact H].
  intros c Hc. destruct (Ascii.eqb_spec c (ascii_of_nat 10)) as [->|]; [discriminate | reflexivity].
Qed.

Lemma mac_entry_ok_columns : forall e,
  mac_entry_ok e ->
  Forall (fun col =>
    all_chars (fun c => negb (Ascii.eqb c (ascii_of_nat 10))) (snd col e) = true) mac_columns.
Proof.
  intros e (V & M & T & S & P).
  repeat constructor; cbn [snd]; try (apply ws_free_nl_free; assumption).
  destruct P as [P | (n & -> & N)]; [apply ws_free_nl_free; exact P|].
  rewrite all_chars_app. apply ws_free_nl_free in N. rewrite N. reflexivity.
Qed.

(** The [formatted] text of [formatMacAddressTable], when it found
    entries, is a rectangle: a header line, a separator line and one line
    per entry, all of the same length, each ended by a newline. *)
Theorem mac_formatted_table_rectangular : forall response,
  Formatter.data (Formatter.formatMacAddressTable response) <> [] ->
  exists (w : nat) (lines : list string),
    split_char (ascii_of_nat 10) (formatMacAddressTable_formatted response) = (lines ++ [""])%list /\
    List.length lines = List.length (Formatter.data (Formatter.formatMacAddressTable response)) + 2 /\
    Forall (fun l => String.length l = w) lines.
Proof.
  intros response Hne. unfold formatMacAddressTable_formatted.
  pose proof (formatMacAddressTable_entries_ok response) as Hok.
  destruct (Formatter.data (Formatter.formatMacAddressTable response)) as [|d ds];
    [congruence|].
  destruct (formatAsTable_rectangular d ds) as (w & lines & E & L & F).
  - eapply Forall_impl; [exact mac_entry_ok_columns | exact Hok].
  - exists w, lines. rewrite E. split; [|split; [exact L|]].
    + apply split_eol_lines. eapply Forall_impl; [|exact F]. intros l [_ H]. exact H.
    + eapply Forall_impl; [|exact F]. intros l [H _]. exact H.
Qed.

Lemma mac_formatted_table_rectangular_witness :
  Formatter.data (Formatter.formatMacAddressTable
    (mac_table_text [mac_row_gpon1; mac_row_eth; mac_row_gpon2])) <> [] /\
  exists (w : nat) (lines : list string),
    split_char (ascii_of_nat 10)
      (formatMacAddressTable_formatted (mac_table_text [mac_row_gpon1; mac_row_eth; mac_row_gpon2]))
      = (lines ++ [""])%list /\
    List.length lines = List.length (Formatter.data (Formatter.formatMacAddressTable
      (mac_table_text [mac_row_gpon1; mac_row_eth; mac_row_gpon2]))) + 2 /\
    Forall (fun l => String.length l = w) lines.
Proof.
  assert (H : Formatter.data (Formatter.formatMacAddressTable
    (mac_table_text [mac_row_gpon1; mac_row_eth; mac_row_gpon2])) <> [])
    by (vm_compute; discriminate).
  split; [exact H | apply (mac_formatted_table_rectangular _ H)].
Defined.


Lemma split_char_head : forall sep s h t,
  split_char sep s = h :: t -> exists b, s = h ++ b.
Proof.
  intros sep. induction s as [|c r IH]; intros h t E; cbn [split_char] in E.
  - injection E as <- _. exists "". reflexivity.
  - destruct (Ascii.eqb c sep).
    + injection E as <- _. exists (String c r). reflexivity.
    + destruct (split_char sep r) as [|h' t'] eqn:R.
      * injection E as <- _. exists r. reflexivity.
      * injection E as <- _. destruct (IH h' t' eq_refl) as [b ->]. exists b. reflexivity.
Qed.

Lemma split_char_piece : forall sep s l,
  In l (split_char sep s) -> exists a b, s = a ++ l ++ b.
Proof.
  intros sep. induction s as [|c r IH]; intros l Hl; cbn [split_char] in Hl.
  - destruct Hl as [<-|[]]. exists "", "". reflexivity.
  - destruct (Ascii.eqb c sep).
    + destruct Hl as [<-|Hl].
      * exists "", (String c r). reflexivity.
      * destruct (IH l Hl) as (a & b & ->). exists (String c a), b. reflexivity.
    + destruct (split_char sep r) as [|h t] eqn:R.
      * destruct Hl as [<-|[]]. exists "", r. reflexivity.
      * destruct Hl as [<-|Hl].
        -- destruct (split_char_head sep r h t R) as [b ->]. exists "", b. reflexivity.
        -- destruct (IH l (or_intror Hl)) as (a & b & ->). exists (String c a), b. reflexivity.
Qed.

Lemma includes_app_l_false : forall a x p, includes (a ++ x) p = false -> includes x p = false.
Proof.
  induction a as [|c a IH]; intros x p H; [exact H|].
  cbn [String.append includes] in H. apply orb_false_iff in H as [_ H]. exact (IH x p H).
Qed.

Lemma includes_app_r_false : forall l b p, includes (l ++ b) p = false -> includes l p = false.
Proof.
  intros l b p H. destruct (includes l p) eqn:E; [|reflexivity].
  rewrite (includes_prefix_mono l (l ++ b) p E) in H; [discriminate|].
  clear. induction l as [|c l IH]; [apply prefix_empty|].
  cbn. destruct (ascii_dec c c); [exact IH | congruence].
Qed.

Lemma mac_lines_loop_no_separator : forall lines,
  Forall (fun l => includes l "----   --------------" = false) lines ->
  Formatter.mac_lines_loop lines false = [].
Proof.
  induction 1 as [|l lines Hl _ IH]; [reflexivity|].
  cbn [Formatter.mac_lines_loop]. rewrite Hl. exact IH.
Qed.

(** Without the separator row [----   --------------] somewhere in the
    cleaned answer, [formatMacAddressTable] extracts no entry, whatever
    rows the answer holds, and its [formatted] text is [No data]. *)
Theorem mac_table_needs_separator : forall response,
  includes (Formatter.raw (Formatter.formatMacAddressTable response))
           "----   --------------" = false ->
  Formatter.data (Formatter.formatMacAddressTable response) = [] /\
  formatMacAddressTable_formatted response = "No data".
Proof.
  intros response H.
  assert (D : Formatter.data (Formatter.formatMacAddressTable response) = []).
  { unfold Formatter.formatMacAddressTable in *. cbn [Formatter.raw Formatter.data] in *.
    apply mac_lines_loop_no_separator. apply Forall_forall.
    intros l Hl. apply filter_In in Hl as [Hl _].
    destruct (split_char_piece _ _ _ Hl) as (a & b & E). rewrite E in H.
    exact (includes_app_r_false l b _ (includes_app_l_false a _ _ H)). }
  split; [exact D|]. unfold formatMacAddressTable_formatted. rewrite D. reflexivity.
Qed.

Lemma mac_table_needs_separator_witness :
  includes (Formatter.raw (Formatter.formatMacAddressTable
    ("Vlan  Mac Address     Type     Port     State" ++ CR ++ NL ++
     "100   0011.2233.4455  dynamic  eth0/1   Active" ++ CR ++ NL)))
    "----   --------------" = false /\
  Formatter.data (Formatter.formatMacAddressTable
    ("Vlan  Mac Address     Type     Port     State" ++ CR ++ NL ++
     "100   0011.2233.4455  dynamic  eth0/1   Active" ++ CR ++ NL)) = [] /\
  formatMacAddressTable_formatted
    ("Vlan  Mac Address     Type     Port     State" ++ CR ++ NL ++
     "100   0011.2233.4455  dynamic  eth0/1   Active" ++ CR ++ NL) = "No data".
Proof.
  assert (H : includes (Formatter.raw (Formatter.formatMacAddressTable
    ("Vlan  Mac Address     Type     Port     State" ++ CR ++ NL ++
     "100   0011.2233.4455  dynamic  eth0/1   Active" ++ CR ++ NL)))
    "----   --------------" = false) by (vm_compute; reflexivity).
  split; [exact H | apply (mac_table_needs_separator _ H)].
Defined.

End TableProps.

Section RunningConfigProps.
Import RunningConfig.

Lemma running_config_loop_data : forall lines cur secs data,
  map command (snd (running_config_loop lines cur secs data)) =
  (map command data ++ map trim lines)%list.
Proof.
  induction lines as [|line lines IH]; intros cur secs data; cbn [running_config_loop map].
  - now rewrite app_nil_r.
  - rewrite IH, map_app, <- app_assoc. reflexivity.
Qed.

(** [configData] keeps every line of the response, trimmed and in order:
    blank lines and section headers included, one entry per line. *)
Theorem running_config_keeps_every_line : forall response,
  map command (configData (formatRunningConfig response)) =
  map trim (Formatter.split_char (ascii_of_nat 10) response).
Proof.
  intro response. unfold formatRunningConfig.
  pose proof (running_config_loop_data (Formatter.split_char (ascii_of_nat 10) response)
                "global" [] []) as H.
  destruct (running_config_loop _ _ _ _) as [secs data]. exact H.
Qed.

Lemma lookup_push : forall k c t secs,
  lookup_section k (push_section c t secs) =
  if String.eqb k c
  then Some match lookup_section k secs with Some vs => (vs ++ [t])%list | None => [t] end
  else lookup_section k secs.
Proof.
  intros k c t. induction secs as [|[k' vs] secs IH]; cbn [push_section lookup_section].
  - destruct (String.eqb k c); reflexivity.
  - destruct (String.eqb c k') eqn:E1.
    + apply String.eqb_eq in E1 as <-. cbn [lookup_section].
      destruct (String.eqb k c); reflexivity.
    + cbn [lookup_section]. rewrite IH.
      destruct (String.eqb k k') eqn:E2; [|reflexivity].
      apply String.eqb_eq in E2 as ->. rewrite String.eqb_sym, E1. reflexivity.
Qed.

Lemma keys_push : forall k v secs,
  map fst (push_section k v secs) =
  if existsb (String.eqb k) (map fst secs) then map fst secs else (map fst secs ++ [k])%list.
Proof.
  intros k v. induction secs as [|[k' vs] secs IH]; [reflexivity|].
  cbn [push_section map fst existsb]. destruct (String.eqb k k'); [reflexivity|].
  cbn [map fst]. rewrite IH. destruct (existsb _ _); reflexivity.
Qed.

Lemma nodup_push : forall k v secs,
  NoDup (map fst secs) -> NoDup (map fst (push_section k v secs)).
Proof.
  intros k v secs H. rewrite keys_push.
  destruct (existsb (String.eqb k) (map fst secs)) eqn:E; [exact H|].
  apply NoDup_app; [exact H | constructor; [intros []|constructor] |].
  intros x Hx [<-|[]].
  assert (existsb (String.eqb k) (map fst secs) = true)
    by (apply existsb_exists; exists k; split; [exact Hx | apply String.eqb_refl]).
  congruence.
Qed.

Lemma existsb_false_filter : forall (A : Type) (f : A -> bool) l,
  existsb f l = false -> filter f l = [].
Proof.
  intros A f. induction l as [|x l IH]; intros H; [reflexivity|].
  cbn [existsb] in H. apply orb_false_iff in H as [H1 H2]. cbn [filter]. rewrite H1. auto.
Qed.

Lemma running_config_loop_groups : forall lines cur secs data,
  (forall k, lookup_section k secs =
     if existsb (fun e => String.eqb (section e) k) data
     then Some (map command (filter (fun e => String.eqb (section e) k) data)) else None) ->
  NoDup (map fst secs) ->
  (forall k, lookup_section k (fst (running_config_loop lines cur secs data)) =
     if existsb (fun e => String.eqb (section e) k) (snd (running_config_loop lines cur secs data))
     then Some (map command (filter (fun e => String.eqb (section e) k)
                                    (snd (running_config_loop lines cur secs data))))
     else None) /\
  NoDup (map fst (fst (running_config_loop lines cur secs data))).
Proof.
  induction lines as [|line lines IH]; intros cur secs data H N; [split; assumption|].
  cbn [running_config_loop]. apply IH; [|apply nodup_push, N].
  intro k. rewrite lookup_push, existsb_app, filter_app, map_app. cbn [existsb filter section].
  destruct (String.eqb k (next_section (trim line) cur)) eqn:E.
  - apply String.eqb_eq in E. rewrite <- E, String.eqb_refl, H. cbn [orb map command].
    destruct (existsb _ data) eqn:X; [reflexivity|].
    rewrite existsb_false_filter by exact X. reflexivity.
  - rewrite String.eqb_sym, E, H, orb_false_r, app_nil_r. reflexivity.
Qed.

(** [sections] groups [configData]: each key appears once, and
    [sections[k]] holds, in order, the commands of exactly the
    [configData] entries whose section is [k] ([undefined] when there is
    none). *)
Theorem running_config_sections_group : forall response k,
  lookup_section k (sections (formatRunningConfig response)) =
    (if existsb (fun e => String.eqb (section e) k) (configData (formatRunningConfig response))
     then Some (map command (filter (fun e => String.eqb (section e) k)
                                    (configData (formatRunningConfig response))))
     else None) /\
  NoDup (map fst (sections (formatRunningConfig response))).
Proof.
  intros response k. unfold formatRunningConfig.
  pose proof (running_config_loop_groups (Formatter.split_char (ascii_of_nat 10) response)
                "global" [] [] (fun _ => eq_refl) (NoDup_nil _)) as [G N].
  destruct (running_config_loop _ _ _ _) as [secs data]. cbn [sections configData fst snd] in *.
  split; [apply G | exact N].
Qed.

Lemma next_section_cases : forall t cur,
  (next_section t cur = cur /\ next_section t "global" = "global") \/
  next_section t cur = next_section t "global".
Proof.
  intros t cur. unfold next_section.
  destruct (String.prefix "interface " t); [right; reflexivity|].
  destruct (String.prefix "router " t); [right; reflexivity|].
  destruct (String.prefix "line " t); [right; reflexivity|].
  left; split; reflexivity.
Qed.

Lemma In_push : forall k vs c t secs,
  In (k, vs) (push_section c t secs) ->
  In (k, vs) secs \/
  (k = c /\ ((exists old, In (c, old) secs /\ vs = (old ++ [t])%list) \/
             (lookup_section c secs = None /\ vs = [t]))).
Proof.
  intros k vs c t. induction secs as [|[k' vs'] secs IH]; cbn [push_section lookup_section].
  - intros [E|[]]. injection E as <- <-. right. split; [reflexivity | right; split; reflexivity].
  - destruct (String.eqb c k') eqn:E.
    + apply String.eqb_eq in E as <-. intros [Eh|Hin].
      * injection Eh as <- <-. right. split; [reflexivity|].
        left. exists vs'. split; [left; reflexivity | reflexivity].
      * left. right. exact Hin.
    + intros [Eh|Hin]; [left; left; exact Eh|].
      destruct (IH Hin) as [Hin'|(-> & [(old & Ho & ->)|(Hn & ->)])].
      * left. right. exact Hin'.
      * right. split; [reflexivity|]. left. exists old. split; [right; exact Ho | reflexivity].
      * right. split; [reflexivity|]. right. split; [exact Hn | reflexivity].
Qed.

Lemma lookup_none_not_In : forall k vs secs,
  lookup_section k secs = None -> ~ In (k, vs) secs.
Proof.
  intros k vs. induction secs as [|[k' vs'] secs IH]; cbn [lookup_section]; [intros _ []|].
  destruct (String.eqb k k') eqn:E; [discriminate|].
  intros H [Eh|Hin]; [|exact (IH H Hin)].
  injection Eh as -> _. rewrite String.eqb_refl in E. discriminate.
Qed.

Lemma running_config_loop_headers : forall lines cur secs data,
  (cur = "global" \/ lookup_section cur secs <> None) ->
  (forall k vs, In (k, vs) secs -> k <> "global" ->
     exists hd rest, vs = hd :: rest /\ next_section hd "global" = k) ->
  forall k vs, In (k, vs) (fst (running_config_loop lines cur secs data)) -> k <> "global" ->
     exists hd rest, vs = hd :: rest /\ next_section hd "global" = k.
Proof.
  induction lines as [|line lines IH]; intros cur secs data Hcur Hinv; [exact Hinv|].
  cbn [running_config_loop]. apply IH.
  - right. rewrite lookup_push, String.eqb_refl. discriminate.
  - intros k vs Hin Hk.
    destruct (In_push _ _ _ _ _ Hin) as [Hin'|(-> & [(old & Ho & ->)|(Hn & ->)])].
    + exact (Hinv k vs Hin' Hk).
    + destruct (Hinv _ old Ho Hk) as (hd & rest & -> & Hh).
      exists hd, (rest ++ [trim line])%list. split; [reflexivity | exact Hh].
    + exists (trim line), []. split; [reflexivity|].
      destruct (next_section_cases (trim line) cur) as [[Ec _]|Ec]; [|symmetry; exact Ec].
      rewrite Ec in Hn, Hk. destruct Hcur as [Hg|Hl]; [contradiction | contradiction].
Qed.

(** Every section but [global] begins with the header line that opened
    it: an [interface ], [router ] or [line ] line whose name is the
    section key, even when the same section is reopened later on. *)
Theorem running_config_section_starts_with_header : forall response k vs,
  In (k, vs) (sections (formatRunningConfig response)) -> k <> "global" ->
  exists hd rest, vs = hd :: rest /\ next_section hd "global" = k.
Proof.
  intros response k vs. unfold formatRunningConfig.
  pose proof (running_config_loop_headers (Formatter.split_char (ascii_of_nat 10) response)
                "global" [] []) as H.
  destruct (running_config_loop _ _ _ _) as [secs data]. cbn [sections fst] in *.
  apply H; [left; reflexivity | intros ? ? []].
Qed.

Lemma running_config_section_starts_with_header_witness :
  In ("interface:gpon 0/1", ["interface gpon 0/1"; "shutdown"; "interface gpon 0/1"; "desc x"])
     (sections (formatRunningConfig
       ("hostname OLT" ++ NL ++ "interface gpon 0/1" ++ NL ++ " shutdown" ++ NL ++
        "line vty 0 4" ++ NL ++ " exec" ++ NL ++ "interface gpon 0/1" ++ NL ++ " desc x"))) /\
  "interface:gpon 0/1" <> "global" /\
  exists hd rest,
    ["interface gpon 0/1"; "shutdown"; "interface gpon 0/1"; "desc x"] = hd :: rest /\
    next_section hd "global" = "interface:gpon 0/1".
Proof.
  assert (H1 : In ("interface:gpon 0/1",
                   ["interface gpon 0/1"; "shutdown"; "interface gpon 0/1"; "desc x"])
     (sections (formatRunningConfig
       ("hostname OLT" ++ NL ++ "interface gpon 0/1" ++ NL ++ " shutdown" ++ NL ++
        "line vty 0 4" ++ NL ++ " exec" ++ NL ++ "interface gpon 0/1" ++ NL ++ " desc x"))))
    by (vm_compute; right; left; reflexivity).
  assert (H2 : "interface:gpon 0/1" <> "global") by discriminate.
  split; [exact H1 | split; [exact H2 | apply (running_config_section_starts_with_header _ _ _ H1 H2)]].
Defined.

End RunningConfigProps.

Section RouteProps.
Import Routes.
Context {M : Type}.

Lemma own_lookup_set : forall k k' (m : M) st,
  own_lookup k (store_set k' m st) = if String.eqb k k' then Some m else own_lookup k st.
Proof.
  intros k k' m. induction st as [|[k0 m0] st IH]; cbn [store_set own_lookup]; [reflexivity|].
  destruct (String.eqb k' k0) eqn:E.
  - apply String.eqb_eq in E as <-. cbn [own_lookup]. destruct (String.eqb k k'); reflexivity.
  - cbn [own_lookup]. rewrite IH. destruct (String.eqb k k0) eqn:E2; [|reflexivity].
    apply String.eqb_eq in E2 as ->. rewrite String.eqb_sym, E. reflexivity.
Qed.

Lemma own_lookup_delete : forall k (st : store M), own_lookup k (store_delete k st) = None.
Proof.
  intros k. induction st as [|[k0 m0] st IH]; [reflexivity|].
  unfold store_delete in *. cbn [filter]. destruct (String.eqb k k0) eqn:E; cbn [negb].
  - exact IH.
  - cbn [own_lookup]. rewrite E. exact IH.
Qed.

Lemma own_lookup_key : forall k (st : store M) m, own_lookup k st = Some m -> In k (map fst st).
Proof.
  intros k. induction st as [|[k0 m0] st IH]; cbn [own_lookup map fst]; [discriminate|].
  destruct (String.eqb k k0) eqn:E.
  - intros ? _. left. symmetry. apply String.eqb_eq, E.
  - intros m H. right. exact (IH m H).
Qed.

Lemma keys_set : forall k (m : M) st x, In x (map fst (store_set k m st)) -> x = k \/ In x (map fst st).
Proof.
  intros k m. induction st as [|[k0 m0] st IH]; cbn [store_set map fst].
  - intros x [<-|[]]. left. reflexivity.
  - destruct (String.eqb k k0); cbn [map fst].
    + intros x [<-|Hx]; right; [left; reflexivity | right; exact Hx].
    + intros x [<-|Hx]; [right; left; reflexivity|].
      destruct (IH x Hx) as [->|Hx']; [left; reflexivity | right; right; exact Hx'].
Qed.

Lemma keys_delete : forall k (st : store M) x, In x (map fst (store_delete k st)) -> In x (map fst st).
Proof.
  intros k st x H. unfold store_delete in H. apply in_map_iff in H as ([x' m] & <- & Hin).
  apply filter_In in Hin as [Hin _]. apply in_map_iff. exists (x', m). split; [reflexivity | exact Hin].
Qed.

Lemma includes_app_l_true : forall a x p, includes x p = true -> includes (a ++ x) p = true.
Proof.
  induction a as [|c a IH]; intros x p H; [exact H|].
  cbn [String.append includes]. rewrite (IH x p H). apply orb_true_r.
Qed.

Lemma route_dashed : forall (st : store M) r, dashed st -> dashed (fst (route st r)).
Proof.
  intros st r H. unfold dashed in *. rewrite Forall_forall in *.
  destruct r as [ip u p e now m ok | sid c ok | sid ok | sid ok | sid]; cbn [route].
  - destruct (negb _); [exact H|]. destruct ok; [|exact H]. cbn [fst].
    intros x Hx. destruct (keys_set _ _ _ _ Hx) as [->|Hx']; [|exact (H x Hx')].
    apply includes_app_l_true, includes_prefix. destruct now; reflexivity.
  - destruct (negb _); [exact H|]. destruct (lookup_slot _ _) as [[]|]; exact H.
  - destruct (negb _); [exact H|]. destruct (lookup_slot _ _) as [[]|]; [|exact H|exact H].
    destruct ok; [|exact H]. intros x Hx. exact (H x (keys_delete _ _ _ Hx)).
  - destruct (negb _); [exact H|]. destruct (lookup_slot _ _) as [[]|]; exact H.
  - destruct (lookup_slot _ _) as [[]|]; exact H.
Qed.

Lemma serve_dashed : forall rs (st : store M), dashed st -> dashed (fst (serve st rs)).
Proof.
  induction rs as [|r rs IH]; intros st H; [exact H|]. cbn [serve].
  pose proof (route_dashed st r H) as H1.
  destruct (route st r) as [st1 a]. cbn [fst] in H1.
  pose proof (IH st1 H1) as H2. destruct (serve st1 rs) as [st2 answers]. exact H2.
Qed.

Lemma proto_keys_undashed : forall k, In k proto_keys -> includes k "-" = false.
Proof. intros k H. repeat (destruct H as [<-|H]; [reflexivity|]). destruct H. Qed.

Lemma served_not_own_proto : forall rs k,
  In k proto_keys -> own_lookup k (fst (serve (M := M) [] rs)) = None.
Proof.
  intros rs k Hk. destruct (own_lookup k _) as [m|] eqn:E; [|reflexivity].
  pose proof (serve_dashed rs [] (Forall_nil _)) as D. unfold dashed in D.
  rewrite Forall_forall in D. pose proof (D k (own_lookup_key _ _ _ E)) as D1.
  rewrite proto_keys_undashed in D1 by exact Hk. discriminate.
Qed.

(** Two successful [/connect] requests for the same [ip] in the same
    millisecond get the same [sessionId]: the second manager replaces the
    first one in [activeSessions], which no key reaches any more. *)
Theorem connect_same_millisecond_replaces : forall (st : store M) ip u p e now m1 m2,
  present (Some ip) && present u && present p && present e = true ->
  snd (route st (PostConnect (Some ip) u p e now m1 true)) = ReplyConnected (ip ++ "-" ++ now) /\
  snd (route (fst (route st (PostConnect (Some ip) u p e now m1 true)))
             (PostConnect (Some ip) u p e now m2 true)) = ReplyConnected (ip ++ "-" ++ now) /\
  forall k,
    own_lookup k (fst (route (fst (route st (PostConnect (Some ip) u p e now m1 true)))
                             (PostConnect (Some ip) u p e now m2 true))) =
    if String.eqb k (ip ++ "-" ++ now) then Some m2 else own_lookup k st.
Proof.
  intros st ip u p e now m1 m2 H. cbn [route]. rewrite H. cbn [negb fst snd].
  split; [reflexivity | split; [reflexivity|]].
  intro k. rewrite !own_lookup_set. destruct (String.eqb k _); reflexivity.
Qed.

Lemma own_lookup_delete_none : forall k k' (st : store M),
  own_lookup k st = None -> own_lookup k (store_delete k' st) = None.
Proof.
  intros k k'. induction st as [|[k0 m0] st IH]; [reflexivity|].
  cbn [own_lookup]. destruct (String.eqb k k0) eqn:E; [discriminate|]. intro H.
  unfold store_delete in *. cbn [filter]. destruct (negb (String.eqb k' k0)); [|exact (IH H)].
  cbn [own_lookup]. rewrite E. exact (IH H).
Qed.

Lemma route_keeps_absent : forall (st : store M) r sid,
  own_lookup sid st = None -> creates_key sid r = false ->
  own_lookup sid (fst (route st r)) = None.
Proof.
  intros st r sid H C.
  destruct r as [ip u p e now m ok | s c ok | s ok | s ok | s]; cbn [route].
  - destruct ip as [ip|]; cbn [present andb negb]; [|exact H].
    destruct (negb _); [exact H|]. destruct ok; [|exact H]. cbn [fst].
    rewrite own_lookup_set, H.
    destruct (String.eqb sid _) eqn:E; [|reflexivity].
    apply String.eqb_eq in E. subst sid.
    cbn [creates_key] in C. rewrite String.eqb_refl in C. discriminate.
  - destruct (negb _); [exact H|]. destruct (lookup_slot _ _) as [[]|]; exact H.
  - destruct (negb _); [exact H|]. destruct (lookup_slot _ _) as [[]|]; [|exact H|exact H].
    destruct ok; [|exact H]. apply own_lookup_delete_none, H.
  - destruct (negb _); [exact H|]. destruct (lookup_slot _ _) as [[]|]; exact H.
  - destruct (lookup_slot _ _) as [[]|]; exact H.
Qed.

Lemma serve_keeps_absent : forall rest (st : store M) sid,
  own_lookup sid st = None -> Forall (fun r => creates_key sid r = false) rest ->
  own_lookup sid (fst (serve st rest)) = None.
Proof.
  induction rest as [|r rest IH]; intros st sid H F; [exact H|].
  inversion F as [|? ? C F']. subst. cbn [serve].
  pose proof (route_keeps_absent st r sid H C) as H1.
  destruct (route st r) as [st1 a]. cbn [fst] in H1.
  pose proof (IH st1 sid H1 F') as H2. destruct (serve st1 rest) as [st2 answers]. exact H2.
Qed.

(** Once [/disconnect] has answered 200 for a session, every later
    request naming it answers 404, whatever requests were served in
    between, as long as none of them is a [/connect] building the same
    id: [/status], [/send-command], [/enable] and [/disconnect] again. *)
Theorem disconnect_then_not_found : forall (rs rest : list (request (M := M))) sid,
  snd (route (fst (serve [] rs)) (PostDisconnect (Some sid) true)) = Reply200 ->
  Forall (fun r => creates_key sid r = false) rest ->
  let st := fst (serve (fst (route (fst (serve [] rs)) (PostDisconnect (Some sid) true))) rest) in
  snd (route st (GetStatus sid)) = Reply404 /\
  (forall c ok, present c = true -> snd (route st (PostSendCommand (Some sid) c ok)) = Reply404) /\
  (forall ok, snd (route st (PostEnable (Some sid) ok)) = Reply404) /\
  (forall ok, snd (route st (PostDisconnect (Some sid) ok)) = Reply404).
Proof.
  intros rs rest sid H F. cbv zeta.
  pose proof (serve_dashed rs [] (Forall_nil _)) as D.
  destruct (serve [] rs) as [st0 answers]. cbn [fst] in *.
  assert (P : present (Some sid) = true).
  { cbn [route] in H. destruct (present (Some sid)); [reflexivity | discriminate]. }
  assert (E0 : exists m, own_lookup sid st0 = Some m /\
                         fst (route st0 (PostDisconnect (Some sid) true)) = store_delete sid st0).
  { cbn [route] in H |- *. rewrite P in H |- *. cbn [negb] in H |- *.
    unfold lookup_slot in H |- *.
    destruct (own_lookup sid st0) as [m|]; [|destruct (existsb _ _); discriminate].
    exists m. split; reflexivity. }
  destruct E0 as (m & E & Ed). rewrite Ed.
  assert (X : existsb (String.eqb sid) proto_keys = false).
  { destruct (existsb (String.eqb sid) proto_keys) eqn:X; [|reflexivity].
    apply existsb_exists in X as (k & Hk & Ek). apply String.eqb_eq in Ek as <-.
    unfold dashed in D. rewrite Forall_forall in D.
    pose proof (D sid (own_lookup_key _ _ _ E)) as D1.
    rewrite proto_keys_undashed in D1 by exact Hk. discriminate. }
  pose proof (serve_keeps_absent rest (store_delete sid st0) sid (own_lookup_delete sid st0) F)
    as A.
  cbn [route]. unfold lookup_slot. rewrite A, X, P. cbn [negb andb].
  split; [reflexivity|].
  split; [intros c ok Hc; rewrite Hc; reflexivity|].
  split; intros ok; reflexivity.
Qed.

(** [GET /status/:sessionId] never answers 404 for a key of
    [Object.prototype] such as [constructor]: no session ever has such an
    id, yet the lookup is truthy and the handler throws calling
    [getStatus] on the inherited value. *)
Theorem status_prototype_key_throws : forall (rs : list (request (M := M))) k,
  In k proto_keys -> snd (route (fst (serve [] rs)) (GetStatus k)) = ReplyThrows.
Proof.
  intros rs k Hk. cbn [route]. unfold lookup_slot. rewrite served_not_own_proto by exact Hk.
  assert (X : existsb (String.eqb k) proto_keys = true)
    by (apply existsb_exists; exists k; split; [exact Hk | apply String.eqb_refl]).
  rewrite X. reflexivity.
Qed.

End RouteProps.

Lemma connect_same_millisecond_replaces_witness :
  Routes.present (Some "10.0.0.1") && Routes.present (Some "admin") &&
  Routes.present (Some "secret") && Routes.present (Some "enable") = true /\
  snd (Routes.route (M := nat) []
         (Routes.PostConnect (Some "10.0.0.1") (Some "admin") (Some "secret") (Some "enable")
            "1700000000000" 1 true)) = Routes.ReplyConnected ("10.0.0.1" ++ "-" ++ "1700000000000") /\
  snd (Routes.route
         (fst (Routes.route (M := nat) []
                 (Routes.PostConnect (Some "10.0.0.1") (Some "admin") (Some "secret") (Some "enable")
                    "1700000000000" 1 true)))
         (Routes.PostConnect (Some "10.0.0.1") (Some "admin") (Some "secret") (Some "enable")
            "1700000000000" 2 true)) = Routes.ReplyConnected ("10.0.0.1" ++ "-" ++ "1700000000000") /\
  forall k,
    Routes.own_lookup k
      (fst (Routes.route
         (fst (Routes.route (M := nat) []
                 (Routes.PostConnect (Some "10.0.0.1") (Some "admin") (Some "secret") (Some "enable")
                    "1700000000000" 1 true)))
         (Routes.PostConnect (Some "10.0.0.1") (Some "admin") (Some "secret") (Some "enable")
            "1700000000000" 2 true))) =
    if String.eqb k ("10.0.0.1" ++ "-" ++ "1700000000000") then Some 2
    else Routes.own_lookup k (M := nat) [].
Proof.
  assert (H : Routes.present (Some "10.0.0.1") && Routes.present (Some "admin") &&
              Routes.present (Some "secret") && Routes.present (Some "enable") = true)
    by reflexivity.
  split; [exact H | apply (connect_same_millisecond_replaces [] _ _ _ _ _ 1 2 H)].
Defined.

Lemma disconnect_then_not_found_witness :
  snd (Routes.route
         (fst (Routes.serve []
                 [Routes.PostConnect (Some "10.0.0.1") (Some "admin") (Some "secret")
                    (Some "enable") "1700000000000" 7 true]))
         (Routes.PostDisconnect (Some "10.0.0.1-1700000000000") true)) = Routes.Reply200 /\
  snd (Routes.route
         (fst (Routes.serve
            (fst (Routes.route
                    (fst (Routes.serve []
                            [Routes.PostConnect (Some "10.0.0.1") (Some "admin") (Some "secret")
                               (Some "enable") "1700000000000" 7 true]))
                    (Routes.PostDisconnect (Some "10.0.0.1-1700000000000") true)))
            [Routes.PostConnect (Some "10.0.0.2") (Some "admin") (Some "secret")
               (Some "enable") "1700000000001" 8 true;
             Routes.GetStatus "10.0.0.1-1700000000000";
             Routes.PostSendCommand (Some "10.0.0.1-1700000000000") (Some "show onu") true]))
         (Routes.GetStatus "10.0.0.1-1700000000000")) = Routes.Reply404.
Proof.
  assert (H : snd (Routes.route
         (fst (Routes.serve []
                 [Routes.PostConnect (Some "10.0.0.1") (Some "admin") (Some "secret")
                    (Some "enable") "1700000000000" 7 true]))
         (Routes.PostDisconnect (Some "10.0.0.1-1700000000000") true)) = Routes.Reply200)
    by (vm_compute; reflexivity).
  split; [exact H|].
  apply (disconnect_then_not_found _
           [Routes.PostConnect (Some "10.0.0.2") (Some "admin") (Some "secret")
              (Some "enable") "1700000000001" 8 true;
            Routes.GetStatus "10.0.0.1-1700000000000";
            Routes.PostSendCommand (Some "10.0.0.1-1700000000000") (Some "show onu") true]
           _ H).
  repeat constructor.
Defined.

Lemma status_prototype_key_throws_witness :
  In "constructor" Routes.proto_keys /\
  snd (Routes.route
         (fst (Routes.serve []
                 [Routes.PostConnect (Some "10.0.0.1") (Some "admin") (Some "secret")
                    (Some "enable") "1700000000000" 7 true]))
         (Routes.GetStatus "constructor")) = Routes.ReplyThrows.
Proof.
  assert (H : In "constructor" Routes.proto_keys) by (left; reflexivity).
  split; [exact H | apply (status_prototype_key_throws _ _ H)].
Defined.

Section LoginProps.
Import Session.

Lemma handleData_login_prompt : forall s d,
  loggedIn s = false -> buffer s = "" ->
  includes d "Username:" || includes d "Login:" || includes d "Password:" = true ->
  handleData s d =
    (set_buffer (set_buffer s (buffer s ++ d)) "",
     [Write ((if includes d "Username:" || includes d "Login:" then username s else password s)
             ++ NL)]).
Proof.
  intros s d HL HB Hd. unfold handleData. cbv zeta. simpl_session.
  rewrite HL, HB. cbn [negb String.append].
  destruct (includes d "Username:" || includes d "Login:") eqn:U; [reflexivity|].
  cbn [orb] in Hd. rewrite Hd. reflexivity.
Qed.

(** Before login, as long as every chunk the device sends holds a
    [Username:], [Login:] or [Password:] prompt, [handleData] only answers
    it with the username or the password: a [Login incorrect] followed by
    a new [Login:] prompt is answered with the username again, the connect
    promise is neither resolved nor rejected, and once the socket has
    connected the connection timer no longer rejects it either. *)
Theorem login_reprompt_keeps_connect_pending : forall ds s,
  loggedIn s = false -> buffer s = "" -> configTask s = None -> connectTimerLive s = false ->
  Forall (fun d => includes d "Username:" || includes d "Login:" || includes d "Password:" = true) ds ->
  snd (run s (map EvData ds ++ [EvConnectTimeout])) =
  map (fun d => Write ((if includes d "Username:" || includes d "Login:"
                        then username s else password s) ++ NL)) ds.
Proof.
  induction ds as [|d ds IH]; intros s HL HB HT HC HF.
  - cbn [map List.app run]. unfold step. cbn [handle]. unfold onConnectTimeout. rewrite HC.
    rewrite resume_none by exact HT. reflexivity.
  - inversion HF as [|? ? Hd HF']. subst. cbv beta in Hd. cbn [map List.app run].
    unfold step. cbn [handle]. rewrite handleData_login_prompt by assumption.
    rewrite resume_none by (simpl_session; exact HT).
    rewrite (surjective_pairing (run _ _)). cbn [snd].
    rewrite IH by (simpl_session; first [assumption | reflexivity]). simpl_session. reflexivity.
Qed.

End LoginProps.

Lemma login_reprompt_keeps_connect_pending_witness :
  Session.loggedIn (fst (Session.run Session.init
                           [Session.EvConnect "admin" "secret" "enable"; Session.EvConnected])) = false /\
  snd (Session.run (fst (Session.run Session.init
                           [Session.EvConnect "admin" "secret" "enable"; Session.EvConnected]))
         (map Session.EvData ["Login incorrect" ++ NL ++ "Login:"; "Password:"] ++
          [Session.EvConnectTimeout])) =
  [Session.Write ("admin" ++ NL); Session.Write ("secret" ++ NL)].
Proof.
  split; [vm_compute; reflexivity|].
  apply (login_reprompt_keeps_connect_pending ["Login incorrect" ++ NL ++ "Login:"; "Password:"]
           (fst (Session.run Session.init
                   [Session.EvConnect "admin" "secret" "enable"; Session.EvConnected])));
    vm_compute; repeat constructor.
Defined.
